(** * Azure endpoint glue for LightRAG / RAGAnything: a shallow embedding

    The development follows the Python sources:
    - [debug_tools/azure_config_parser.py]  (the URL resolver [parse_azure_url]),
    - [azure_integration/azure_lightrag_fix.py] (completion and embedding
      entry points),
    - the example scripts (configuration check, query batch, command line).

    Python values are modelled as follows: [str] is [string], one [ascii] per
    code point (so the model covers code points below 256); [None]-able values
    are [option]; a call that may raise returns a [py_result]. *)

From Stdlib Require Import ZArith Ascii String List Bool Lia.
From Stdlib Require Import SpecFloat.
From stdpp Require Import gmap strings list fin_maps.

Import ListNotations.
Local Open Scope string_scope.
#[local] Arguments String.append !_ _ / : simpl nomatch.
Local Open Scope list_scope.

(** ** Python results and exceptions *)

Inductive exn : Type :=
| ValueError (msg : string)
| TypeError (msg : string)
| IndexError (msg : string)
| BinasciiError (msg : string)      (* a subclass of ValueError *)
| RemoteError (msg : string)        (* any Exception raised by the vendor SDK *)
| CancelledError                    (* asyncio cancellation: a BaseException *)
| SystemExit (code : Z).            (* [sys.exit(code)]: a BaseException *)

(** [isinstance(e, Exception)] *)
Definition is_Exception (e : exn) : bool :=
  match e with
  | CancelledError | SystemExit _ => false
  | _ => true
  end.

(** [str(e)] *)
Definition exn_str (e : exn) : string :=
  match e with
  | ValueError m | TypeError m | IndexError m | BinasciiError m
  | RemoteError m => m
  | CancelledError => EmptyString
  | SystemExit _ => EmptyString
  end.

Inductive py_result (A : Type) : Type :=
| Return (a : A)
| Raise (e : exn).
Arguments Return {A} a.
Arguments Raise {A} e.

Definition bind {A B} (r : py_result A) (k : A -> py_result B) : py_result B :=
  match r with
  | Return a => k a
  | Raise e => Raise e
  end.

(** Truthiness of an optional string: [None] and [''] are falsy. *)
Definition truthy (v : option string) : bool :=
  match v with
  | Some (String _ _) => true
  | _ => false
  end.

(** ** String primitives used by [urllib.parse] and by the resolver *)

Module Str.

Definition eqc (a b : ascii) : bool := Ascii.eqb a b.

(** [c in s] *)
Fixpoint contains (c : ascii) (s : string) : bool :=
  match s with
  | EmptyString => false
  | String x s' => eqc x c || contains c s'
  end.

Fixpoint forallb (p : ascii -> bool) (s : string) : bool :=
  match s with
  | EmptyString => true
  | String x s' => p x && forallb p s'
  end.

(** [s.lstrip(chars)] with [chars] given as a predicate. *)
Fixpoint lstrip (p : ascii -> bool) (s : string) : string :=
  match s with
  | EmptyString => EmptyString
  | String x s' => if p x then lstrip p s' else s
  end.

(** [s.rstrip(chars)] *)
Fixpoint rstrip (p : ascii -> bool) (s : string) : string :=
  match s with
  | EmptyString => EmptyString
  | String x s' =>
      match rstrip p s' with
      | EmptyString => if p x then EmptyString else String x EmptyString
      | r => String x r
      end
  end.

Definition strip (p : ascii -> bool) (s : string) : string :=
  rstrip p (lstrip p s).

(** [s.replace(c, "")] for every [c] satisfying [p]. *)
Fixpoint remove (p : ascii -> bool) (s : string) : string :=
  match s with
  | EmptyString => EmptyString
  | String x s' => if p x then remove p s' else String x (remove p s')
  end.

(** The prefix before the first character satisfying [p], and the rest
    starting at that character: [(s[:i], s[i:])] for the least such [i],
    [(s, "")] when there is none. *)
Fixpoint break (p : ascii -> bool) (s : string) : string * string :=
  match s with
  | EmptyString => (EmptyString, EmptyString)
  | String x s' =>
      if p x then (EmptyString, s)
      else let (a, b) := break p s' in (String x a, b)
  end.

(** [s.split(c, 1)] when [c in s]: the text before and after the first [c];
    [None] when [c] does not occur ([s.find(c) < 0]). *)
Fixpoint split1 (c : ascii) (s : string) : option (string * string) :=
  match s with
  | EmptyString => None
  | String x s' =>
      if eqc x c then Some (EmptyString, s')
      else match split1 c s' with
           | Some (a, b) => Some (String x a, b)
           | None => None
           end
  end.

(** [(s[:r+1], s[r+1:])] for [r = s.rfind(c)]; [("", s)] when [c] is absent. *)
Fixpoint rsplit_after (c : ascii) (s : string) : string * string :=
  match s with
  | EmptyString => (EmptyString, EmptyString)
  | String x s' =>
      if contains c s' then
        let (h, t) := rsplit_after c s' in (String x h, t)
      else if eqc x c then (String x EmptyString, s')
      else (EmptyString, s)
  end.

(** [s.split(c)]: never the empty list. *)
Fixpoint split (c : ascii) (s : string) : list string :=
  match s with
  | EmptyString => [EmptyString]
  | String x s' =>
      if eqc x c then EmptyString :: split c s'
      else match split c s' with
           | h :: t => String x h :: t
           | [] => [String x EmptyString]
           end
  end.

Definition is_upper (c : ascii) : bool :=
  let n := nat_of_ascii c in (65 <=? n)%nat && (n <=? 90)%nat.
Definition is_lower (c : ascii) : bool :=
  let n := nat_of_ascii c in (97 <=? n)%nat && (n <=? 122)%nat.
Definition is_digit (c : ascii) : bool :=
  let n := nat_of_ascii c in (48 <=? n)%nat && (n <=? 57)%nat.

Definition lower_char (c : ascii) : ascii :=
  if is_upper c then ascii_of_nat (nat_of_ascii c + 32) else c.

(** [s.lower()] on the ASCII range. *)
Fixpoint lower (s : string) : string :=
  match s with
  | EmptyString => EmptyString
  | String x s' => String (lower_char x) (lower s')
  end.

(** [l.index(x)] as an option ([None] where Python raises [ValueError]). *)
Fixpoint index (x : string) (l : list string) : option nat :=
  match l with
  | [] => None
  | y :: l' => if String.eqb y x then Some 0%nat
               else option_map S (index x l')
  end.

(** [x in l] *)
Definition mem (x : string) (l : list string) : bool :=
  existsb (String.eqb x) l.

End Str.

(** ** [urllib.parse.urlparse] (CPython 3.11.4 and later), for [str] arguments

    The resolver calls [urlparse(full_url)] with the default [scheme=''] and
    [allow_fragments=True].  The validation of a bracketed (IPv6) host,
    [_check_bracketed_netloc], goes through the [ipaddress] module and is
    taken as a parameter: it returns the exception it raises, if any.
    [_checknetloc] only rejects characters whose NFKC form contains one of
    [/?#@:]; all of these lie above U+00FF, so on the strings of this model
    it never raises. *)

Record SplitResult : Type := mkSplit {
  sr_scheme : string;
  sr_netloc : string;
  sr_url : string;
  sr_query : string;
  sr_fragment : string
}.

Record ParseResult : Type := mkParse {
  scheme : string;
  netloc : string;
  path : string;
  params : string;
  query : string;
  fragment : string
}.

Definition uses_params : list string :=
  [""; "ftp"; "hdl"; "prospero"; "http"; "imap";
   "https"; "shttp"; "rtsp"; "rtspu"; "sip"; "sips";
   "mms"; "sftp"; "tel"].

(** [_WHATWG_C0_CONTROL_OR_SPACE]: the code points 0 to 32. *)
Definition is_c0_control_or_space (c : ascii) : bool :=
  (nat_of_ascii c <=? 32)%nat.

(** [_UNSAFE_URL_BYTES_TO_REMOVE = ['\t', '\r', '\n']] *)
Definition is_unsafe_url_byte (c : ascii) : bool :=
  let n := nat_of_ascii c in
  (n =? 9)%nat || (n =? 13)%nat || (n =? 10)%nat.

(** [c in scheme_chars]: letters, digits and [+-.] *)
Definition is_scheme_char (c : ascii) : bool :=
  Str.is_lower c || Str.is_upper c || Str.is_digit c ||
  Str.eqc c "+" || Str.eqc c "-" || Str.eqc c ".".

(** [c.isascii() and c.isalpha()] *)
Definition is_ascii_alpha (c : ascii) : bool :=
  Str.is_lower c || Str.is_upper c.

(** The delimiters [_splitnetloc] looks for. *)
Definition is_netloc_delim (c : ascii) : bool :=
  Str.eqc c "/" || Str.eqc c "?" || Str.eqc c "#".

(** The scheme step of [urlsplit]:
    [i = url.find(':')]; when [i > 0], [url[0]] is an ASCII letter and every
    character of [url[:i]] is in [scheme_chars], the scheme is
    [url[:i].lower()] and the rest is [url[i+1:]]. *)
Definition split_scheme (url : string) : string * string :=
  match Str.split1 ":" url with
  | Some (String c0 _ as pre, rest) =>
      if is_ascii_alpha c0 && Str.forallb is_scheme_char pre
      then (Str.lower pre, rest)
      else (EmptyString, url)
  | _ => (EmptyString, url)
  end.

(** [_splitparams]: the parameters start at the first [;] after the last
    [/].  [urlparse] calls it only when [';' in url], so in the branch
    without a [/] a [;] is always found. *)
Definition _splitparams (url : string) : string * string :=
  if Str.contains "/" url then
    let (h, t) := Str.rsplit_after "/" url in
    match Str.split1 ";" t with
    | Some (a, b) => (h +:+ a, b)
    | None => (url, EmptyString)
    end
  else
    match Str.split1 ";" url with
    | Some (a, b) => (a, b)
    | None => (url, EmptyString)
    end.

Section UrlParse.

Variable _check_bracketed_netloc : string -> option exn.

(** The netloc step of [urlsplit]. *)
Definition split_netloc (url : string) : py_result (string * string) :=
  match url with
  | String "/" (String "/" rest) =>
      let (nl, url') := Str.break is_netloc_delim rest in
      let lb := Str.contains "[" nl in
      let rb := Str.contains "]" nl in
      if (lb && negb rb) || (rb && negb lb) then
        Raise (ValueError "Invalid IPv6 URL")
      else if lb && rb then
        match _check_bracketed_netloc nl with
        | Some e => Raise e
        | None => Return (nl, url')
        end
      else Return (nl, url')
  | _ => Return (EmptyString, url)
  end.

Definition urlsplit (url0 : string) : py_result SplitResult :=
  let url := Str.lstrip is_c0_control_or_space url0 in
  let url := Str.remove is_unsafe_url_byte url in
  let (sch, url) := split_scheme url in
  bind (split_netloc url) (fun '(nl, url) =>
    let (url, frag) :=
      match Str.split1 "#" url with
      | Some (a, b) => (a, b)
      | None => (url, EmptyString)
      end in
    let (url, qry) :=
      match Str.split1 "?" url with
      | Some (a, b) => (a, b)
      | None => (url, EmptyString)
      end in
    Return (mkSplit sch nl url qry frag)).

Definition urlparse (url : string) : py_result ParseResult :=
  bind (urlsplit url) (fun sr =>
    let (url, prm) :=
      if Str.mem (sr_scheme sr) uses_params && Str.contains ";" (sr_url sr)
      then _splitparams (sr_url sr)
      else (sr_url sr, EmptyString) in
    Return (mkParse (sr_scheme sr) (sr_netloc sr) url prm
                    (sr_query sr) (sr_fragment sr))).

(** ** [parse_azure_url] (azure_config_parser.py, lines 22-48)

    The [print] calls only write to standard output and are left out. *)

Definition is_slash (c : ascii) : bool := Str.eqc c "/".

(** [parsed.path.strip('/').split('/')] *)
Definition path_parts_of (parsed : ParseResult) : list string :=
  Str.split "/" (Str.strip is_slash (path parsed)).

Definition deployment_of (path_parts : list string) : option string :=
  if Str.mem "deployments" path_parts then
    match Str.index "deployments" path_parts with
    | Some i =>
        let deployment_idx := (i + 1)%nat in
        if (deployment_idx <? length path_parts)%nat
        then nth_error path_parts deployment_idx
        else None
    | None => None
    end
  else None.

Definition parse_azure_url (full_url : option string)
  : py_result (option string * option string) :=
  match full_url with
  | Some (String _ _ as u) =>
      bind (urlparse u) (fun parsed =>
        let base_url := scheme parsed +:+ "://" +:+ netloc parsed +:+ "/openai/" in
        let path_parts := path_parts_of parsed in
        Return (Some base_url, deployment_of path_parts))
  | _ => Return (None, None)       (* [if not full_url] *)
  end.

End UrlParse.

(** ** [base64.b64decode] (CPython 3.11; [binascii.a2b_base64], non-strict)

    A [bytes] object is a list of integers in [0, 256). *)

Module Base64.
Local Open Scope Z_scope.

Definition alphabet : string :=
  "ABCDEFGHIJKLMNOPQRSTUVWXYZabcdefghijklmnopqrstuvwxyz0123456789+/".

(** [table_a2b_base64]: the 6-bit value of an alphabet character. *)
Fixpoint value_in (tbl : string) (c : ascii) (i : Z) : option Z :=
  match tbl with
  | EmptyString => None
  | String x tbl' => if Ascii.eqb x c then Some i else value_in tbl' c (i + 1)
  end.

Definition value (c : ascii) : option Z := value_in alphabet c 0.

(** [table_b2a_base64]: the character of a 6-bit value. *)
Definition char (v : Z) : ascii :=
  match String.get (Z.to_nat v) alphabet with
  | Some c => c
  | None => "="%char
  end.

(** The main loop of [a2b_base64] with [strict_mode = 0].  [quad_pos],
    [leftchar] and [pads] are the C locals; the bytes written through
    [bin_data] are returned in order.  Reaching [done] on a complete pad
    sequence stops the scan; at the end of input a dangling quad is an error.
    Stores into [unsigned char] are reduced modulo 256. *)
Fixpoint a2b_loop (s : string) (quad_pos : nat) (leftchar : Z) (pads : nat)
  : py_result (list Z) :=
  match s with
  | EmptyString =>
      match quad_pos with
      | 0%nat => Return []
      | 1%nat => Raise (BinasciiError
                 "Invalid base64-encoded string: number of data characters cannot be 1 more than a multiple of 4")
      | _ => Raise (BinasciiError "Incorrect padding")
      end
  | String this_ch s' =>
      if Ascii.eqb this_ch "=" then
        if (2 <=? quad_pos)%nat then
          if (4 <=? quad_pos + (pads + 1))%nat then Return []
          else a2b_loop s' quad_pos leftchar (pads + 1)%nat
        else a2b_loop s' quad_pos leftchar pads
      else
        match value this_ch with
        | None => a2b_loop s' quad_pos leftchar pads
        | Some v =>
            match quad_pos with
            | 0%nat => a2b_loop s' 1%nat v 0%nat
            | 1%nat =>
                bind (a2b_loop s' 2%nat (Z.land v 15) 0%nat) (fun out =>
                  Return (Z.lor (Z.shiftl leftchar 2) (Z.shiftr v 4) mod 256 :: out))
            | 2%nat =>
                bind (a2b_loop s' 3%nat (Z.land v 3) 0%nat) (fun out =>
                  Return (Z.lor (Z.shiftl leftchar 4) (Z.shiftr v 2) mod 256 :: out))
            | _ =>
                bind (a2b_loop s' 0%nat 0 0%nat) (fun out =>
                  Return (Z.lor (Z.shiftl leftchar 6) v mod 256 :: out))
            end
        end
  end.

Definition a2b_base64 (s : string) : py_result (list Z) := a2b_loop s 0%nat 0 0%nat.

Definition isascii (c : ascii) : bool := (nat_of_ascii c <? 128)%nat.

(** [base64.b64decode(s)] for a [str] argument, [validate=False]. *)
Definition b64decode (s : string) : py_result (list Z) :=
  if Str.forallb isascii s then a2b_base64 s
  else Raise (ValueError "string argument should contain only ASCII characters").

(** The values of a [bytes] object. *)
Definition is_byte (b : Z) : Prop := 0 <= b < 256.

(** The standard encoding with padding ([base64.b64encode]); the decoder never
    calls it, it describes the strings the vendor endpoint sends. *)
Fixpoint b64encode (b : list Z) : string :=
  match b with
  | [] => EmptyString
  | [b0] =>
      String (char (b0 / 4)) (String (char (b0 mod 4 * 16)) "==")
  | [b0; b1] =>
      String (char (b0 / 4)) (String (char (b0 mod 4 * 16 + b1 / 16))
        (String (char (b1 mod 16 * 4)) "="))
  | b0 :: b1 :: b2 :: rest =>
      String (char (b0 / 4)) (String (char (b0 mod 4 * 16 + b1 / 16))
        (String (char (b1 mod 16 * 4 + b2 / 64)) (String (char (b2 mod 64))
          (b64encode rest))))
  end.

End Base64.

(** ** The two numpy conversions of [azure_openai_embed]

    A Python [float] is an IEEE binary64 and a [np.float32] an IEEE binary32;
    both are [spec_float]s (sign, mantissa, exponent, no NaN payload) that are
    valid for their format. *)

Module Np.
Local Open Scope Z_scope.

Definition prec32 : Z := 24.
Definition emax32 : Z := 128.
Definition prec64 : Z := 53.
Definition emax64 : Z := 1024.

Definition valid32 (x : spec_float) : bool := valid_binary prec32 emax32 x.
Definition valid64 (x : spec_float) : bool := valid_binary prec64 emax64 x.

(** Conversion of a Python float to [np.float32]: round to nearest, ties to
    even, overflow to infinity. *)
Definition to_float32 (x : spec_float) : spec_float :=
  match x with
  | S754_finite s m e => binary_round prec32 emax32 s m e
  | _ => x
  end.

(** The Python float with the value of a [np.float32] (the widening is
    exact): what a plain numeric array holds for that number. *)
Definition to_float64 (x : spec_float) : spec_float :=
  match x with
  | S754_finite s m e => binary_round prec64 emax64 s m e
  | _ => x
  end.

(** [np.array(l, dtype=np.float32)] for a list of Python floats. *)
Definition array_float32 (l : list spec_float) : list spec_float :=
  map to_float32 l.

Definition sign_bit (s : bool) : Z := if s then 2 ^ 31 else 0.

(** The 32-bit pattern of a binary32 value. *)
Definition bits_of_float32 (x : spec_float) : Z :=
  match x with
  | S754_zero s => sign_bit s
  | S754_infinity s => sign_bit s + 255 * 2 ^ 23
  | S754_nan => 255 * 2 ^ 23 + 2 ^ 22
  | S754_finite s m e =>
      if Z.pos m <? 2 ^ 23 then sign_bit s + Z.pos m
      else sign_bit s + (e + 150) * 2 ^ 23 + (Z.pos m - 2 ^ 23)
  end.

(** The binary32 value of a 32-bit pattern. *)
Definition float32_of_bits (w : Z) : spec_float :=
  let s := Z.testbit w 31 in
  let ex := (w / 2 ^ 23) mod 2 ^ 8 in
  let mant := w mod 2 ^ 23 in
  if ex =? 0 then
    if mant =? 0 then S754_zero s else S754_finite s (Z.to_pos mant) (-149)
  else if ex =? 255 then
    if mant =? 0 then S754_infinity s else S754_nan
  else S754_finite s (Z.to_pos (mant + 2 ^ 23)) (ex - 150).

(** [np.frombuffer(b, dtype=np.float32)]: consecutive groups of four bytes,
    least significant first (the native order of the x86-64 and ARM64 hosts
    the scripts run on); a length that is no multiple of four is rejected. *)
Fixpoint frombuffer_float32 (b : list Z) : py_result (list spec_float) :=
  match b with
  | [] => Return []
  | b0 :: b1 :: b2 :: b3 :: rest =>
      bind (frombuffer_float32 rest) (fun l =>
        Return (float32_of_bits
                  (b0 + 2 ^ 8 * b1 + 2 ^ 16 * b2 + 2 ^ 24 * b3) :: l))
  | _ => Raise (ValueError "buffer size must be a multiple of element size")
  end.

(** The packed buffer of a float32 vector, as the endpoint sends it. *)
Definition pack_float32 (l : list spec_float) : list Z :=
  flat_map (fun x =>
    let w := bits_of_float32 x in
    [w mod 2 ^ 8; (w / 2 ^ 8) mod 2 ^ 8; (w / 2 ^ 16) mod 2 ^ 8;
     (w / 2 ^ 24) mod 2 ^ 8]) l.

End Np.

(** ** azure_lightrag_fix.py *)

(** [os.getenv(key, default)] *)
Definition getenv_default (environ : gmap string string) (key dflt : string)
  : string :=
  match environ !! key with
  | Some v => v
  | None => dflt
  end.

(** [all([...])] on optional strings *)
Definition all_truthy (l : list (option string)) : bool := forallb truthy l.

Definition str_of (v : option string) : string :=
  match v with
  | Some s => s
  | None => EmptyString
  end.

Record message : Type := mkMessage {
  role : string;
  content : string
}.

(** The [embedding] field of a response item: a list of floats or a string. *)
Inductive embedding_field : Type :=
| EmbList (l : list spec_float)
| EmbStr (s : string).

(** The line
    [np.array(dp.embedding, dtype=np.float32) if isinstance(dp.embedding, list)
     else np.frombuffer(base64.b64decode(dp.embedding), dtype=np.float32)] *)
Definition decode_embedding (embedding : embedding_field)
  : py_result (list spec_float) :=
  match embedding with
  | EmbList l => Return (Np.array_float32 l)
  | EmbStr s => bind (Base64.b64decode s) Np.frombuffer_float32
  end.

(** The list comprehension over [response.data], in order. *)
Fixpoint decode_all (data : list embedding_field)
  : py_result (list (list spec_float)) :=
  match data with
  | [] => Return []
  | dp :: rest =>
      bind (decode_embedding dp) (fun row =>
        bind (decode_all rest) (fun rows => Return (row :: rows)))
  end.

(** The outer [np.array([...])]: rows of one length stack into a matrix
    (numpy 1.24 and later reject ragged rows). *)
Definition np_array_rows (rows : list (list spec_float))
  : py_result (list (list spec_float)) :=
  match rows with
  | [] => Return []
  | r :: rest =>
      if forallb (fun r' => (length r' =? length r)%nat) rest
      then Return rows
      else Raise (ValueError "setting an array element with a sequence. The requested array has an inhomogeneous shape")
  end.

Section LightragFix.

(** The Python objects carried by keyword arguments. *)
Context {V : Type}.

(** What the function does to the outside: the client it builds, the
    requests it awaits, and the release of the client. *)
Inductive event : Type :=
| ClientOpen (api_key azure_endpoint api_version : string)
| ChatCreate (model : string) (messages : list message)
             (kwargs : gmap string V)
| EmbeddingsCreate (model : string) (input : list string)
                   (kwargs : gmap string V)
| ClientClose.

(** A computation: the events so far and how it ended. *)
Definition M (A : Type) : Type := list event * py_result A.

Definition ret {A} (a : A) : M A := ([], Return a).
Definition raise {A} (e : exn) : M A := ([], Raise e).
Definition emit (ev : event) : M unit := ([ev], Return tt).
Definition lift {A} (r : py_result A) : M A := ([], r).

Definition mbind {A B} (c : M A) (k : A -> M B) : M B :=
  match c with
  | (t, Return a) => let (t', r) := k a in (t ++ t', r)
  | (t, Raise e) => (t, Raise e)
  end.

(** [try: body finally: cleanup] *)
Definition try_finally {A} (body : M A) (cleanup : M unit) : M A :=
  let (t, r) := body in
  let (t', c) := cleanup in
  (t ++ t', match c with
            | Return _ => r
            | Raise e => Raise e
            end).

(** The vendor SDK: the outcome of awaiting a request (a response, an error
    or a cancellation). *)
Variable chat_completions_create :
  string -> list message -> gmap string V -> py_result (list (option string)).
Variable embeddings_create :
  string -> list string -> gmap string V -> py_result (list embedding_field).

(** What [load_dotenv()] finds in the [.env] file. *)
Variable dotenv_file : gmap string string.

(** [load_dotenv()]: variables already set are kept. *)
Definition load_dotenv (environ : gmap string string) : gmap string string :=
  environ ∪ dotenv_file.

Definition lightrag_params : gset string :=
  {[ "azure_endpoint"; "api_version"; "azure_deployment"; "hashing_kv";
     "keyword_extraction"; "enable_cot" ]}.

(** [{k: v for k, v in kwargs.items() if k not in lightrag_params}] *)
Definition filtered_kwargs (kwargs : gmap string V) : gmap string V :=
  filter (fun kv => kv.1 ∉ lightrag_params) kwargs.

(** A call [f(name=..., **kwargs)]: a key of [kwargs] that repeats an explicit
    keyword is a [TypeError] before [f] runs. *)
Definition call_kw {A} (explicit : list string) (kwargs : gmap string V)
    (call : M A) : M A :=
  if existsb (fun k => bool_decide (is_Some (kwargs !! k))) explicit
  then raise (TypeError "got multiple values for keyword argument")
  else call.

Definition client_close : M unit := emit ClientClose.

(** [azure_openai_complete_if_cache] (lines 17-64) *)
Definition azure_openai_complete_if_cache (environ : gmap string string)
    (prompt system_prompt : option string) (history_messages : list message)
    (kwargs : gmap string V) : M (option string) :=
  let api_key := environ !! "AZURE_OPENAI_API_KEY" in
  let endpoint := environ !! "AZURE_OPENAI_ENDPOINT" in
  let deployment := environ !! "AZURE_OPENAI_LLM_DEPLOYMENT" in
  let api_version :=
    getenv_default environ "AZURE_LLM_API_VERSION" "2024-08-01-preview" in
  if negb (all_truthy [api_key; endpoint; deployment]) then
    raise (ValueError "Missing required Azure OpenAI configuration")
  else
    mbind (emit (ClientOpen (str_of api_key) (str_of endpoint) api_version))
    (fun _ =>
      let messages :=
        (if truthy system_prompt
         then [mkMessage "system" (str_of system_prompt)] else []) ++
        history_messages ++
        (if truthy prompt then [mkMessage "user" (str_of prompt)] else []) in
      let filtered := filtered_kwargs kwargs in
      mbind (call_kw ["model"; "messages"] filtered
               (mbind (emit (ChatCreate (str_of deployment) messages filtered))
                  (fun _ => lift (chat_completions_create
                                    (str_of deployment) messages filtered))))
      (fun choices =>
        match choices with
        | c :: _ => ret c
        | [] => raise (IndexError "list index out of range")
        end)).

(** [azure_openai_embed] (lines 67-118) *)
Definition azure_openai_embed (environ : gmap string string)
    (texts : string + list string) (kwargs : gmap string V)
  : M (list (list spec_float)) :=
  let environ := load_dotenv environ in
  let api_key := environ !! "AZURE_OPENAI_API_KEY" in
  let endpoint := environ !! "AZURE_OPENAI_ENDPOINT" in
  let deployment := environ !! "AZURE_OPENAI_EMBEDDING_DEPLOYMENT" in
  let api_version :=
    getenv_default environ "AZURE_EMBEDDING_API_VERSION" "2023-05-15" in
  if negb (all_truthy [api_key; endpoint; deployment]) then
    raise (ValueError "Missing required Azure OpenAI embedding configuration")
  else
    let filtered := filtered_kwargs kwargs in
    mbind (emit (ClientOpen (str_of api_key) (str_of endpoint) api_version))
    (fun _ =>
      try_finally
        (let text_input :=
           match texts with
           | inl t => [t]
           | inr l => l
           end in
         mbind (call_kw ["model"; "input"] filtered
                  (mbind (emit (EmbeddingsCreate
                                  (str_of deployment) text_input filtered))
                     (fun _ => lift (embeddings_create
                                       (str_of deployment) text_input filtered))))
         (fun data => lift (bind (decode_all data) np_array_rows)))
        client_close).

End LightragFix.

(** ** The example scripts

    What a script writes: [print] (as [Stdout]), the logger and
    [traceback.print_exc()].  The pictographs that open the messages in the
    sources are left out. *)

Inductive output : Type :=
| Stdout (s : string)
| LogInfo (s : string)
| LogError (s : string)
| PrintExc (e : exn).

(** The status with which the interpreter ends: 0 when the script runs to
    its end, the code of a [SystemExit], 1 for any other uncaught exception. *)
Definition exit_status {A} (r : py_result A) : Z :=
  match r with
  | Return _ => 0
  | Raise (SystemExit code) => code
  | Raise _ => 1
  end.

(** [sub in s] for strings *)
Fixpoint is_infix (sub s : string) : bool :=
  String.prefix sub s ||
  match s with
  | EmptyString => false
  | String _ s' => is_infix sub s'
  end.

(** [repr] of a list of plain keys: ['a', 'b'] *)
Definition repr_list (l : list string) : string :=
  "[" +:+ String.concat ", " (map (fun k => "'" +:+ k +:+ "'") l) +:+ "]".

(** A value of the configuration dictionary. *)
Inductive config_value : Type :=
| CStr (v : option string)
| CInt (n : Z).

(** [not value] *)
Definition falsy (v : config_value) : bool :=
  match v with
  | CStr o => negb (truthy o)
  | CInt n => (n =? 0)%Z
  end.

Section Examples.

(** Python's [int(s)] on a string. *)
Variable py_int : string -> py_result Z.

(** [get_azure_openai_config] (azure_openai_example.py, lines 27-51); the
    dictionary keeps its insertion order. *)
Definition get_azure_openai_config (environ : gmap string string)
  : py_result (list (string * config_value)) :=
  bind (py_int (getenv_default environ "EMBEDDING_DIM" "1536")) (fun dim =>
    let config :=
      [("llm_api_key", CStr (environ !! "LLM_BINDING_API_KEY"));
       ("llm_base_url", CStr (environ !! "LLM_BINDING_HOST"));
       ("llm_model", CStr (Some (getenv_default environ "LLM_MODEL" "gpt-4o-mini")));
       ("embed_api_key", CStr (environ !! "EMBEDDING_BINDING_API_KEY"));
       ("embed_base_url", CStr (environ !! "EMBEDDING_BINDING_HOST"));
       ("embed_model",
        CStr (Some (getenv_default environ "EMBEDDING_MODEL" "text-embedding-3-small")));
       ("embed_dim", CInt dim)] in
    let missing :=
      map fst (List.filter
                 (fun kv => falsy (snd kv) && negb (is_infix "dim" (fst kv)))
                 config) in
    match missing with
    | [] => Return config
    | _ => Raise (ValueError
                    ("Missing Azure OpenAI configuration: " +:+ repr_list missing))
    end).

(** The state of the RAG engine, and [rag.aquery(query, mode="hybrid")]. *)
Context {R : Type}.
Variable aquery : R -> string -> R * py_result string.

(** The query batch of fixed_azure_custom_example.py (lines 79-87) *)
Fixpoint query_batch_custom (rag : R) (queries : list string)
  : R * list output * py_result unit :=
  match queries with
  | [] => (rag, [], Return tt)
  | query :: rest =>
      let (rag1, r) := aquery rag query in
      match r with
      | Return result =>
          let '(rag2, out, res) := query_batch_custom rag1 rest in
          (rag2,
           LogInfo ("Query: " +:+ query) ::
           Stdout ("Answer: " +:+ result) ::
           LogInfo "Query executed successfully!" :: out,
           res)
      | Raise e =>
          if is_Exception e then
            let '(rag2, out, res) := query_batch_custom rag1 rest in
            (rag2,
             LogInfo ("Query: " +:+ query) ::
             LogError ("Query failed: " +:+ exn_str e) :: out,
             res)
          else (rag1, [LogInfo ("Query: " +:+ query)], Raise e)
      end
  end.

(** The query batch of fixed_azure_example.py (lines 143-151) *)
Fixpoint query_batch_fixed (rag : R) (queries : list string)
  : R * list output * py_result unit :=
  match queries with
  | [] => (rag, [], Return tt)
  | query :: rest =>
      let (rag1, r) := aquery rag query in
      match r with
      | Return result =>
          let '(rag2, out, res) := query_batch_fixed rag1 rest in
          (rag2,
           LogInfo ("Query: " +:+ query) ::
           LogInfo ("Answer: " +:+ result) :: out,
           res)
      | Raise e =>
          if is_Exception e then
            let '(rag2, out, res) := query_batch_fixed rag1 rest in
            (rag2,
             LogInfo ("Query: " +:+ query) ::
             LogError ("Query failed: " +:+ exn_str e) ::
             PrintExc e :: out,
             res)
          else (rag1, [LogInfo ("Query: " +:+ query)], Raise e)
      end
  end.

(** The outcomes of the successive [aquery] calls when none of them stops
    the batch. *)
Fixpoint query_outcomes (rag : R) (queries : list string)
  : list (py_result string) :=
  match queries with
  | [] => []
  | query :: rest =>
      let (rag1, r) := aquery rag query in r :: query_outcomes rag1 rest
  end.

(** [os.path.exists] *)
Variable path_exists : string -> bool.
(** [os.makedirs(path, exist_ok=True)] *)
Variable makedirs : string -> py_result unit.
(** The processing coroutines, run to completion by [asyncio.run]. *)
Variable process_with_custom_azure_openai :
  string -> list output * py_result unit.
Variable process_with_fixed_azure_openai :
  string -> string -> list output * py_result unit.
Variable process_with_azure_openai :
  string -> string -> list output * py_result unit.

(** [main] of fixed_azure_custom_example.py (lines 103-115), on [sys.argv] *)
Definition main_custom (argv : list string) : list output * py_result unit :=
  if negb (length argv =? 2)%nat then
    ([Stdout "Usage: python fixed_azure_custom_example.py <file_path>"],
     Raise (SystemExit 1))
  else
    let file_path := nth 1 argv EmptyString in
    if negb (path_exists file_path) then
      ([Stdout ("Error: File not found: " +:+ file_path)], Raise (SystemExit 1))
    else process_with_custom_azure_openai file_path.

(** The part of [main] after [parser.parse_args()], shared by
    fixed_azure_example.py (lines 170-179) and azure_openai_example.py
    (lines 184-193): [file_path] and [output] are the parsed arguments. *)
Definition main_after_args
    (process : string -> string -> list output * py_result unit)
    (file_path output_dir : string) : list output * py_result unit :=
  if negb (path_exists file_path) then
    ([LogError ("File not found: " +:+ file_path)], Return tt)   (* [return] *)
  else
    match makedirs output_dir with
    | Raise e => ([], Raise e)
    | Return _ => process file_path output_dir
    end.

Definition main_fixed := main_after_args process_with_fixed_azure_openai.
Definition main_azure := main_after_args process_with_azure_openai.

End Examples.

(** ** Shapes of URLs, for the statements below *)

(** [s.startswith(p)] *)
Fixpoint startswith (p s : string) : bool :=
  match p, s with
  | EmptyString, _ => true
  | String a p', String b s' => Ascii.eqb a b && startswith p' s'
  | String _ _, EmptyString => false
  end.

(** [s.endswith(suf)] *)
Fixpoint endswith (suf s : string) : bool :=
  String.eqb s suf ||
  match s with
  | EmptyString => false
  | String _ s' => endswith suf s'
  end.

(** A URL scheme: an ASCII letter followed by letters, digits, [+], [-]
    or [.]. *)
Definition is_scheme (s : string) : bool :=
  match s with
  | EmptyString => false
  | String c _ => is_ascii_alpha c && Str.forallb is_scheme_char s
  end.

(** No upper-case letter: the form in which [urlparse] reports a scheme. *)
Definition is_lower_case (s : string) : bool :=
  Str.forallb (fun c => negb (Str.is_upper c)) s.

(** The host part of a URL (with user, password and port, if any): no path,
    query or fragment delimiter, no tab or line break. *)
Definition is_host (h : string) : bool :=
  Str.forallb (fun c => negb (is_netloc_delim c)
                        && negb (is_unsafe_url_byte c)) h.

(** The bracket checks of [urlsplit] pass: no bracket at all, or both and a
    host that [_check_bracketed_netloc] accepts. *)
Definition host_accepted (chk : string -> option exn) (h : string) : bool :=
  let lb := Str.contains "[" h in
  let rb := Str.contains "]" h in
  if lb && rb then
    match chk h with
    | None => true
    | Some _ => false
    end
  else negb lb && negb rb.

(** A non-empty path segment: no delimiter, no tab or line break. *)
Definition is_segment (n : string) : bool :=
  match n with
  | EmptyString => false
  | _ => Str.forallb (fun c => negb (is_netloc_delim c)
                               && negb (is_unsafe_url_byte c)) n
  end.

(** A path segment without parameters: a segment with no [;]. *)
Definition is_plain_segment (n : string) : bool :=
  is_segment n && negb (Str.contains ";" n).

(** [scheme://host/<seg1>/.../<segn>?<query>] *)
Definition plain_url (sch host : string) (segs : list string) (qry : string)
  : string :=
  sch +:+ "://" +:+ host +:+ "/" +:+ String.concat "/" segs +:+ "?" +:+ qry.

(** [scheme://host/openai/deployments/<name>/<op>?<query>] *)
Definition azure_url (sch host name op qry : string) : string :=
  sch +:+ "://" +:+ host +:+ "/openai/deployments/" +:+ name +:+ "/" +:+ op
      +:+ "?" +:+ qry.

(** ** Observations on traces and logs, for the statements below *)


Definition is_close {V} (ev : @event V) : bool :=
  match ev with
  | ClientClose => true
  | _ => false
  end.

Definition is_open {V} (ev : @event V) : bool :=
  match ev with
  | ClientOpen _ _ _ => true
  | _ => false
  end.

(** What one query of the batch leaves in the output, by its outcome. *)
Definition entry_custom (query : string) (r : py_result string) : list output :=
  match r with
  | Return result =>
      [LogInfo ("Query: " +:+ query); Stdout ("Answer: " +:+ result);
       LogInfo "Query executed successfully!"]
  | Raise e =>
      [LogInfo ("Query: " +:+ query); LogError ("Query failed: " +:+ exn_str e)]
  end.

Definition entry_fixed (query : string) (r : py_result string) : list output :=
  match r with
  | Return result =>
      [LogInfo ("Query: " +:+ query); LogInfo ("Answer: " +:+ result)]
  | Raise e =>
      [LogInfo ("Query: " +:+ query); LogError ("Query failed: " +:+ exn_str e);
       PrintExc e]
  end.

(** An outcome that [except Exception] handles. *)
Definition handled (r : py_result string) : bool :=
  match r with
  | Return _ => true
  | Raise e => is_Exception e
  end.

(** ** Concrete surroundings, to run the model *)

(** An environment with the three variables of the completion function. *)
Definition env_llm : gmap string string :=
  {[ "AZURE_OPENAI_API_KEY" := "k"; "AZURE_OPENAI_ENDPOINT" := "https://r.openai.azure.com";
     "AZURE_OPENAI_LLM_DEPLOYMENT" := "gpt-4o-mini" ]}.

(** The same without the API key, and without the endpoint. *)
Definition env_no_key : gmap string string :=
  delete "AZURE_OPENAI_API_KEY" env_llm.
Definition env_no_endpoint : gmap string string :=
  delete "AZURE_OPENAI_ENDPOINT" env_llm.

(** A vendor endpoint that answers every chat request, and one whose
    embedding requests fail. *)
Definition chat_ok : string -> list message -> gmap string string ->
                     py_result (list (option string)) :=
  fun _ _ _ => Return [Some "hello"].
Definition embed_down : string -> list string -> gmap string string ->
                        py_result (list embedding_field) :=
  fun _ _ _ => Raise (RemoteError "503").

(** A RAG engine whose first query fails and whose later queries succeed;
    the state counts the queries. *)
Definition flaky_aquery (n : nat) (q : string) : nat * py_result string :=
  (S n, match n with
        | O => Raise (RemoteError "timeout")
        | _ => Return ("answer to " +:+ q)
        end).

(** A bracket check that accepts every host, to run the resolver on URLs
    without brackets. *)
Definition no_bracket_error : string -> option exn := fun _ => None.

(** * The rest of the sources

    The functions around the ones above: the configuration reader of
    azure_config_parser.py, the URL builders of the debug scripts, the third
    query batch, the processing coroutines and the step functions of
    debug_azure_integration.py. *)

(** ** Python's [int(s)] for a [str] (CPython 3.11, base 10)

    Leading and trailing white space is skipped, one sign is allowed, the
    digits may be separated by single underscores, and more than 4300 digits
    are refused.  The text of the [ValueError] is given without the [repr]
    of the argument. *)

(** White space for [int]: tab to carriage return, space, and the two
    Latin-1 spaces U+0085 and U+00A0. *)
Definition is_int_space (c : ascii) : bool :=
  let n := nat_of_ascii c in
  ((9 <=? n)%nat && (n <=? 13)%nat) || (n =? 32)%nat ||
  (n =? 133)%nat || (n =? 160)%nat.

Definition digit_of (c : ascii) : Z := Z.of_nat (nat_of_ascii c) - 48.

(** The scan over digits and underscores: the value, the number of digits
    and the text left; [None] for two underscores in a row or an underscore
    at the end. *)
Fixpoint int_digits (s : string) (prev_underscore : bool) (acc : Z) (n : nat)
  : option (Z * nat * string) :=
  match s with
  | EmptyString =>
      if prev_underscore then None else Some (acc, n, EmptyString)
  | String c s' =>
      if Str.is_digit c then
        int_digits s' false (10 * acc + digit_of c)%Z (S n)
      else if Str.eqc c "_" then
        if prev_underscore then None else int_digits s' true acc n
      else if prev_underscore then None else Some (acc, n, s)
  end.

Definition invalid_literal : exn :=
  ValueError "invalid literal for int() with base 10".

Definition int_of_str (s : string) : py_result Z :=
  let s1 := Str.lstrip is_int_space s in
  let '(negative, s2) :=
    match s1 with
    | String "+" r => (false, r)
    | String "-" r => (true, r)
    | _ => (false, s1)
    end in
  match s2 with
  | String "_" _ => Raise invalid_literal
  | _ =>
      match int_digits s2 false 0%Z 0%nat with
      | None => Raise invalid_literal
      | Some (v, n, rest) =>
          if (n =? 0)%nat then Raise invalid_literal
          else if (4300 <? n)%nat then
            Raise (ValueError
                     "Exceeds the limit (4300 digits) for integer string conversion")
          else if Str.forallb is_int_space rest then
            Return (if negative then (- v)%Z else v)
          else Raise invalid_literal
      end
  end.

(** ** [parse_azure_openai_config] (azure_config_parser.py, lines 12-82)

    The dictionary it returns, as a record; the [print] calls are left out. *)

Record azure_config : Type := mkAzureConfig {
  llm_base_url : option string;
  llm_deployment : option string;
  llm_api_key : option string;
  llm_model : string;
  embed_base_url : option string;
  embed_deployment : option string;
  embed_api_key : option string;
  embed_model : string;
  embed_dim : Z
}.

Definition parse_azure_openai_config
    (_check_bracketed_netloc : string -> option exn)
    (dotenv_file environ0 : gmap string string) : py_result azure_config :=
  let environ := load_dotenv dotenv_file environ0 in
  let llm_full_url := environ !! "LLM_BINDING_HOST" in
  let embedding_full_url := environ !! "EMBEDDING_BINDING_HOST" in
  bind (parse_azure_url _check_bracketed_netloc llm_full_url)
    (fun '(llm_base, llm_dep) =>
  let llm_key := environ !! "LLM_BINDING_API_KEY" in
  bind (parse_azure_url _check_bracketed_netloc embedding_full_url)
    (fun '(embed_base, embed_dep) =>
  let embed_key := environ !! "EMBEDDING_BINDING_API_KEY" in
  bind (int_of_str (getenv_default environ "EMBEDDING_DIM" "1536"))
    (fun dim =>
  Return {| llm_base_url := llm_base;
            llm_deployment := llm_dep;
            llm_api_key := llm_key;
            llm_model := getenv_default environ "LLM_MODEL" "gpt-4o-mini";
            embed_base_url := embed_base;
            embed_deployment := embed_dep;
            embed_api_key := embed_key;
            embed_model :=
              getenv_default environ "EMBEDDING_MODEL" "text-embedding-3-small";
            embed_dim := dim |}))).

(** ** URL construction in the debug scripts *)

(** debug_azure_urls.py, lines 31-34: the LLM base URL and the full chat
    URL it prints, when the endpoint and the deployment are set. *)
Definition debug_llm_urls (endpoint llm_deployment : option string)
    (api_version : string) : option (string * string) :=
  if truthy endpoint && truthy llm_deployment then
    let llm_base := str_of endpoint +:+ "/openai/deployments/"
                                    +:+ str_of llm_deployment in
    Some (llm_base, llm_base +:+ "/chat/completions?api-version=" +:+ api_version)
  else None.

(** debug_azure_urls.py, lines 36-39: the same for the embedding URL. *)
Definition debug_embed_urls (endpoint embed_deployment : option string)
    (api_version : string) : option (string * string) :=
  if truthy endpoint && truthy embed_deployment then
    let embed_base := str_of endpoint +:+ "/openai/deployments/"
                                      +:+ str_of embed_deployment in
    Some (embed_base, embed_base +:+ "/embeddings?api-version=" +:+ api_version)
  else None.

(** debug_azure_openai.py, line 69:
    ["/".join(binding_host.split("/")[:3])] *)
Definition endpoint_of (binding_host : string) : string :=
  String.concat "/" (firstn 3 (Str.split "/" binding_host)).

(** ** The query batch of azure_openai_example.py (lines 161-167) *)

Definition entry_azure (query : string) (r : py_result string) : list output :=
  match r with
  | Return result =>
      [LogInfo ("Query: " +:+ query); LogInfo ("Answer: " +:+ result)]
  | Raise e =>
      [LogInfo ("Query: " +:+ query); LogError ("Query failed: " +:+ exn_str e)]
  end.

Section AzureBatch.
Context {R : Type}.
Variable aquery : R -> string -> R * py_result string.

Fixpoint query_batch_azure (rag : R) (queries : list string)
  : R * list output * py_result unit :=
  match queries with
  | [] => (rag, [], Return tt)
  | query :: rest =>
      let (rag1, r) := aquery rag query in
      match r with
      | Return result =>
          let '(rag2, out, res) := query_batch_azure rag1 rest in
          (rag2,
           LogInfo ("Query: " +:+ query) ::
           LogInfo ("Answer: " +:+ result) :: out,
           res)
      | Raise e =>
          if is_Exception e then
            let '(rag2, out, res) := query_batch_azure rag1 rest in
            (rag2,
             LogInfo ("Query: " +:+ query) ::
             LogError ("Query failed: " +:+ exn_str e) :: out,
             res)
          else (rag1, [LogInfo ("Query: " +:+ query)], Raise e)
      end
  end.

End AzureBatch.

(** ** More shapes, for the statements below *)

(** The last two steps of [urlsplit] on the text after the host: the path,
    the query and the fragment. *)
Definition split_query_fragment (url : string) : string * string * string :=
  let (url, frag) :=
    match Str.split1 "#" url with
    | Some (a, b) => (a, b)
    | None => (url, EmptyString)
    end in
  let (url, qry) :=
    match Str.split1 "?" url with
    | Some (a, b) => (a, b)
    | None => (url, EmptyString)
    end in
  (url, qry, frag).

(** What may follow a path: nothing, a query or a fragment. *)
Definition is_url_tail (t : string) : bool :=
  match t with
  | EmptyString => true
  | String c _ => Str.eqc c "?" || Str.eqc c "#"
  end.

(** Only slashes. *)
Definition all_slashes (t : string) : bool := Str.forallb is_slash t.

(** [scheme://host/<seg1>/.../<segn>] followed by [tail] *)
Definition path_url (sch host : string) (segs : list string) (tail : string)
  : string :=
  sch +:+ "://" +:+ host +:+ "/" +:+ String.concat "/" segs +:+ tail.

(** The state of the RAG engine after a batch that no query stopped. *)
Fixpoint rag_after {R : Type} (aquery : R -> string -> R * py_result string)
    (rag : R) (queries : list string) : R :=
  match queries with
  | [] => rag
  | query :: rest => rag_after aquery (aquery rag query).1 rest
  end.

(** An outcome that [except Exception] does not handle. *)
Definition unhandled {A} (r : py_result A) : bool :=
  match r with
  | Return _ => false
  | Raise e => negb (is_Exception e)
  end.

(** ** The processing coroutines of the example scripts

    The RAGAnything library is outside the repository: its constructors and
    the methods of the engine are parameters, each giving the outcome of the
    call.  A trace records what the script writes and the calls it makes on
    the engine.  As above, the pictographs and the line break that open some
    messages are left out. *)

Inductive script_event : Type :=
| Out (o : output)
| LogWarning (s : string)
| Construct                                   (* [RAGAnything(...)] *)
| ProcessDocument (file_path : string) (output_dir : option string)
| FinalizeStorages.                           (* [rag.finalize_storages()] *)


Definition is_finalize (ev : script_event) : bool :=
  match ev with
  | FinalizeStorages => true
  | _ => false
  end.


(** ["=" * n] *)
Fixpoint rule (n : nat) : string :=
  match n with
  | O => EmptyString
  | S n' => String "=" (rule n')
  end.

(** [str(v)] for an optional string, as an f-string formats it. *)
Definition py_str (v : option string) : string :=
  match v with
  | Some s => s
  | None => "None"
  end.

(** The two queries every script asks. *)
Definition queries : list string :=
  ["What is the main content of the document?";
   "What are the key topics discussed?"].

(** [str] of the [UnboundLocalError] for [rag] (CPython 3.11). *)
Definition unbound_rag : string :=
  "cannot access local variable 'rag' where it is not associated with a value".

(** [embed_dim] of the dictionary of [get_azure_openai_config]. *)
Definition config_int (key : string) (config : list (string * config_value))
  : Z :=
  match List.find (fun kv => String.eqb (fst kv) key) config with
  | Some (_, CInt n) => n
  | _ => 0%Z
  end.

Section Scripts.

Context {R : Type}.

(** [RAGAnythingConfig(working_dir=..., ...)] *)
Variable RAGAnythingConfig : string -> py_result unit.
(** [EmbeddingFunc(embedding_dim=..., max_token_size=8192, func=...)] *)
Variable EmbeddingFunc : Z -> py_result unit.
(** [RAGAnything(config=..., ...)] *)
Variable RAGAnything : string -> py_result R.
(** [await rag.process_document_complete(...)] *)
Variable process_document_complete :
  R -> string -> option string -> R * py_result unit.
(** [await rag.aquery(query, mode="hybrid")] *)
Variable aquery : R -> string -> R * py_result string.
(** [await rag.finalize_storages()] *)
Variable finalize_storages : R -> py_result unit.

(** The [try] block of [process_with_custom_azure_openai]
    (fixed_azure_custom_example.py, lines 34-89): the trace, the engine bound
    to [rag] when the block is left, and how the block ended. *)
Definition custom_try (file_path : string)
  : list script_event * option R * py_result unit :=
  let t0 :=
    [Out (Stdout "RAGAnything Fixed Azure OpenAI with Custom Functions");
     Out (Stdout (rule 65));
     Out (Stdout "Processing document with custom Azure OpenAI functions");
     Out (Stdout (rule 65));
     Out (LogInfo "Azure OpenAI custom functions loaded successfully");
     Out (LogInfo "Using custom Azure OpenAI functions:");
     Out (LogInfo "   LLM Function: azure_openai_complete_if_cache");
     Out (LogInfo "   Embedding Function: azure_openai_embed")] in
  match RAGAnythingConfig "./rag_storage_custom" with
  | Raise e => (t0, None, Raise e)
  | Return _ =>
      match RAGAnything "./rag_storage_custom" with
      | Raise e => (t0 ++ [Construct], None, Raise e)
      | Return rag =>
          let t1 := t0 ++ [Construct;
                           Out (LogInfo ("Processing document: " +:+ file_path));
                           ProcessDocument file_path None] in
          let (rag1, r) := process_document_complete rag file_path None in
          match r with
          | Raise e => (t1, Some rag1, Raise e)
          | Return _ =>
              let '(rag2, out, res) := query_batch_custom aquery rag1 queries in
              let t2 := t1 ++
                [Out (LogInfo "Document processing completed successfully!");
                 Out (LogInfo "Testing queries:")] ++ map Out out in
              match res with
              | Raise e => (t2, Some rag2, Raise e)
              | Return _ =>
                  (t2 ++ [Out (LogInfo "All operations completed successfully!")],
                   Some rag2, Return tt)
              end
          end
      end
  end.

(** The [finally] block (lines 96-101). *)
Definition custom_finally (rag : option R)
  : list script_event * py_result unit :=
  match rag with
  | None =>
      ([LogWarning ("Warning: Failed to finalize RAGAnything: " +:+ unbound_rag)],
       Return tt)
  | Some rag =>
      match finalize_storages rag with
      | Return _ =>
          ([FinalizeStorages;
            Out (LogInfo "RAGAnything finalized successfully")], Return tt)
      | Raise e =>
          if is_Exception e then
            ([FinalizeStorages;
              LogWarning ("Warning: Failed to finalize RAGAnything: "
                          +:+ exn_str e)], Return tt)
          else ([FinalizeStorages], Raise e)
      end
  end.

(** [process_with_custom_azure_openai] (lines 30-101) *)
Definition process_with_custom_azure_openai (file_path : string)
  : list script_event * py_result unit :=
  let '(t, rag, r) := custom_try file_path in
  let (t1, r1) :=
    match r with
    | Raise e =>
        if is_Exception e then
          (t ++ [Out (LogError ("Error during processing: " +:+ exn_str e));
                 Out (PrintExc e)], Return tt)
        else (t, Raise e)
    | Return _ => (t, Return tt)
    end in
  let (t2, c) := custom_finally rag in
  (t1 ++ t2, match c with
             | Return _ => r1
             | Raise e => Raise e
             end).

(** The part that fixed_azure_example.py (lines 116-155) and
    azure_openai_example.py (lines 138-174) share, from the construction of
    the engine to the end of the [try] block; [batch] is the query loop of
    the script. *)
Definition process_and_query
    (batch : R -> list string -> R * list output * py_result unit)
    (working_dir file_path output_dir : string)
  : list script_event * py_result unit :=
  match RAGAnything working_dir with
  | Raise e => ([Construct], Raise e)
  | Return rag =>
      let t1 := [Construct;
                 Out (LogInfo ("Processing document: " +:+ file_path));
                 ProcessDocument file_path (Some output_dir)] in
      let (rag1, r) :=
        process_document_complete rag file_path (Some output_dir) in
      match r with
      | Raise e => (t1, Raise e)
      | Return _ =>
          let '(rag2, out, res) := batch rag1 queries in
          let t2 := t1 ++
            [Out (LogInfo "Document processing completed successfully!");
             Out (LogInfo "Testing queries:")] ++ map Out out in
          match res with
          | Raise e => (t2, Raise e)
          | Return _ =>
              match finalize_storages rag2 with
              | Raise e => (t2 ++ [FinalizeStorages], Raise e)
              | Return _ =>
                  (t2 ++ [FinalizeStorages;
                          Out (LogInfo "All operations completed successfully!")],
                   Return tt)
              end
          end
      end
  end.

(** The [try] block of [process_with_fixed_azure_openai]
    (fixed_azure_example.py, lines 32-155); what
    [parse_azure_openai_config] prints is left out. *)
Definition fixed_try (_check_bracketed_netloc : string -> option exn)
    (dotenv_file environ : gmap string string) (file_path output_dir : string)
  : list script_event * py_result unit :=
  match parse_azure_openai_config _check_bracketed_netloc dotenv_file environ with
  | Raise e => ([], Raise e)
  | Return azure_config =>
      let t0 :=
        [Out (LogInfo "Azure OpenAI configuration parsed successfully")] in
      match RAGAnythingConfig "./rag_storage_new" with
      | Raise e => (t0, Raise e)
      | Return _ =>
          match EmbeddingFunc (embed_dim azure_config) with
          | Raise e => (t0, Raise e)
          | Return _ =>
              let t1 := t0 ++
                [Out (LogInfo
                   "Using LightRAG-compatible Azure OpenAI configuration:");
                 Out (LogInfo ("   LLM: "
                   +:+ py_str (llm_deployment azure_config) +:+ " @ "
                   +:+ py_str (llm_base_url azure_config)));
                 Out (LogInfo ("   Embedding: "
                   +:+ py_str (embed_deployment azure_config) +:+ " @ "
                   +:+ py_str (embed_base_url azure_config)))] in
              let (t, r) :=
                process_and_query (query_batch_fixed aquery)
                  "./rag_storage_new" file_path output_dir in
              (t1 ++ t, r)
          end
      end
  end.

(** [process_with_fixed_azure_openai] (lines 28-161): the error is logged,
    its traceback printed, and it is raised again. *)
Definition process_with_fixed_azure_openai
    (_check_bracketed_netloc : string -> option exn)
    (dotenv_file environ : gmap string string) (file_path output_dir : string)
  : list script_event * py_result unit :=
  let (t, r) :=
    fixed_try _check_bracketed_netloc dotenv_file environ file_path output_dir in
  match r with
  | Raise e =>
      if is_Exception e then
        (t ++ [Out (LogError ("Error: " +:+ exn_str e)); Out (PrintExc e)],
         Raise e)
      else (t, Raise e)
  | Return _ => (t, Return tt)
  end.

(** The [try] block of [process_with_azure_openai]
    (azure_openai_example.py, lines 56-174). *)
Definition azure_try (py_int : string -> py_result Z)
    (environ : gmap string string) (file_path output_dir : string)
  : list script_event * py_result unit :=
  match get_azure_openai_config py_int environ with
  | Raise e => ([], Raise e)
  | Return azure_config =>
      let t0 :=
        [Out (LogInfo "Azure OpenAI configuration loaded successfully")] in
      match RAGAnythingConfig "./rag_storage" with
      | Raise e => (t0, Raise e)
      | Return _ =>
          match EmbeddingFunc (config_int "embed_dim" azure_config) with
          | Raise e => (t0, Raise e)
          | Return _ =>
              let (t, r) :=
                process_and_query (query_batch_azure aquery)
                  "./rag_storage" file_path output_dir in
              (t0 ++ t, r)
          end
      end
  end.

(** [process_with_azure_openai] (lines 53-175): the error is logged and
    raised again. *)
Definition process_with_azure_openai (py_int : string -> py_result Z)
    (environ : gmap string string) (file_path output_dir : string)
  : list script_event * py_result unit :=
  let (t, r) := azure_try py_int environ file_path output_dir in
  match r with
  | Raise e =>
      if is_Exception e then
        (t ++ [Out (LogError ("Error: " +:+ exn_str e))], Raise e)
      else (t, Raise e)
  | Return _ => (t, Return tt)
  end.


End Scripts.

(** ** debug_azure_integration.py *)

Section DebugIntegration.

Context {V : Type}.

(** A step writes to the log and, through the entry points of
    azure_lightrag_fix.py, talks to the vendor SDK. *)
Inductive step_event : Type :=
| Sdk (ev : @event V)
| Log (o : output).

Definition is_sdk (ev : step_event) : bool :=
  match ev with
  | Sdk _ => true
  | Log _ => false
  end.

Variable chat_completions_create :
  string -> list message -> gmap string V -> py_result (list (option string)).
Variable embeddings_create :
  string -> list string -> gmap string V -> py_result (list embedding_field).
Variable dotenv_file : gmap string string.
(** The [import] of azure_integration.azure_lightrag_fix (line 25). *)
Variable import_azure_lightrag_fix : py_result unit.
(** [str(embedding_result.shape)] *)
Variable shape_str : list (list spec_float) -> string.

(** The [try] block of [test_azure_functions_basic] (lines 23-41).  The
    embedding call has loaded the [.env] file into the environment by the
    time the completion call reads it. *)
Definition step1_try (environ : gmap string string)
  : list step_event * py_result bool :=
  match import_azure_lightrag_fix with
  | Raise e => ([], Raise e)
  | Return _ =>
      let t0 := [Log (LogInfo "Azure functions imported successfully");
                 Log (LogInfo "Testing embedding function...")] in
      let (te, re) :=
        azure_openai_embed embeddings_create dotenv_file environ
          (inr ["Hello world"; "Test embedding"]) ∅ in
      match re with
      | Raise e => (t0 ++ map Sdk te, Raise e)
      | Return embedding_result =>
          let t1 := t0 ++ map Sdk te ++
            [Log (LogInfo ("Embedding successful! Shape: "
                           +:+ shape_str embedding_result));
             Log (LogInfo "Testing LLM function...")] in
          let (tc, rc) :=
            azure_openai_complete_if_cache chat_completions_create
              (load_dotenv dotenv_file environ)
              (Some "What is 2+2?") (Some "You are a helpful assistant.")
              [] ∅ in
          match rc with
          | Raise e => (t1 ++ map Sdk tc, Raise e)
          | Return None =>                       (* [None[:50]] *)
              (t1 ++ map Sdk tc,
               Raise (TypeError "'NoneType' object is not subscriptable"))
          | Return (Some llm_result) =>
              (t1 ++ map Sdk tc ++
               [Log (LogInfo ("LLM successful! Response: "
                              +:+ substring 0 50 llm_result +:+ "..."))],
               Return true)
          end
      end
  end.

(** [test_azure_functions_basic] (lines 18-44) *)
Definition test_azure_functions_basic (environ : gmap string string)
  : list step_event * py_result bool :=
  let (t, r) := step1_try environ in
  let t := Log (LogInfo "Step 1: Testing Azure functions in isolation") :: t in
  match r with
  | Raise e =>
      if is_Exception e then
        (t ++ [Log (LogError ("Azure functions test failed: " +:+ exn_str e))],
         Return false)
      else (t, Raise e)
  | Return b => (t, Return b)
  end.

(** The two other steps call into RAGAnything only. *)
Variable test_raganything_config : list step_event * py_result bool.
Variable test_simple_text_processing : list step_event * py_result bool.

(** One step of [main] (lines 153-168): run it, and leave with
    [sys.exit(1)] when it reports failure. *)
Definition run_step (step : list step_event * py_result bool)
    (failure : string) (next : list step_event * py_result unit)
  : list step_event * py_result unit :=
  match step with
  | (t, Raise e) => (t, Raise e)
  | (t, Return false) => (t ++ [Log (LogError failure)], Raise (SystemExit 1))
  | (t, Return true) => let (t', r) := next in (t ++ t', r)
  end.

(** [main] of debug_azure_integration.py (lines 147-172) *)
Definition debug_main (environ : gmap string string)
  : list step_event * py_result unit :=
  let (t, r) :=
    run_step (test_azure_functions_basic environ)
      "Step 1 failed - Azure functions not working"
      (run_step test_raganything_config
         "Step 2 failed - RAGAnything config issues"
         (run_step test_simple_text_processing
            "Step 3 failed - Text processing issues"
            ([Log (LogInfo (rule 60));
              Log (LogInfo "All debug steps passed successfully!");
              Log (LogInfo
                "The issue might be specific to PDF processing or the specific file.")],
             Return tt))) in
  (Log (LogInfo "Starting Azure RAGAnything Integration Debug") ::
   Log (LogInfo (rule 60)) :: t, r).

End DebugIntegration.

(** ** More concrete surroundings *)

(** An environment with the three variables of the embedding function. *)
Definition env_embed : gmap string string :=
  {[ "AZURE_OPENAI_API_KEY" := "k";
     "AZURE_OPENAI_ENDPOINT" := "https://r.openai.azure.com";
     "AZURE_OPENAI_EMBEDDING_DEPLOYMENT" := "text-embedding-3-small" ]}.

(** A vendor endpoint that answers every embedding request with one
    two-dimensional vector for each text. *)
Definition embed_ok : string -> list string -> gmap string string ->
                      py_result (list embedding_field) :=
  fun _ input _ =>
    Return (map (fun _ => EmbList [S754_zero false; S754_zero false]) input).

(** Keyword arguments as LightRAG passes them: one of its own and one for
    the SDK. *)
Definition kwargs_lightrag : gmap string string :=
  {[ "hashing_kv" := "kv"; "temperature" := "0" ]}.

(** A RAG engine whose second query is cancelled; the state counts the
    queries. *)
Definition cancelled_aquery (n : nat) (q : string) : nat * py_result string :=
  (S n, match n with
        | 1%nat => Raise CancelledError
        | _ => Return ("answer to " +:+ q)
        end).

(** * Properties *)

(** ** Strings *)

Module StrFacts.
Import Str.

Lemma app_assoc (a b c : string) : (a +:+ b) +:+ c = a +:+ (b +:+ c).
Proof. induction a as [|x a IH]; simpl; [reflexivity | now rewrite IH]. Qed.

Lemma app_nil_r (a : string) : a +:+ EmptyString = a.
Proof. induction a as [|x a IH]; simpl; [reflexivity | now rewrite IH]. Qed.

Lemma eqc_eq (a b : ascii) : eqc a b = true <-> a = b.
Proof. apply Ascii.eqb_eq. Qed.

Lemma eqc_refl (a : ascii) : eqc a a = true.
Proof. apply Ascii.eqb_refl. Qed.

Lemma forallb_app p (a b : string) :
  forallb p (a +:+ b) = forallb p a && forallb p b.
Proof.
  induction a as [|x a IH]; simpl; [reflexivity|].
  rewrite IH. now rewrite andb_assoc.
Qed.

Lemma forallb_impl (p q : ascii -> bool) (s : string) :
  (forall c, p c = true -> q c = true) ->
  forallb p s = true -> forallb q s = true.
Proof.
  intros Hpq. induction s as [|x s IH]; simpl; [reflexivity|].
  intros H. apply andb_true_iff in H as [Hx Hs].
  rewrite (Hpq _ Hx). now apply IH.
Qed.

(** No character of [s] is [c] when none satisfies a predicate that [c]
    satisfies. *)
Lemma contains_false p (c : ascii) (s : string) :
  p c = false -> forallb p s = true -> contains c s = false.
Proof.
  intros Hc. induction s as [|x s IH]; simpl; [reflexivity|].
  intros H. apply andb_true_iff in H as [Hx Hs].
  rewrite (IH Hs), orb_false_r.
  destruct (eqc x c) eqn:E; [|reflexivity].
  apply eqc_eq in E. subst. congruence.
Qed.

Lemma contains_app c (a b : string) :
  contains c (a +:+ b) = contains c a || contains c b.
Proof.
  induction a as [|x a IH]; simpl; [reflexivity|].
  rewrite IH. now rewrite orb_assoc.
Qed.

Lemma lstrip_head p c s : p c = false -> lstrip p (String c s) = String c s.
Proof. intros H. simpl. now rewrite H. Qed.

Lemma remove_app p (a b : string) :
  remove p (a +:+ b) = remove p a +:+ remove p b.
Proof.
  induction a as [|x a IH]; simpl; [reflexivity|].
  rewrite IH. now destruct (p x).
Qed.

Lemma remove_id p (s : string) :
  forallb (fun c => negb (p c)) s = true -> remove p s = s.
Proof.
  induction s as [|x s IH]; simpl; [reflexivity|].
  intros H. apply andb_true_iff in H as [Hx Hs].
  apply negb_true_iff in Hx. rewrite Hx. now rewrite IH.
Qed.

Lemma split1_app c (a b : string) :
  contains c a = false -> split1 c (a +:+ String c b) = Some (a, b).
Proof.
  induction a as [|x a IH]; simpl.
  - intros _. now rewrite eqc_refl.
  - intros H. apply orb_false_iff in H as [Hx Ha].
    rewrite Hx. now rewrite (IH Ha).
Qed.

Lemma split1_app_l c (a t : string) :
  contains c a = false ->
  split1 c (a +:+ t) =
  match split1 c t with
  | Some (x, y) => Some (a +:+ x, y)
  | None => None
  end.
Proof.
  induction a as [|x a IH]; simpl; intros H.
  - now destruct (split1 c t) as [[u v]|].
  - apply orb_false_iff in H as [Hx Ha]. rewrite Hx, (IH Ha).
    now destruct (split1 c t) as [[u v]|].
Qed.

(** Cutting at the first [c] keeps a prefix that is free of [c]. *)
Lemma split1_keeps_prefix c (a t : string) :
  contains c a = false ->
  exists t', match split1 c (a +:+ t) with
             | Some (x, _) => x
             | None => a +:+ t
             end = a +:+ t'.
Proof.
  induction a as [|x a IH]; simpl; intros H.
  - destruct (split1 c t) as [[u v]|]; eauto.
  - apply orb_false_iff in H as [Hx Ha]. rewrite Hx.
    destruct (IH Ha) as [t' Ht'].
    destruct (split1 c (a +:+ t)) as [[u v]|]; exists t'; now rewrite Ht'.
Qed.

Lemma break_app p c (a b : string) :
  forallb (fun x => negb (p x)) a = true -> p c = true ->
  break p (a +:+ String c b) = (a, String c b).
Proof.
  intros Ha Hc. induction a as [|x a IH]; simpl.
  - now rewrite Hc.
  - simpl in Ha. apply andb_true_iff in Ha as [Hx Ha].
    apply negb_true_iff in Hx. rewrite Hx. now rewrite (IH Ha).
Qed.

Lemma rsplit_after_app c (a t : string) :
  exists h tl, rsplit_after c (a +:+ String c t) = (a +:+ String c h, tl).
Proof.
  induction a as [|x a IH]; simpl.
  - destruct (contains c t).
    + destruct (rsplit_after c t) as [h tl]. eauto.
    + rewrite eqc_refl. eauto.
  - rewrite contains_app. simpl. rewrite eqc_refl, orb_true_r. simpl.
    destruct IH as (h & tl & ->). eauto.
Qed.

Lemma rstrip_app p (a b : string) :
  rstrip p (a +:+ b) =
  match rstrip p b with
  | EmptyString => rstrip p a
  | r => a +:+ r
  end.
Proof.
  induction a as [|x a IH]; simpl.
  - now destruct (rstrip p b).
  - rewrite IH. destruct (rstrip p b) as [|y r]; [reflexivity|].
    now destruct (a +:+ String y r) eqn:E; [destruct a; discriminate|].
Qed.

Lemma rstrip_id p (s : string) :
  forallb (fun c => negb (p c)) s = true -> rstrip p s = s.
Proof.
  induction s as [|x s IH]; simpl; [reflexivity|].
  intros H. apply andb_true_iff in H as [Hx Hs].
  apply negb_true_iff in Hx. rewrite (IH Hs), Hx. now destruct s.
Qed.

Lemma rstrip_head p c (s : string) :
  rstrip p (String c s) = EmptyString \/
  exists r, rstrip p (String c s) = String c r.
Proof.
  simpl. destruct (rstrip p s); [destruct (p c)|]; eauto.
Qed.

Lemma split_nosep c (a : string) : contains c a = false -> split c a = [a].
Proof.
  induction a as [|x a IH]; simpl; [reflexivity|].
  intros H. apply orb_false_iff in H as [Hx Ha].
  now rewrite Hx, (IH Ha).
Qed.

Lemma split_app c (a b : string) :
  contains c a = false -> split c (a +:+ String c b) = a :: split c b.
Proof.
  induction a as [|x a IH]; simpl.
  - intros _. now rewrite eqc_refl.
  - intros H. apply orb_false_iff in H as [Hx Ha].
    now rewrite Hx, (IH Ha).
Qed.

Lemma startswith_app (a b : string) : startswith a (a +:+ b) = true.
Proof.
  induction a as [|x a IH]; simpl; [reflexivity|].
  now rewrite Ascii.eqb_refl.
Qed.

Lemma endswith_app (a b : string) : endswith b (a +:+ b) = true.
Proof.
  induction a as [|x a IH]; simpl.
  - destruct b as [|y b]; [reflexivity|].
    cbn [endswith]. now rewrite String.eqb_refl.
  - rewrite IH. apply orb_true_r.
Qed.

End StrFacts.

(** ** Characters *)

Module CharFacts.

Ltac by_cases c :=
  destruct c as [[] [] [] [] [] [] [] []]; try reflexivity; try discriminate.

Lemma alpha_not_c0 c :
  is_ascii_alpha c = true -> is_c0_control_or_space c = false.
Proof. by_cases c. Qed.

Lemma scheme_char_not_colon c :
  is_scheme_char c = true -> negb (Str.eqc c ":") = true.
Proof. by_cases c. Qed.

Lemma scheme_char_safe c :
  is_scheme_char c = true -> negb (is_unsafe_url_byte c) = true.
Proof. by_cases c. Qed.

Lemma lower_char_id c : Str.is_upper c = false -> Str.lower_char c = c.
Proof. unfold Str.lower_char. now intros ->. Qed.

Lemma lower_id (s : string) :
  Str.forallb (fun c => negb (Str.is_upper c)) s = true -> Str.lower s = s.
Proof.
  induction s as [|x s IH]; simpl; [reflexivity|].
  intros H. apply andb_true_iff in H as [Hx Hs].
  apply negb_true_iff in Hx. now rewrite (lower_char_id _ Hx), (IH Hs).
Qed.

End CharFacts.

(** ** [urlsplit] and [urlparse] on [scheme://host/...] *)

Module UrlFacts.
Import Str StrFacts CharFacts.

Lemma is_scheme_inv (s : string) :
  is_scheme s = true ->
  exists c s', s = String c s' /\ is_ascii_alpha c = true /\
    forallb is_scheme_char s = true.
Proof.
  destruct s as [|c s']; [discriminate|]. unfold is_scheme.
  intros H. apply andb_true_iff in H as [Hc Hall].
  exists c, s'. now repeat split.
Qed.

Lemma split_scheme_ok (sch rest : string) :
  is_scheme sch = true ->
  split_scheme (sch +:+ String ":" rest) = (lower sch, rest).
Proof.
  intros H. destruct (is_scheme_inv _ H) as (c & s' & -> & Hc & Hall).
  unfold split_scheme. rewrite split1_app.
  - cbv beta iota. now rewrite Hc, Hall.
  - apply contains_false with (p := fun x => negb (eqc x ":"));
      [reflexivity|].
    eapply forallb_impl; [|exact Hall]. apply scheme_char_not_colon.
Qed.

Lemma is_host_inv (h : string) :
  is_host h = true ->
  forallb (fun c => negb (is_netloc_delim c)) h = true /\
  forallb (fun c => negb (is_unsafe_url_byte c)) h = true.
Proof.
  intros H. unfold is_host in H. split.
  - eapply forallb_impl; [|exact H]. intros c Hc.
    now apply andb_true_iff in Hc as [? _].
  - eapply forallb_impl; [|exact H]. intros c Hc.
    now apply andb_true_iff in Hc as [_ ?].
Qed.

Section WithCheck.
Variable chk : string -> option exn.

Lemma split_netloc_ok (host rest : string) :
  is_host host = true -> host_accepted chk host = true ->
  split_netloc chk (String "/" (String "/" (host +:+ String "/" rest))) =
  Return (host, String "/" rest).
Proof.
  intros H Hacc. destruct (is_host_inv _ H) as (Hd & _).
  unfold split_netloc. rewrite break_app; [|assumption|reflexivity].
  unfold host_accepted in Hacc.
  destruct (contains "[" host), (contains "]" host); cbn in Hacc |- *;
    try discriminate; [|reflexivity].
  now destruct (chk host).
Qed.

(** The path keeps every prefix that holds no [#], no [?] and no character
    that [urlsplit] removes. *)
Lemma urlsplit_shape (sch host a t : string) :
  is_scheme sch = true -> is_host host = true ->
  host_accepted chk host = true ->
  forallb (fun c => negb (is_unsafe_url_byte c)) a = true ->
  contains "#" a = false -> contains "?" a = false ->
  exists t' q f,
    urlsplit chk (sch +:+ "://" +:+ host +:+ "/" +:+ a +:+ t) =
    Return (mkSplit (lower sch) host ("/" +:+ a +:+ t') q f).
Proof.
  intros Hs Hh Hacc Ha Hfrag Hq.
  destruct (is_scheme_inv _ Hs) as (c & s' & E & Hc & Hall).
  destruct (is_host_inv _ Hh) as (_ & Hsafe).
  unfold urlsplit.
  assert (Hstrip : lstrip is_c0_control_or_space
            (sch +:+ "://" +:+ host +:+ "/" +:+ a +:+ t) =
          sch +:+ "://" +:+ host +:+ "/" +:+ a +:+ t).
  { subst sch. simpl. now rewrite (alpha_not_c0 _ Hc). }
  rewrite Hstrip.
  rewrite !remove_app.
  rewrite (remove_id _ sch), (remove_id _ host), (remove_id _ a);
    [|assumption|assumption|].
  2:{ eapply forallb_impl; [|exact Hall]. apply scheme_char_safe. }
  change (remove is_unsafe_url_byte "://") with "://".
  change (remove is_unsafe_url_byte "/") with "/".
  change (sch +:+ "://" +:+ host +:+ "/" +:+ a +:+ remove is_unsafe_url_byte t)
    with (sch +:+ String ":" (String "/" (String "/"
            (host +:+ String "/" (a +:+ remove is_unsafe_url_byte t))))).
  rewrite (split_scheme_ok _ _ Hs).
  rewrite (split_netloc_ok _ _ Hh Hacc). cbn [bind].
  set (t0 := remove is_unsafe_url_byte t).
  destruct (split1_keeps_prefix "#" (String "/" a) t0) as [t1 Ht1].
  { simpl. exact Hfrag. }
  destruct (split1_keeps_prefix "?" (String "/" a) t1) as [t2 Ht2].
  { simpl. exact Hq. }
  change (String "/" (a +:+ t0)) with (String "/" a +:+ t0).
  destruct (split1 "#" (String "/" a +:+ t0)) as [[u v]|] eqn:E1.
  - rewrite Ht1.
    destruct (split1 "?" (String "/" a +:+ t1)) as [[u' v']|] eqn:E2.
    + exists t2, v', v. now rewrite Ht2.
    + exists t1, EmptyString, v. reflexivity.
  - rewrite Ht1 in E1 |- *. rewrite <- Ht1.
    destruct (split1 "?" (String "/" a +:+ t0)) as [[u' v']|] eqn:E2.
    + destruct (split1_keeps_prefix "?" (String "/" a) t0) as [t3 Ht3].
      { simpl. exact Hq. }
      rewrite E2 in Ht3. exists t3, v', EmptyString. now rewrite Ht3.
    + exists t0, EmptyString, EmptyString. reflexivity.
Qed.

(** Without [#], [?] and removed characters the path is the text before
    the query. *)
Lemma urlsplit_exact (sch host a qry : string) :
  is_scheme sch = true -> is_host host = true ->
  host_accepted chk host = true ->
  forallb (fun c => negb (is_unsafe_url_byte c)) a = true ->
  contains "#" a = false -> contains "?" a = false ->
  exists q f,
    urlsplit chk (sch +:+ "://" +:+ host +:+ "/" +:+ a +:+ "?" +:+ qry) =
    Return (mkSplit (lower sch) host ("/" +:+ a) q f).
Proof.
  intros Hs Hh Hacc Ha Hfrag Hq.
  destruct (is_scheme_inv _ Hs) as (c & s' & E & Hc & Hall).
  destruct (is_host_inv _ Hh) as (_ & Hsafe).
  unfold urlsplit.
  assert (Hstrip : lstrip is_c0_control_or_space
            (sch +:+ "://" +:+ host +:+ "/" +:+ a +:+ "?" +:+ qry) =
          sch +:+ "://" +:+ host +:+ "/" +:+ a +:+ "?" +:+ qry).
  { subst sch. simpl. now rewrite (alpha_not_c0 _ Hc). }
  rewrite Hstrip.
  rewrite !remove_app.
  rewrite (remove_id _ sch), (remove_id _ host), (remove_id _ a);
    [|assumption|assumption|].
  2:{ eapply forallb_impl; [|exact Hall]. apply scheme_char_safe. }
  change (remove is_unsafe_url_byte "://") with "://".
  change (remove is_unsafe_url_byte "/") with "/".
  change (remove is_unsafe_url_byte "?") with "?".
  set (q0 := remove is_unsafe_url_byte qry).
  change (sch +:+ "://" +:+ host +:+ "/" +:+ a +:+ "?" +:+ q0)
    with (sch +:+ String ":" (String "/" (String "/"
            (host +:+ String "/" (a +:+ String "?" q0))))).
  rewrite (split_scheme_ok _ _ Hs).
  rewrite (split_netloc_ok _ _ Hh Hacc). cbn [bind].
  assert (Hcut : forall x, split1 "?" (String "/" (a +:+ String "?" x)) =
                           Some (String "/" a, x)).
  { intros x. change (String "/" (a +:+ String "?" x))
      with (String "/" a +:+ String "?" x).
    apply split1_app. simpl. exact Hq. }
  change (String "/" (a +:+ String "?" q0))
    with (String "/" a +:+ String "?" q0).
  rewrite (split1_app_l "#" (String "/" a) (String "?" q0)) by (simpl; exact Hfrag).
  cbn [split1]. change (eqc "?" "#") with false. cbv iota.
  destruct (split1 "#" q0) as [[u v]|].
  - change (String "/" a +:+ String "?" u) with (String "/" (a +:+ String "?" u)).
    rewrite Hcut. now exists u, v.
  - change (String "/" a +:+ String "?" q0)
      with (String "/" (a +:+ String "?" q0)).
    rewrite Hcut. now exists q0, EmptyString.
Qed.

Lemma urlparse_exact (sch host a qry : string) :
  is_scheme sch = true -> is_host host = true ->
  host_accepted chk host = true ->
  forallb (fun c => negb (is_unsafe_url_byte c)) a = true ->
  contains "#" a = false -> contains "?" a = false ->
  contains ";" a = false ->
  exists q f,
    urlparse chk (sch +:+ "://" +:+ host +:+ "/" +:+ a +:+ "?" +:+ qry) =
    Return (mkParse (lower sch) host ("/" +:+ a) EmptyString q f).
Proof.
  intros Hs Hh Hacc Ha Hfrag Hq Hp.
  destruct (urlsplit_exact sch host a qry Hs Hh Hacc Ha Hfrag Hq)
    as (q & f & E).
  unfold urlparse. rewrite E. cbn [bind].
  cbn [sr_scheme sr_netloc sr_url sr_query sr_fragment].
  assert (Hsemi : contains ";" ("/" +:+ a) = false) by (simpl; exact Hp).
  rewrite Hsemi, andb_false_r. now exists q, f.
Qed.

Lemma splitparams_keeps (b t : string) :
  exists t', fst (_splitparams (b +:+ String "/" t)) = b +:+ String "/" t'.
Proof.
  unfold _splitparams.
  assert (Hc : contains "/" (b +:+ String "/" t) = true).
  { rewrite contains_app. simpl. now rewrite orb_true_r. }
  rewrite Hc.
  destruct (rsplit_after_app "/" b t) as (h & tl & ->).
  destruct (split1 ";" tl) as [[x y]|]; simpl.
  - exists (h +:+ x). now rewrite app_assoc.
  - now exists t.
Qed.

Lemma urlparse_shape (sch host b t : string) :
  is_scheme sch = true -> is_host host = true ->
  host_accepted chk host = true ->
  forallb (fun c => negb (is_unsafe_url_byte c)) b = true ->
  contains "#" b = false -> contains "?" b = false ->
  exists t' prm q f,
    urlparse chk (sch +:+ "://" +:+ host +:+ "/" +:+ b +:+ "/" +:+ t) =
    Return (mkParse (lower sch) host ("/" +:+ b +:+ "/" +:+ t') prm q f).
Proof.
  intros Hs Hh Hacc Hb Hfrag Hq.
  destruct (urlsplit_shape sch host (b +:+ "/") t Hs Hh Hacc)
    as (t1 & q & f & E).
  - now rewrite forallb_app, Hb.
  - now rewrite contains_app, Hfrag.
  - now rewrite contains_app, Hq.
  - unfold urlparse. rewrite app_assoc in E. rewrite E. cbn [bind].
    cbn [sr_scheme sr_netloc sr_url sr_query sr_fragment].
    rewrite app_assoc.
    destruct (splitparams_keeps (String "/" b) t1) as [t2 Ht2].
    change ("/" +:+ b +:+ "/" +:+ t1) with (String "/" b +:+ String "/" t1).
    destruct (mem (lower sch) uses_params &&
              contains ";" (String "/" b +:+ String "/" t1)).
    + destruct (_splitparams (String "/" b +:+ String "/" t1)) as [u prm].
      simpl in Ht2. subst u. now exists t2, prm, q, f.
    + now exists t1, EmptyString, q, f.
Qed.

Lemma urlparse_scheme_host (sch host t : string) :
  is_scheme sch = true -> is_host host = true ->
  host_accepted chk host = true ->
  exists p, urlparse chk (sch +:+ "://" +:+ host +:+ "/" +:+ t) = Return p /\
            scheme p = lower sch /\ netloc p = host.
Proof.
  intros Hs Hh Hacc.
  destruct (urlsplit_shape sch host EmptyString t Hs Hh Hacc)
    as (t1 & q & f & E); try reflexivity.
  unfold urlparse.
  change (sch +:+ "://" +:+ host +:+ "/" +:+ t)
    with (sch +:+ "://" +:+ host +:+ "/" +:+ "" +:+ t).
  rewrite E. cbn [bind].
  cbn [sr_scheme sr_netloc sr_url sr_query sr_fragment].
  destruct (mem (lower sch) uses_params && contains ";" ("/" +:+ "" +:+ t1));
    [destruct (_splitparams ("/" +:+ "" +:+ t1))|];
    (eexists; split; [reflexivity | split; reflexivity]).
Qed.

Lemma parse_azure_url_nonempty (u : string) :
  u <> EmptyString ->
  parse_azure_url chk (Some u) =
  bind (urlparse chk u) (fun parsed =>
    Return (Some (scheme parsed +:+ "://" +:+ netloc parsed +:+ "/openai/"),
            deployment_of (path_parts_of parsed))).
Proof. destruct u; [congruence | reflexivity]. Qed.

End WithCheck.

Lemma is_segment_inv (n : string) :
  is_segment n = true ->
  n <> EmptyString /\
  forallb (fun c => negb (is_slash c)) n = true /\
  forallb (fun c => negb (is_unsafe_url_byte c)) n = true /\
  contains "/" n = false /\ contains "#" n = false /\ contains "?" n = false.
Proof.
  destruct n as [|c n']; [discriminate|]. unfold is_segment.
  set (n := String c n'). intros H.
  assert (Hd : forallb (fun c => negb (is_netloc_delim c)) n = true).
  { eapply forallb_impl; [|exact H]. intros x Hx.
    now apply andb_true_iff in Hx as [? _]. }
  split; [discriminate|]. repeat split.
  - eapply forallb_impl; [|exact Hd]. intros x. unfold is_netloc_delim, is_slash.
    destruct (eqc x "/"); [discriminate | reflexivity].
  - eapply forallb_impl; [|exact H]. intros x Hx.
    now apply andb_true_iff in Hx as [_ ?].
  - eapply contains_false; [|exact Hd]. reflexivity.
  - eapply contains_false; [|exact Hd]. reflexivity.
  - eapply contains_false; [|exact Hd]. reflexivity.
Qed.

Lemma is_plain_segment_inv (n : string) :
  is_plain_segment n = true ->
  (exists c n', n = String c n' /\ is_slash c = false) /\
  forallb (fun c => negb (is_slash c)) n = true /\
  forallb (fun c => negb (is_unsafe_url_byte c)) n = true /\
  contains "/" n = false /\ contains "#" n = false /\
  contains "?" n = false /\ contains ";" n = false.
Proof.
  unfold is_plain_segment. intros H. apply andb_true_iff in H as [Hseg Hp].
  apply negb_true_iff in Hp.
  destruct (is_segment_inv _ Hseg) as (Hne & Hns & Hsafe & H1 & H2 & H3).
  repeat split; try assumption.
  destruct n as [|c n']; [congruence|]. exists c, n'. split; [reflexivity|].
  simpl in Hns. apply andb_true_iff in Hns as [Hc _].
  now apply negb_true_iff in Hc.
Qed.

(** The text ["/".join(segs)] of plain segments: its characters, and its
    segments again. *)
Lemma concat_plain (segs : list string) :
  segs <> [] -> List.forallb is_plain_segment segs = true ->
  let a := String.concat "/" segs in
  forallb (fun c => negb (is_unsafe_url_byte c)) a = true /\
  contains "#" a = false /\ contains "?" a = false /\
  contains ";" a = false /\
  (exists c a', a = String c a' /\ is_slash c = false) /\
  rstrip is_slash a = a /\
  split "/" a = segs.
Proof.
  induction segs as [|x segs IH]; [congruence|]. intros _ H.
  cbn [List.forallb] in H. apply andb_true_iff in H as [Hx Hrest].
  destruct (is_plain_segment_inv _ Hx)
    as ((c & x' & Ex & Hc) & Hns & Hsafe & Hsl & Hfr & Hq & Hp).
  destruct segs as [|y segs].
  - cbn [String.concat]. repeat split; try assumption.
    + eauto.
    + now apply rstrip_id.
    + now apply split_nosep.
  - destruct (IH ltac:(discriminate) Hrest)
      as (IHsafe & IHfr & IHq & IHp & (d & a' & Ea & Hd) & IHr & IHs).
    cbn zeta in *.
    change (String.concat "/" (x :: y :: segs))
      with (x +:+ String "/" (String.concat "/" (y :: segs))).
    set (a := String.concat "/" (y :: segs)) in *.
    repeat split.
    + rewrite forallb_app, Hsafe. simpl. exact IHsafe.
    + rewrite contains_app, Hfr. simpl. exact IHfr.
    + rewrite contains_app, Hq. simpl. exact IHq.
    + rewrite contains_app, Hp. simpl. exact IHp.
    + subst x. simpl. eauto.
    + rewrite rstrip_app.
      assert (Hr : rstrip is_slash (String "/" a) = String "/" a).
      { cbn [rstrip]. rewrite IHr, Ea. reflexivity. }
      rewrite Hr. reflexivity.
    + rewrite split_app by assumption. now rewrite IHs.
Qed.

(** The segments of [/openai/deployments/<name>/...]. *)
Lemma parts_of_deployment_path (name t : string) :
  is_segment name = true ->
  exists tl,
    split "/" (strip is_slash ("/openai/deployments/" +:+ name +:+ "/" +:+ t)) =
    "openai" :: "deployments" :: name :: tl.
Proof.
  intros H. destruct (is_segment_inv _ H) as (Hne & Hns & _ & Hslash & _ & _).
  unfold strip.
  change (lstrip is_slash ("/openai/deployments/" +:+ name +:+ "/" +:+ t))
    with (("openai/deployments/" +:+ name) +:+ String "/" t).
  assert (Hname : rstrip is_slash ("openai/deployments/" +:+ name) =
                  "openai/deployments/" +:+ name).
  { rewrite rstrip_app, (rstrip_id _ _ Hns).
    destruct name; [congruence | reflexivity]. }
  assert (Hsplit : forall rest,
    split "/" ("openai/deployments/" +:+ name +:+ rest) =
    "openai" :: "deployments" :: split "/" (name +:+ rest)).
  { intros rest.
    change ("openai/deployments/" +:+ name +:+ rest)
      with ("openai" +:+ String "/" ("deployments" +:+ String "/" (name +:+ rest))).
    now rewrite !split_app. }
  rewrite rstrip_app.
  destruct (rstrip_head is_slash "/" t) as [E | [r E]]; rewrite E.
  - rewrite Hname. exists [].
    rewrite <- (app_nil_r name) at 1. rewrite Hsplit, app_nil_r.
    now rewrite split_nosep.
  - exists (split "/" r). rewrite app_assoc, Hsplit. now rewrite split_app.
Qed.

Lemma deployment_of_found (name : string) (tl : list string) :
  deployment_of ("openai" :: "deployments" :: name :: tl) = Some name.
Proof. reflexivity. Qed.

End UrlFacts.

(** ** The resolver [parse_azure_url] *)

Module Resolver.
Import Str StrFacts CharFacts UrlFacts.

Lemma azure_url_nonempty sch host name op qry :
  is_scheme sch = true -> azure_url sch host name op qry <> EmptyString.
Proof.
  intros H. destruct (is_scheme_inv _ H) as (c & s' & -> & _). discriminate.
Qed.

Lemma resolve_azure_url chk sch host name op qry :
  is_scheme sch = true -> is_host host = true ->
  host_accepted chk host = true -> is_segment name = true ->
  parse_azure_url chk (Some (azure_url sch host name op qry)) =
  Return (Some (lower sch +:+ "://" +:+ host +:+ "/openai/"), Some name).
Proof.
  intros Hs Hh Hacc Hn.
  rewrite parse_azure_url_nonempty by now apply azure_url_nonempty.
  destruct (is_segment_inv _ Hn) as (_ & _ & Hsafe & _ & Hfrag & Hq).
  destruct (urlparse_shape chk sch host ("openai/deployments/" +:+ name)
              (op +:+ "?" +:+ qry) Hs Hh Hacc) as (t' & prm & q & f & E).
  - now rewrite forallb_app, Hsafe.
  - now rewrite contains_app, Hfrag.
  - now rewrite contains_app, Hq.
  - change (azure_url sch host name op qry)
      with (sch +:+ "://" +:+ host +:+ "/" +:+
            ("openai/deployments/" +:+ name) +:+ "/" +:+ op +:+ "?" +:+ qry).
    rewrite E. cbn [bind scheme netloc]. unfold path_parts_of. cbn [path].
    destruct (parts_of_deployment_path name t' Hn) as [tl Htl].
    change ("/" +:+ ("openai/deployments/" +:+ name) +:+ "/" +:+ t')
      with ("/openai/deployments/" +:+ name +:+ "/" +:+ t').
    now rewrite Htl, deployment_of_found.
Qed.

Lemma base_url_endswith_openai chk u b d :
  parse_azure_url chk (Some u) = Return (Some b, d) ->
  endswith "/openai/" b = true.
Proof.
  destruct u as [|c u']; [discriminate|]. unfold parse_azure_url.
  destruct (urlparse chk (String c u')) as [p|e]; [|discriminate].
  cbn [bind]. intros [= <- _].
  assert (E : scheme p +:+ "://" +:+ netloc p +:+ "/openai/" =
              (scheme p +:+ "://" +:+ netloc p) +:+ "/openai/").
  { rewrite (app_assoc (scheme p) ("://" +:+ netloc p) "/openai/").
    simpl. reflexivity. }
  simpl in E. rewrite E. apply endswith_app.
Qed.

(** C1, as stated, fails on the case of the scheme: [urlparse] reports it in
    lower case, so for [HTTPS://...] the base URL starts with [https] and
    differs from [scheme://host/openai/] as the URL spells it. *)
Lemma scheme_case_counterexample :
  ~ (forall chk sch host name op qry,
       is_scheme sch = true -> is_host host = true ->
       host_accepted chk host = true -> is_segment name = true ->
       parse_azure_url chk (Some (azure_url sch host name op qry)) =
       Return (Some (sch +:+ "://" +:+ host +:+ "/openai/"), Some name)).
Proof.
  intros H.
  specialize (H no_bracket_error "HTTPS" "h.example" "d" "chat/completions"
                "v=1" eq_refl eq_refl eq_refl eq_refl).
  vm_compute in H. discriminate.
Qed.

(** C1, amended: for a URL
    [scheme://host/openai/deployments/<name>/<op>?<query>], [parse_azure_url]
    returns the base URL [scheme://host/openai/] with the scheme in lower
    case, and the deployment [<name>], whatever the operation segment and the
    query string are; for a scheme written in lower case the base URL is
    [scheme://host/openai/] as the URL spells it. *)
Theorem parse_azure_url_deployment_url chk sch host name op qry :
  is_scheme sch = true -> is_host host = true ->
  host_accepted chk host = true -> is_segment name = true ->
  parse_azure_url chk (Some (azure_url sch host name op qry)) =
    Return (Some (lower sch +:+ "://" +:+ host +:+ "/openai/"), Some name) /\
  (forall op' qry',
     parse_azure_url chk (Some (azure_url sch host name op' qry')) =
     parse_azure_url chk (Some (azure_url sch host name op qry))) /\
  (is_lower_case sch = true -> lower sch = sch).
Proof.
  intros Hs Hh Hacc Hn. split; [|split].
  - now apply resolve_azure_url.
  - intros op' qry'. now rewrite !resolve_azure_url.
  - apply lower_id.
Qed.

Lemma parse_azure_url_deployment_url_witness :
  is_scheme "https" = true /\
  is_host "acme-east2.cognitiveservices.azure.com" = true /\
  host_accepted no_bracket_error "acme-east2.cognitiveservices.azure.com"
    = true /\
  is_segment "gpt-4o-mini" = true /\
  parse_azure_url no_bracket_error
    (Some "https://acme-east2.cognitiveservices.azure.com/openai/deployments/gpt-4o-mini/chat/completions?api-version=2025-01-01-preview") =
  Return (Some "https://acme-east2.cognitiveservices.azure.com/openai/",
          Some "gpt-4o-mini").
Proof.
  split; [reflexivity | split; [reflexivity | split; [reflexivity |
    split; [reflexivity |]]]].
  exact (proj1 (parse_azure_url_deployment_url no_bracket_error
                  "https" "acme-east2.cognitiveservices.azure.com"
                  "gpt-4o-mini" "chat/completions"
                  "api-version=2025-01-01-preview"
                  eq_refl eq_refl eq_refl eq_refl)).
Defined.

(** C5, as stated, fails: for [https://example.com/v1/chat] the base URL is
    [https://example.com/openai/], which is no prefix of the input. *)
Lemma base_url_prefix_counterexample :
  ~ (forall chk u b d,
       u <> EmptyString ->
       parse_azure_url chk (Some u) = Return (Some b, d) ->
       startswith b u = true /\ endswith "/openai/" b = true).
Proof.
  intros H.
  destruct (H no_bracket_error "https://example.com/v1/chat"
              "https://example.com/openai/" None) as [Hp _];
    [discriminate | reflexivity |].
  vm_compute in Hp. discriminate.
Qed.

(** C5, amended: whenever the resolver returns a base URL, it ends in
    [/openai/]; and for a URL [scheme://host/openai/<rest>] with the scheme
    in lower case the resolver returns [scheme://host/openai/], a prefix of
    the URL. *)
Theorem base_url_suffix_and_prefix chk sch host rest :
  is_scheme sch = true -> is_lower_case sch = true ->
  is_host host = true -> host_accepted chk host = true ->
  (forall u b d, parse_azure_url chk (Some u) = Return (Some b, d) ->
                 endswith "/openai/" b = true) /\
  (exists d,
     parse_azure_url chk (Some (sch +:+ "://" +:+ host +:+ "/openai/" +:+ rest))
     = Return (Some (sch +:+ "://" +:+ host +:+ "/openai/"), d)) /\
  startswith (sch +:+ "://" +:+ host +:+ "/openai/")
             (sch +:+ "://" +:+ host +:+ "/openai/" +:+ rest) = true.
Proof.
  intros Hs Hlow Hh Hacc. split; [|split].
  - intros u b d. apply base_url_endswith_openai.
  - destruct (urlparse_scheme_host chk sch host ("openai/" +:+ rest) Hs Hh Hacc)
      as (p & E & Esch & Enl).
    rewrite (lower_id _ Hlow) in Esch.
    rewrite parse_azure_url_nonempty.
    + change (sch +:+ "://" +:+ host +:+ "/openai/" +:+ rest)
        with (sch +:+ "://" +:+ host +:+ "/" +:+ "openai/" +:+ rest).
      rewrite E. cbn [bind]. rewrite Esch, Enl. eauto.
    + destruct (is_scheme_inv _ Hs) as (c & s' & -> & _). discriminate.
  - change (sch +:+ "://" +:+ host +:+ "/openai/" +:+ rest)
      with (sch +:+ ("://" +:+ host +:+ "/openai/" +:+ rest)).
    change (sch +:+ "://" +:+ host +:+ "/openai/")
      with (sch +:+ ("://" +:+ host +:+ "/openai/")).
    replace (sch +:+ ("://" +:+ host +:+ "/openai/" +:+ rest))
      with ((sch +:+ ("://" +:+ host +:+ "/openai/")) +:+ rest).
    + apply startswith_app.
    + rewrite (app_assoc sch ("://" +:+ host +:+ "/openai/") rest).
      simpl. now rewrite (app_assoc host "/openai/" rest).
Qed.

Lemma base_url_suffix_and_prefix_witness :
  is_scheme "https" = true /\ is_lower_case "https" = true /\
  is_host "example.com" = true /\
  host_accepted no_bracket_error "example.com" = true /\
  startswith "https://example.com/openai/"
             "https://example.com/openai/deployments" = true.
Proof.
  split; [reflexivity | split; [reflexivity | split; [reflexivity |
    split; [reflexivity |]]]].
  exact (proj2 (proj2 (base_url_suffix_and_prefix no_bracket_error
                         "https" "example.com" "deployments"
                         eq_refl eq_refl eq_refl eq_refl))).
Defined.

(** A family of URLs without a [deployments] segment: plain segments, none
    of them [deployments], and any query string. *)
Lemma parse_azure_url_plain_path chk sch host segs qry :
  is_scheme sch = true -> is_host host = true ->
  host_accepted chk host = true ->
  segs <> [] -> List.forallb is_plain_segment segs = true ->
  mem "deployments" segs = false ->
  parse_azure_url chk (Some (plain_url sch host segs qry)) =
  Return (Some (lower sch +:+ "://" +:+ host +:+ "/openai/"), None).
Proof.
  intros Hs Hh Hacc Hne Hsegs Hmem.
  destruct (concat_plain segs Hne Hsegs)
    as (Hsafe & Hfr & Hq & Hp & (c & a' & Ea & Hc) & Hr & Hsplit).
  cbn zeta in *. unfold plain_url.
  destruct (urlparse_exact chk sch host (String.concat "/" segs) qry
              Hs Hh Hacc Hsafe Hfr Hq Hp) as (q & f & E).
  rewrite parse_azure_url_nonempty.
  - rewrite E. cbn [bind scheme netloc]. unfold path_parts_of, strip.
    cbn [path].
    assert (Hl : lstrip is_slash ("/" +:+ String.concat "/" segs) =
                 String.concat "/" segs).
    { rewrite Ea. simpl. now rewrite Hc. }
    rewrite Hl, Hr, Hsplit. unfold deployment_of. now rewrite Hmem.
  - destruct (is_scheme_inv _ Hs) as (c0 & s' & -> & _). discriminate.
Qed.

Example parse_azure_url_models_url :
  parse_azure_url no_bracket_error
    (Some "https://acme.openai.azure.com/openai/models?api-version=2024-02-01")
  = Return (Some "https://acme.openai.azure.com/openai/", None).
Proof.
  now apply (parse_azure_url_plain_path no_bracket_error "https"
               "acme.openai.azure.com" ["openai"; "models"]
               "api-version=2024-02-01").
Qed.



(** A bracket without its partner makes [urlparse], and so the resolver,
    raise. *)
Example parse_azure_url_bad_bracket :
  parse_azure_url no_bracket_error (Some "https://h]/openai/") =
  Raise (ValueError "Invalid IPv6 URL").
Proof. reflexivity. Qed.

(** C7: an absent or empty URL gives [(None, None)]; nothing is raised. *)
Theorem parse_azure_url_absent chk :
  parse_azure_url chk None = Return (None, None) /\
  parse_azure_url chk (Some EmptyString) = Return (None, None).
Proof. split; reflexivity. Qed.

End Resolver.

(** ** The entry points of azure_lightrag_fix.py *)

Module LightragFacts.

Section Facts.
Context {V : Type}.
Implicit Types (kwargs : gmap string V) (environ : gmap string string).

Variable chat : string -> list message -> gmap string V ->
                py_result (list (option string)).
Variable emb : string -> list string -> gmap string V ->
               py_result (list embedding_field).
Variable dotenv : gmap string string.


(** The traces of the completion function: nothing when a variable is
    missing; otherwise the client and, unless a keyword clashes, the request. *)
Lemma complete_trace_cases environ prompt sys hist kwargs :
  let t := fst (azure_openai_complete_if_cache chat environ prompt sys hist kwargs) in
  if all_truthy [environ !! "AZURE_OPENAI_API_KEY";
                 environ !! "AZURE_OPENAI_ENDPOINT";
                 environ !! "AZURE_OPENAI_LLM_DEPLOYMENT"]
  then (exists k e v, t = [ClientOpen k e v]) \/
       (exists k e v m msgs,
          t = [ClientOpen k e v; ChatCreate m msgs (filtered_kwargs kwargs)])
  else t = [].
Proof.
  unfold azure_openai_complete_if_cache.
  destruct (all_truthy _); cbn [negb]; [|reflexivity].
  unfold mbind, emit, call_kw, raise, lift, ret.
  destruct (existsb _ _); [left; eauto|]. right.
  destruct (chat _ _ _) as [[|c cs]|e]; simpl; eauto 10.
Qed.

(** The traces of the embedding function: as above, and the release of the
    client closes every trace that opened one. *)
Lemma embed_trace_cases environ texts kwargs :
  let t := fst (azure_openai_embed emb dotenv environ texts kwargs) in
  if all_truthy [load_dotenv dotenv environ !! "AZURE_OPENAI_API_KEY";
                 load_dotenv dotenv environ !! "AZURE_OPENAI_ENDPOINT";
                 load_dotenv dotenv environ !! "AZURE_OPENAI_EMBEDDING_DEPLOYMENT"]
  then (exists k e v, t = [ClientOpen k e v; ClientClose]) \/
       (exists k e v m inp,
          t = [ClientOpen k e v; EmbeddingsCreate m inp (filtered_kwargs kwargs);
               ClientClose])
  else t = [].
Proof.
  unfold azure_openai_embed.
  destruct (all_truthy _); cbn [negb]; [|reflexivity].
  unfold mbind, emit, call_kw, raise, lift, ret, try_finally, client_close.
  destruct (existsb _ _); [left; eauto|]. right.
  destruct (emb _ _ _) as [data|e]; simpl; eauto 10.
Qed.


(** A missing or empty variable stops the completion function before it
    builds a client or sends a request; the message is a fixed text. *)
Lemma complete_config_error environ prompt sys hist kwargs :
  all_truthy [environ !! "AZURE_OPENAI_API_KEY";
              environ !! "AZURE_OPENAI_ENDPOINT";
              environ !! "AZURE_OPENAI_LLM_DEPLOYMENT"] = false ->
  azure_openai_complete_if_cache chat environ prompt sys hist kwargs =
  ([], Raise (ValueError "Missing required Azure OpenAI configuration")).
Proof. intros H. unfold azure_openai_complete_if_cache. now rewrite H. Qed.

(** The same for the embedding function, on the environment that
    [load_dotenv] leaves. *)
Lemma embed_config_error environ texts kwargs :
  all_truthy [load_dotenv dotenv environ !! "AZURE_OPENAI_API_KEY";
              load_dotenv dotenv environ !! "AZURE_OPENAI_ENDPOINT";
              load_dotenv dotenv environ !! "AZURE_OPENAI_EMBEDDING_DEPLOYMENT"]
  = false ->
  azure_openai_embed emb dotenv environ texts kwargs =
  ([], Raise (ValueError "Missing required Azure OpenAI embedding configuration")).
Proof. intros H. unfold azure_openai_embed. now rewrite H. Qed.

(** The embedding function closes its client on every path: whatever the
    request does (a response, an error, a cancellation) and whether or not
    the response decodes, the trace ends with the release of the client. *)
Lemma embed_closes_client environ texts kwargs :
  all_truthy [load_dotenv dotenv environ !! "AZURE_OPENAI_API_KEY";
              load_dotenv dotenv environ !! "AZURE_OPENAI_ENDPOINT";
              load_dotenv dotenv environ !! "AZURE_OPENAI_EMBEDDING_DEPLOYMENT"]
  = true ->
  exists k e v t,
    fst (azure_openai_embed emb dotenv environ texts kwargs) =
    ClientOpen k e v :: t ++ [ClientClose].
Proof.
  intros H. pose proof (embed_trace_cases environ texts kwargs) as Ht.
  cbv zeta in Ht. rewrite H in Ht.
  destruct Ht as [(k & e & v & ->)|(k & e & v & m & inp & ->)].
  - now exists k, e, v, [].
  - now exists k, e, v, [EmbeddingsCreate m inp (filtered_kwargs kwargs)].
Qed.

(** C3, what the completion function does: with its three variables set it
    builds a client and never closes it, whatever the request does. *)
Theorem complete_never_closes_client environ prompt sys hist kwargs :
  all_truthy [environ !! "AZURE_OPENAI_API_KEY";
              environ !! "AZURE_OPENAI_ENDPOINT";
              environ !! "AZURE_OPENAI_LLM_DEPLOYMENT"] = true ->
  let t := fst (azure_openai_complete_if_cache chat environ prompt sys hist kwargs) in
  existsb is_open t = true /\ existsb is_close t = false.
Proof.
  intros H. pose proof (complete_trace_cases environ prompt sys hist kwargs) as Ht.
  cbv zeta in Ht |- *. rewrite H in Ht.
  destruct Ht as [(k & e & v & ->)|(k & e & v & m & msgs & ->)];
    split; reflexivity.
Qed.

End Facts.

Lemma complete_never_closes_client_witness :
  all_truthy [env_llm !! "AZURE_OPENAI_API_KEY";
              env_llm !! "AZURE_OPENAI_ENDPOINT";
              env_llm !! "AZURE_OPENAI_LLM_DEPLOYMENT"] = true /\
  existsb is_close
    (fst (azure_openai_complete_if_cache chat_ok env_llm (Some "hi") None [] ∅))
  = false.
Proof.
  split; [reflexivity|].
  exact (proj2 (complete_never_closes_client chat_ok env_llm (Some "hi") None
                  [] ∅ eq_refl)).
Defined.

(** C2, what the entry points do when a variable is missing: without the API
    key and without the endpoint the completion function raises the same
    [ValueError], before any client or request, and its text names neither
    variable; the embedding function does the same with its own fixed text. *)
Theorem config_error_is_generic :
  azure_openai_complete_if_cache chat_ok env_no_key (Some "hi") None [] ∅ =
    ([], Raise (ValueError "Missing required Azure OpenAI configuration")) /\
  azure_openai_complete_if_cache chat_ok env_no_endpoint (Some "hi") None [] ∅ =
    ([], Raise (ValueError "Missing required Azure OpenAI configuration")) /\
  azure_openai_embed embed_down ∅ env_no_key (inl "hi") ∅ =
    ([], Raise (ValueError "Missing required Azure OpenAI embedding configuration")) /\
  azure_openai_embed embed_down ∅ env_no_endpoint (inl "hi") ∅ =
    ([], Raise (ValueError "Missing required Azure OpenAI embedding configuration")) /\
  is_infix "KEY" "Missing required Azure OpenAI configuration" = false /\
  is_infix "ENDPOINT" "Missing required Azure OpenAI configuration" = false /\
  is_infix "key" "Missing required Azure OpenAI configuration" = false /\
  is_infix "endpoint" "Missing required Azure OpenAI configuration" = false.
Proof.
  repeat split;
    first [ now apply complete_config_error
          | now apply embed_config_error
          | reflexivity ].
Qed.

End LightragFacts.

(** ** The example scripts *)

Module ExampleFacts.

Section Batch.
Context {R : Type}.
Variable aquery : R -> string -> R * py_result string.

Lemma query_outcomes_length (rag : R) (queries : list string) :
  length (query_outcomes aquery rag queries) = length queries.
Proof.
  revert rag. induction queries as [|q qs IH]; intros rag; simpl;
    [reflexivity|].
  destruct (aquery rag q) as [rag1 r]. simpl. now rewrite IH.
Qed.

Lemma query_batch_custom_log (rag : R) (queries : list string) :
  forallb handled (query_outcomes aquery rag queries) = true ->
  (query_batch_custom aquery rag queries).2 = Return tt /\
  (query_batch_custom aquery rag queries).1.2 =
  concat (zip_with entry_custom queries (query_outcomes aquery rag queries)).
Proof.
  revert rag. induction queries as [|q qs IH]; intros rag; simpl;
    [now split|].
  destruct (aquery rag q) as [rag1 r]. simpl. intros H.
  apply andb_true_iff in H as [Hr Hrest].
  destruct (IH rag1 Hrest) as [IHres IHout].
  destruct (query_batch_custom aquery rag1 qs) as [[rag2 out] res].
  simpl in IHres, IHout. subst res out.
  destruct r as [result|e]; simpl in Hr |- *; [now split|].
  rewrite Hr. now split.
Qed.

Lemma query_batch_fixed_log (rag : R) (queries : list string) :
  forallb handled (query_outcomes aquery rag queries) = true ->
  (query_batch_fixed aquery rag queries).2 = Return tt /\
  (query_batch_fixed aquery rag queries).1.2 =
  concat (zip_with entry_fixed queries (query_outcomes aquery rag queries)).
Proof.
  revert rag. induction queries as [|q qs IH]; intros rag; simpl;
    [now split|].
  destruct (aquery rag q) as [rag1 r]. simpl. intros H.
  apply andb_true_iff in H as [Hr Hrest].
  destruct (IH rag1 Hrest) as [IHres IHout].
  destruct (query_batch_fixed aquery rag1 qs) as [[rag2 out] res].
  simpl in IHres, IHout. subst res out.
  destruct r as [result|e]; simpl in Hr |- *; [now split|].
  rewrite Hr. now split.
Qed.

(** C8: in the query batch of the example scripts every query is run, one
    after the other; a query that fails with an [Exception] leaves its error
    in the log and the batch goes on to the next query and ends normally.
    The output is the concatenation of the entries of all the queries. *)
Theorem query_batch_continues (rag : R) (queries : list string) :
  forallb handled (query_outcomes aquery rag queries) = true ->
  let outcomes := query_outcomes aquery rag queries in
  length outcomes = length queries /\
  (query_batch_custom aquery rag queries).2 = Return tt /\
  (query_batch_custom aquery rag queries).1.2 =
    concat (zip_with entry_custom queries outcomes) /\
  (query_batch_fixed aquery rag queries).2 = Return tt /\
  (query_batch_fixed aquery rag queries).1.2 =
    concat (zip_with entry_fixed queries outcomes).
Proof.
  intros H outcomes. split; [apply query_outcomes_length|].
  destruct (query_batch_custom_log rag queries H) as [? ?].
  destruct (query_batch_fixed_log rag queries H) as [? ?].
  now repeat split.
Qed.

End Batch.

Lemma query_batch_continues_witness :
  forallb handled (query_outcomes flaky_aquery 0%nat ["q1"; "q2"]) = true /\
  (query_batch_custom flaky_aquery 0%nat ["q1"; "q2"]).1.2 =
  [LogInfo "Query: q1"; LogError "Query failed: timeout";
   LogInfo "Query: q2"; Stdout "Answer: answer to q2";
   LogInfo "Query executed successfully!"].
Proof.
  split; [reflexivity|].
  exact (proj1 (proj2 (proj2
           (query_batch_continues flaky_aquery 0%nat ["q1"; "q2"] eq_refl)))).
Defined.

Section Main.
Variable path_exists : string -> bool.
Variable makedirs : string -> py_result unit.
Variable process1 : string -> list output * py_result unit.
Variable process2 process3 : string -> string -> list output * py_result unit.

(** fixed_azure_custom_example.py stops with status 1 on a missing file. *)
Lemma main_custom_missing_file (script file_path : string) :
  path_exists file_path = false ->
  main_custom path_exists process1 [script; file_path] =
    ([Stdout ("Error: File not found: " +:+ file_path)], Raise (SystemExit 1)) /\
  exit_status (main_custom path_exists process1 [script; file_path]).2 = 1%Z.
Proof. intros H. unfold main_custom. simpl. now rewrite H. Qed.

(** C9, what fixed_azure_example.py and azure_openai_example.py do: on a
    file that does not exist [main] logs the error and returns, the
    processing is not started, and the script ends with status 0. *)
Theorem main_missing_file_status_zero (file_path output_dir : string) :
  path_exists file_path = false ->
  main_fixed path_exists makedirs process2 file_path output_dir =
    ([LogError ("File not found: " +:+ file_path)], Return tt) /\
  main_azure path_exists makedirs process3 file_path output_dir =
    ([LogError ("File not found: " +:+ file_path)], Return tt) /\
  exit_status (main_fixed path_exists makedirs process2 file_path output_dir).2
    = 0%Z /\
  exit_status (main_azure path_exists makedirs process3 file_path output_dir).2
    = 0%Z.
Proof.
  intros H. unfold main_fixed, main_azure, main_after_args. rewrite H.
  now repeat split.
Qed.

End Main.

Lemma main_missing_file_status_zero_witness :
  exit_status
    (main_fixed (fun _ => false) (fun _ => Return tt)
                (fun _ _ => ([], Return tt)) "missing.pdf" "./output").2 = 0%Z.
Proof.
  exact (proj1 (proj2 (proj2
           (main_missing_file_status_zero (fun _ => false) (fun _ => Return tt)
              (fun _ _ => ([], Return tt)) (fun _ _ => ([], Return tt))
              "missing.pdf" "./output" eq_refl)))).
Defined.

(** [get_azure_openai_config] does list what is missing: without the LLM key
    its error carries the key [llm_api_key]. *)
Lemma get_azure_openai_config_names_key
    (py_int : string -> py_result Z) (environ : gmap string string) (n : Z) :
  py_int (getenv_default environ "EMBEDDING_DIM" "1536") = Return n ->
  truthy (environ !! "LLM_BINDING_API_KEY") = false ->
  exists rest,
    get_azure_openai_config py_int environ =
    Raise (ValueError ("Missing Azure OpenAI configuration: " +:+
                       repr_list ("llm_api_key" :: rest))).
Proof.
  intros Hn Hk. unfold get_azure_openai_config. rewrite Hn. cbn [bind].
  cbn [List.filter fst snd falsy]. rewrite Hk. cbn [negb].
  change (is_infix "dim" "llm_api_key") with false. cbn [negb andb map fst].
  eexists. reflexivity.
Qed.

Example get_azure_openai_config_names_all :
  get_azure_openai_config (fun _ => Return 1536%Z)
    {[ "LLM_BINDING_HOST" := "https://h/openai/deployments/d/chat/completions" ]} =
  Raise (ValueError
    "Missing Azure OpenAI configuration: ['llm_api_key', 'embed_api_key', 'embed_base_url']").
Proof. reflexivity. Qed.

End ExampleFacts.

(** ** Base64: decoding what the standard encoder writes *)

Module Base64Facts.
Import Base64.
Local Open Scope Z_scope.

(** A property checked on the first [n] naturals holds below [n]. *)
Lemma below_by_cases (P : Z -> bool) (n : nat) :
  List.forallb P (map Z.of_nat (seq 0 n)) = true ->
  forall z, 0 <= z < Z.of_nat n -> P z = true.
Proof.
  intros H z Hz. rewrite List.forallb_forall in H. apply H.
  apply in_map_iff. exists (Z.to_nat z). split; [lia|].
  apply in_seq. lia.
Qed.

Lemma value_char v : 0 <= v < 64 -> value (char v) = Some v.
Proof.
  intros H.
  apply (below_by_cases
           (fun v => match value (char v) with
                     | Some v' => v' =? v
                     | None => false
                     end) 64 eq_refl) in H.
  destruct (value (char v)) as [v'|]; [|discriminate].
  apply Z.eqb_eq in H. now subst.
Qed.

Lemma char_not_pad v : 0 <= v < 64 -> Ascii.eqb (char v) "=" = false.
Proof.
  intros H.
  now apply (below_by_cases (fun v => negb (Ascii.eqb (char v) "=")) 64 eq_refl),
    negb_true_iff in H.
Qed.

(** Every character the encoder can write is ASCII. *)
Lemma isascii_char v : isascii (char v) = true.
Proof.
  unfold char. generalize (Z.to_nat v) as n. intros n.
  do 64 (destruct n as [|n]; [reflexivity|]). reflexivity.
Qed.

(** The three stores of the decoder, in arithmetic. *)
Lemma store1 l v :
  0 <= l < 64 -> 0 <= v < 64 ->
  Z.lor (Z.shiftl l 2) (Z.shiftr v 4) = 4 * l + v / 16.
Proof.
  intros Hl Hv. revert v Hv. 
  apply (below_by_cases
    (fun l => List.forallb
       (fun v => Z.lor (Z.shiftl l 2) (Z.shiftr v 4) =? 4 * l + v / 16)
       (map Z.of_nat (seq 0 64))) 64) in Hl; [|now vm_compute].
  intros v Hv. rewrite List.forallb_forall in Hl. apply Z.eqb_eq, Hl.
  apply in_map_iff. exists (Z.to_nat v). split; [lia|]. apply in_seq. lia.
Qed.

Lemma store2 l v :
  0 <= l < 16 -> 0 <= v < 64 ->
  Z.lor (Z.shiftl l 4) (Z.shiftr v 2) = 16 * l + v / 4.
Proof.
  intros Hl Hv. revert v Hv.
  apply (below_by_cases
    (fun l => List.forallb
       (fun v => Z.lor (Z.shiftl l 4) (Z.shiftr v 2) =? 16 * l + v / 4)
       (map Z.of_nat (seq 0 64))) 16) in Hl; [|now vm_compute].
  intros v Hv. rewrite List.forallb_forall in Hl. apply Z.eqb_eq, Hl.
  apply in_map_iff. exists (Z.to_nat v). split; [lia|]. apply in_seq. lia.
Qed.

Lemma store3 l v :
  0 <= l < 4 -> 0 <= v < 64 ->
  Z.lor (Z.shiftl l 6) v = 64 * l + v.
Proof.
  intros Hl Hv. revert v Hv.
  apply (below_by_cases
    (fun l => List.forallb
       (fun v => Z.lor (Z.shiftl l 6) v =? 64 * l + v)
       (map Z.of_nat (seq 0 64))) 4) in Hl; [|now vm_compute].
  intros v Hv. rewrite List.forallb_forall in Hl. apply Z.eqb_eq, Hl.
  apply in_map_iff. exists (Z.to_nat v). split; [lia|]. apply in_seq. lia.
Qed.

Lemma land_15 v : 0 <= v -> Z.land v 15 = v mod 16.
Proof. intros _. change 15 with (Z.ones 4). now rewrite Z.land_ones. Qed.

Lemma land_3 v : 0 <= v -> Z.land v 3 = v mod 4.
Proof. intros _. change 3 with (Z.ones 2). now rewrite Z.land_ones. Qed.

(** One step of the decoder on a character of the alphabet. *)
Lemma loop_char v s q l p :
  0 <= v < 64 ->
  a2b_loop (String (char v) s) q l p =
  match q with
  | 0%nat => a2b_loop s 1%nat v 0%nat
  | 1%nat =>
      bind (a2b_loop s 2%nat (Z.land v 15) 0%nat) (fun out =>
        Return (Z.lor (Z.shiftl l 2) (Z.shiftr v 4) mod 256 :: out))
  | 2%nat =>
      bind (a2b_loop s 3%nat (Z.land v 3) 0%nat) (fun out =>
        Return (Z.lor (Z.shiftl l 4) (Z.shiftr v 2) mod 256 :: out))
  | _ =>
      bind (a2b_loop s 0%nat 0 0%nat) (fun out =>
        Return (Z.lor (Z.shiftl l 6) v mod 256 :: out))
  end.
Proof.
  intros H. cbn [a2b_loop]. now rewrite (char_not_pad v H), (value_char v H).
Qed.

Lemma decode_group b0 b1 b2 rest out :
  is_byte b0 -> is_byte b1 -> is_byte b2 ->
  a2b_loop rest 0%nat 0 0%nat = Return out ->
  a2b_loop (String (char (b0 / 4)) (String (char (b0 mod 4 * 16 + b1 / 16))
             (String (char (b1 mod 16 * 4 + b2 / 64))
                (String (char (b2 mod 64)) rest)))) 0%nat 0 0%nat =
  Return (b0 :: b1 :: b2 :: out).
Proof.
  unfold is_byte. intros H0 H1 H2 Hrest.
  rewrite !loop_char by (Z.div_mod_to_equations; lia).
  rewrite Hrest. cbn [bind].
  rewrite land_15, land_3 by (Z.div_mod_to_equations; lia).
  rewrite store1, store2, store3 by (Z.div_mod_to_equations; lia).
  repeat f_equal; Z.div_mod_to_equations; lia.
Qed.

Lemma decode_tail1 b0 :
  is_byte b0 ->
  a2b_loop (String (char (b0 / 4)) (String (char (b0 mod 4 * 16)) "=="))
           0%nat 0 0%nat = Return [b0].
Proof.
  unfold is_byte. intros H0.
  rewrite !loop_char by (Z.div_mod_to_equations; lia).
  cbn [a2b_loop Ascii.eqb Nat.leb Nat.add bind]. simpl.
  rewrite store1 by (Z.div_mod_to_equations; lia).
  repeat f_equal; Z.div_mod_to_equations; lia.
Qed.

Lemma decode_tail2 b0 b1 :
  is_byte b0 -> is_byte b1 ->
  a2b_loop (String (char (b0 / 4)) (String (char (b0 mod 4 * 16 + b1 / 16))
             (String (char (b1 mod 16 * 4)) "="))) 0%nat 0 0%nat =
  Return [b0; b1].
Proof.
  unfold is_byte. intros H0 H1.
  rewrite !loop_char by (Z.div_mod_to_equations; lia).
  cbn [a2b_loop Ascii.eqb Nat.leb Nat.add bind]. simpl.
  rewrite land_15 by (Z.div_mod_to_equations; lia).
  rewrite store1, store2 by (Z.div_mod_to_equations; lia).
  repeat f_equal; Z.div_mod_to_equations; lia.
Qed.

(** Lists by groups of three. *)
Lemma by_threes {A} (P : list A -> Prop) :
  P [] -> (forall a, P [a]) -> (forall a b, P [a; b]) ->
  (forall a b c l, P l -> P (a :: b :: c :: l)) ->
  forall l, P l.
Proof.
  intros H0 H1 H2 H3 l.
  assert (H : P l /\ (forall a, P (a :: l)) /\ (forall a b, P (a :: b :: l))).
  { induction l as [|x l (IH0 & IH1 & IH2)]; [now repeat split|].
    repeat split; auto. }
  apply H.
Qed.

Lemma a2b_b64encode (b : list Z) :
  Forall is_byte b -> a2b_base64 (b64encode b) = Return b.
Proof.
  unfold a2b_base64. induction b as [| b0 | b0 b1 | b0 b1 b2 l IH] using by_threes;
    intros Hb.
  - reflexivity.
  - inversion Hb; subst. now apply decode_tail1.
  - inversion Hb as [|? ? ? Hb']; subst. inversion Hb'; subst.
    now apply decode_tail2.
  - inversion Hb as [|? ? ? Hb']; subst. inversion Hb' as [|? ? ? Hb'']; subst.
    inversion Hb''; subst. cbn [b64encode]. apply decode_group; auto.
Qed.

Lemma isascii_b64encode (b : list Z) :
  Str.forallb isascii (b64encode b) = true.
Proof.
  induction b as [| b0 | b0 b1 | b0 b1 b2 l IH] using by_threes;
    cbn [b64encode Str.forallb]; rewrite ?isascii_char; auto.
Qed.

(** [b64decode] inverts the standard encoding. *)
Lemma b64decode_b64encode (b : list Z) :
  Forall is_byte b -> b64decode (b64encode b) = Return b.
Proof.
  intros H. unfold b64decode. rewrite isascii_b64encode.
  now apply a2b_b64encode.
Qed.

End Base64Facts.

(** ** binary32 values: bit patterns, buffers and conversions *)

Module NpFacts.
Import Np.
Local Open Scope Z_scope.

Lemma digits2_bounds (m : positive) :
  2 ^ (Z.pos (digits2_pos m) - 1) <= Z.pos m < 2 ^ Z.pos (digits2_pos m).
Proof.
  induction m as [m IH|m IH|]; cbn [digits2_pos].
  - rewrite Pos2Z.inj_succ.
    replace (Z.succ (Z.pos (digits2_pos m)) - 1)
      with (Z.succ (Z.pos (digits2_pos m) - 1)) by lia.
    rewrite !Z.pow_succ_r by lia. lia.
  - rewrite Pos2Z.inj_succ.
    replace (Z.succ (Z.pos (digits2_pos m)) - 1)
      with (Z.succ (Z.pos (digits2_pos m) - 1)) by lia.
    rewrite !Z.pow_succ_r by lia. lia.
  - change (1 <= 1 < 2). lia.
Qed.

(** A finite binary32 is subnormal with exponent -149, or normal with a
    24-bit mantissa. *)
Lemma valid32_finite s m e :
  valid32 (S754_finite s m e) = true ->
  fexp prec32 emax32 (Z.pos (digits2_pos m) + e) = e /\
  Z.pos (digits2_pos m) <= 24 /\ -149 <= e <= 104 /\
  ((Z.pos m < 2 ^ 23 /\ e = -149) \/ 2 ^ 23 <= Z.pos m < 2 ^ 24).
Proof.
  unfold valid32, valid_binary, bounded, canonical_mantissa.
  intros H. apply andb_true_iff in H as [Hc He].
  apply Z.eqb_eq in Hc. apply Z.leb_le in He. split; [exact Hc|].
  unfold fexp, emin, prec32, emax32 in *.
  pose proof (digits2_bounds m) as [Hlo Hhi].
  set (d := Z.pos (digits2_pos m)) in *.
  assert (Hd : 1 <= d) by (subst d; lia).
  destruct (Z_lt_le_dec d 24) as [Hlt|Hge].
  - assert (2 ^ d <= 2 ^ 23) by (apply Z.pow_le_mono_r; lia).
    repeat split; lia.
  - assert (d = 24) by lia.
    assert (Hp : 2 ^ (d - 1) = 2 ^ 23) by (f_equal; lia).
    assert (Hq : 2 ^ d = 2 ^ 24) by (f_equal; lia).
    repeat split; lia.
Qed.

(** The fields of a pattern with a given sign bit. *)
Lemma sign_split s r :
  0 <= r < 2 ^ 31 ->
  Z.testbit (sign_bit s + r) 31 = s /\
  ((sign_bit s + r) / 2 ^ 23) mod 2 ^ 8 = r / 2 ^ 23 /\
  (sign_bit s + r) mod 2 ^ 23 = r mod 2 ^ 23.
Proof.
  intros Hr. rewrite Z.testbit_odd, Z.shiftr_div_pow2 by lia.
  unfold sign_bit.
  change (2 ^ 31) with 2147483648 in *. change (2 ^ 23) with 8388608.
  change (2 ^ 8) with 256.
  destruct s.
  - replace ((2147483648 + r) / 2147483648) with 1
      by (Z.div_mod_to_equations; lia).
    repeat split; Z.div_mod_to_equations; lia.
  - replace ((0 + r) / 2147483648) with 0 by (Z.div_mod_to_equations; lia).
    repeat split; Z.div_mod_to_equations; lia.
Qed.

Lemma bits_of_float32_range x :
  valid32 x = true -> 0 <= bits_of_float32 x < 2 ^ 32.
Proof.
  destruct x as [s|s| |s m e]; intros H; cbn [bits_of_float32].
  - destruct s; vm_compute; split; congruence.
  - destruct s; vm_compute; split; congruence.
  - vm_compute; split; congruence.
  - destruct (valid32_finite _ _ _ H) as (_ & _ & He & Hm).
    unfold sign_bit. change (2 ^ 32) with 4294967296.
    change (2 ^ 31) with 2147483648. change (2 ^ 23) with 8388608 in *.
    change (2 ^ 24) with 16777216 in *.
    destruct (Z.ltb_spec (Z.pos m) 8388608); destruct s; lia.
Qed.

(** Reading back the pattern of a binary32 value. *)
Lemma float32_of_bits_of_float32 x :
  valid32 x = true -> float32_of_bits (bits_of_float32 x) = x.
Proof.
  destruct x as [s|s| |s m e]; intros H.
  - destruct s; reflexivity.
  - destruct s; reflexivity.
  - reflexivity.
  - destruct (valid32_finite _ _ _ H) as (_ & _ & He & Hm).
    cbn [bits_of_float32]. unfold float32_of_bits.
    change (2 ^ 24) with 16777216 in *.
    destruct (Z.ltb_spec (Z.pos m) (2 ^ 23)) as [Hsub|Hnorm].
    + destruct (sign_split s (Z.pos m)) as (Hs & Hex & Hmant);
        [change (2 ^ 31) with 2147483648; change (2 ^ 23) with 8388608 in Hsub; lia|].
      rewrite Hs, Hex, Hmant.
      rewrite Z.div_small, Z.mod_small by lia. cbn [Z.eqb].
      destruct Hm as [[_ ->]|Hm]; [reflexivity | lia].
    + replace (sign_bit s + (e + 150) * 2 ^ 23 + (Z.pos m - 2 ^ 23))
        with (sign_bit s + ((e + 150) * 2 ^ 23 + (Z.pos m - 2 ^ 23))) by lia.
      destruct Hm as [[Hm _]|Hm]; [lia|].
      change (2 ^ 23) with 8388608 in *.
      destruct (sign_split s ((e + 150) * 8388608 + (Z.pos m - 8388608)))
        as (Hs & Hex & Hmant);
        [change (2 ^ 31) with 2147483648; lia|].
      change (2 ^ 23) with 8388608 in *.
      rewrite Hs, Hex, Hmant.
      replace (((e + 150) * 8388608 + (Z.pos m - 8388608)) / 8388608)
        with (e + 150) by (Z.div_mod_to_equations; lia).
      replace (((e + 150) * 8388608 + (Z.pos m - 8388608)) mod 8388608)
        with (Z.pos m - 8388608) by (Z.div_mod_to_equations; lia).
      destruct (Z.eqb_spec (e + 150) 0); [lia|].
      destruct (Z.eqb_spec (e + 150) 255); [lia|].
      f_equal; [|lia].
      replace (Z.pos m - 8388608 + 8388608) with (Z.pos m) by lia.
      reflexivity.
Qed.

Lemma pack_float32_bytes (l : list spec_float) :
  Forall Base64.is_byte (pack_float32 l).
Proof.
  induction l as [|x l IH]; cbn [pack_float32 flat_map]; [constructor|].
  repeat (apply Forall_cons; split;
          [unfold Base64.is_byte; change 256 with (2 ^ 8);
           apply Z.mod_pos_bound; reflexivity|]).
  exact IH.
Qed.

(** [np.frombuffer] reads back a packed vector. *)
Lemma frombuffer_pack (l : list spec_float) :
  Forall (fun x => valid32 x = true) l ->
  frombuffer_float32 (pack_float32 l) = Return l.
Proof.
  induction l as [|x l IH]; intros H; [reflexivity|].
  apply Forall_cons in H as [Hx Hl].
  cbn [pack_float32 flat_map app frombuffer_float32].
  fold (pack_float32 l). rewrite (IH Hl). cbn [bind].
  pose proof (bits_of_float32_range x Hx) as Hr.
  set (w := bits_of_float32 x) in *.
  replace (w mod 2 ^ 8 + 2 ^ 8 * ((w / 2 ^ 8) mod 2 ^ 8) +
           2 ^ 16 * ((w / 2 ^ 16) mod 2 ^ 8) +
           2 ^ 24 * ((w / 2 ^ 24) mod 2 ^ 8)) with w.
  - subst w. now rewrite float32_of_bits_of_float32.
  - change (2 ^ 32) with 4294967296 in Hr. change (2 ^ 8) with 256.
    change (2 ^ 16) with 65536. change (2 ^ 24) with 16777216.
    Z.div_mod_to_equations. lia.
Qed.

(** The iteration of [SpecFloat], counted in unary. *)
Lemma iter_pos_nat {A} (f : A -> A) (p : positive) (x : A) :
  SpecFloat.iter_pos f p x = Nat.iter (Pos.to_nat p) f x.
Proof.
  revert x. induction p as [p IH|p IH|]; intros x; cbn [SpecFloat.iter_pos].
  - rewrite !IH, Pos2Nat.inj_xI, Nat.iter_succ_r.
    replace (2 * Pos.to_nat p)%nat with (Pos.to_nat p + Pos.to_nat p)%nat by lia.
    now rewrite Nat.iter_add.
  - rewrite !IH, Pos2Nat.inj_xO.
    replace (2 * Pos.to_nat p)%nat with (Pos.to_nat p + Pos.to_nat p)%nat by lia.
    now rewrite Nat.iter_add.
  - reflexivity.
Qed.

Lemma pos_iter_nat {A} (f : A -> A) (p : positive) (x : A) :
  Pos.iter f x p = Nat.iter (Pos.to_nat p) f x.
Proof. apply Pos2Nat.inj_iter. Qed.

(** Shifting a mantissa left and back right loses nothing. *)
Lemma shr_shl_nat (n : nat) (m : positive) :
  Nat.iter n shr_1 (Build_shr_record (Z.pos (Nat.iter n xO m)) false false) =
  Build_shr_record (Z.pos m) false false.
Proof.
  induction n as [|n IH]; [reflexivity|].
  rewrite Nat.iter_succ_r. cbn [Nat.iter nat_rect shr_1 orb]. exact IH.
Qed.

Lemma shr_shl (k m : positive) :
  SpecFloat.iter_pos shr_1 k
    (Build_shr_record (Z.pos (Pos.iter xO m k)) false false) =
  Build_shr_record (Z.pos m) false false.
Proof. rewrite iter_pos_nat, pos_iter_nat. apply shr_shl_nat. Qed.

Lemma digits2_shl_nat (n : nat) (m : positive) :
  Z.pos (digits2_pos (Nat.iter n xO m)) = Z.pos (digits2_pos m) + Z.of_nat n.
Proof.
  induction n as [|n IH]; [cbn; lia|].
  cbn [Nat.iter nat_rect digits2_pos]. rewrite Pos2Z.inj_succ.
  change (nat_rect (fun _ => positive) m (fun _ => xO) n)
    with (Nat.iter n xO m). lia.
Qed.

Lemma digits2_shl (k m : positive) :
  Z.pos (digits2_pos (Pos.iter xO m k)) = Z.pos (digits2_pos m) + Z.pos k.
Proof. rewrite pos_iter_nat, digits2_shl_nat. lia. Qed.

(** Rounding a mantissa that already has its canonical exponent. *)
Lemma binary_round_aux_canonical prec emax s m e :
  fexp prec emax (Z.pos (digits2_pos m) + e) = e ->
  e <= emax - prec ->
  binary_round_aux prec emax s (Z.pos m) e loc_Exact = S754_finite s m e.
Proof.
  intros Hc He. unfold binary_round_aux, shr_fexp. cbn [Zdigits2].
  rewrite Hc, Z.sub_diag.
  cbn [shr shr_record_of_loc shr_m loc_of_shr_record round_nearest_even
       Zdigits2].
  rewrite Hc, Z.sub_diag. cbn [shr shr_record_of_loc shr_m].
  apply Z.leb_le in He. now rewrite He.
Qed.

(** The Python float of a binary32 value has the same sign, the mantissa
    shifted left by [k] bits and the exponent lowered by [k]: the same number. *)
Lemma to_float64_finite s m e :
  valid32 (S754_finite s m e) = true ->
  exists k, Z.pos k = 53 - Z.pos (digits2_pos m) /\
    to_float64 (S754_finite s m e) =
    S754_finite s (Pos.iter xO m k) (e - Z.pos k).
Proof.
  intros H. destruct (valid32_finite _ _ _ H) as (_ & Hd & He & _).
  set (d := Z.pos (digits2_pos m)) in *.
  exists (Z.to_pos (53 - d)).
  assert (Hk : Z.pos (Z.to_pos (53 - d)) = 53 - d) by (apply Z2Pos.id; lia).
  split; [exact Hk|]. set (k := Z.to_pos (53 - d)) in *.
  cbn [to_float64]. unfold binary_round, shl_align.
  fold d.
  assert (Hf : fexp prec64 emax64 (d + e) = d + e - 53).
  { unfold fexp, emin, prec64, emax64. lia. }
  rewrite Hf. replace (d + e - 53 - e) with (Z.neg k) by lia.
  rewrite binary_round_aux_canonical.
  - f_equal. lia.
  - rewrite digits2_shl. fold d. unfold fexp, emin, prec64, emax64. lia.
  - unfold prec64, emax64. lia.
Qed.

(** That Python float is a binary64 value. *)
Lemma to_float64_valid x :
  valid32 x = true -> valid64 (to_float64 x) = true.
Proof.
  destruct x as [s|s| |s m e]; intros H; try reflexivity.
  destruct (to_float64_finite s m e H) as (k & Hk & ->).
  destruct (valid32_finite _ _ _ H) as (_ & Hd & He & _).
  unfold valid64, valid_binary, bounded, canonical_mantissa.
  rewrite digits2_shl. apply andb_true_iff. split.
  - apply Z.eqb_eq. unfold fexp, emin, prec64, emax64. lia.
  - apply Z.leb_le. unfold prec64, emax64. lia.
Qed.

(** Converting the Python float of a binary32 value back gives that value. *)
Lemma to_float32_to_float64 x :
  valid32 x = true -> to_float32 (to_float64 x) = x.
Proof.
  destruct x as [s|s| |s m e]; intros H; try reflexivity.
  destruct (to_float64_finite s m e H) as (k & Hk & ->).
  destruct (valid32_finite _ _ _ H) as (Hc & Hd & He & _).
  set (d := Z.pos (digits2_pos m)) in *.
  cbn [to_float32]. unfold binary_round, shl_align.
  rewrite digits2_shl. fold d.
  replace (d + Z.pos k + (e - Z.pos k)) with (d + e) by lia.
  rewrite Hc. replace (e - (e - Z.pos k)) with (Z.pos k) by lia.
  unfold binary_round_aux, shr_fexp. cbn [Zdigits2].
  rewrite digits2_shl. fold d.
  replace (d + Z.pos k + (e - Z.pos k)) with (d + e) by lia.
  rewrite Hc. replace (e - (e - Z.pos k)) with (Z.pos k) by lia.
  cbn [shr shr_record_of_loc]. rewrite shr_shl.
  cbn [shr_m loc_of_shr_record round_nearest_even Zdigits2].
  replace (e - Z.pos k + Z.pos k) with e by lia. fold d.
  rewrite Hc, Z.sub_diag. cbn [shr shr_record_of_loc shr_m].
  replace (e <=? emax32 - prec32) with true; [reflexivity|].
  symmetry. apply Z.leb_le. unfold emax32, prec32. lia.
Qed.

Lemma array_float32_to_float64 (l : list spec_float) :
  Forall (fun x => valid32 x = true) l ->
  array_float32 (map to_float64 l) = l.
Proof.
  unfold array_float32. induction l as [|x l IH]; intros H; [reflexivity|].
  apply Forall_cons in H as [Hx Hl]. cbn [map].
  now rewrite (to_float32_to_float64 x Hx), (IH Hl).
Qed.

End NpFacts.

(** ** The two encodings of an embedding *)

Module EmbeddingFacts.

(** C4: a response item whose [embedding] is the base64 text of a packed
    float32 buffer decodes to the same vector as an item whose [embedding]
    is the plain list of the same numbers; both give the vector itself. *)
Theorem decode_embedding_encodings_agree (xs : list spec_float) :
  Forall (fun x => Np.valid32 x = true) xs ->
  decode_embedding (EmbStr (Base64.b64encode (Np.pack_float32 xs))) =
    decode_embedding (EmbList (map Np.to_float64 xs)) /\
  decode_embedding (EmbList (map Np.to_float64 xs)) = Return xs.
Proof.
  intros H. cbn [decode_embedding].
  rewrite Base64Facts.b64decode_b64encode by apply NpFacts.pack_float32_bytes.
  cbn [bind]. rewrite NpFacts.frombuffer_pack by assumption.
  now rewrite NpFacts.array_float32_to_float64.
Qed.

Lemma decode_embedding_encodings_agree_witness :
  Forall (fun x => Np.valid32 x = true)
    [S754_finite false 8388608 (-23); S754_finite true 12582912 (-22)] /\
  decode_embedding (EmbStr "AACAPwAAQMA=") =
  decode_embedding
    (EmbList [S754_finite false 4503599627370496 (-52);
              S754_finite true 6755399441055744 (-51)]).
Proof.
  split; [repeat constructor|].
  exact (proj1 (decode_embedding_encodings_agree
                  [S754_finite false 8388608 (-23);
                   S754_finite true 12582912 (-22)]
                  ltac:(repeat constructor))).
Defined.

End EmbeddingFacts.

(** * Properties of the rest of the sources *)

(** ** More on strings and on [urlsplit] *)

Module MoreUrlFacts.
Import Str StrFacts CharFacts UrlFacts.

Lemma split_nonempty c (a : string) : split c a <> [].
Proof.
  induction a as [|x a IH]; simpl; [discriminate|].
  destruct (eqc x c); [discriminate|].
  now destruct (split c a).
Qed.

(** Splitting a text at every [c], piece by piece. *)
Lemma split_app_sep c (a b : string) :
  split c (a +:+ String c b) = split c a ++ split c b.
Proof.
  induction a as [|x a IH]; simpl.
  - now rewrite eqc_refl.
  - destruct (eqc x c); [now rewrite IH|].
    rewrite IH. pose proof (split_nonempty c a) as Hne.
    now destruct (split c a).
Qed.

Lemma concat_cons2 sep (x y : string) (l : list string) :
  String.concat sep (x :: y :: l) = x +:+ sep +:+ String.concat sep (y :: l).
Proof. reflexivity. Qed.

(** Joining what [split] gives restores the text. *)
Lemma concat_split (a : string) : String.concat "/" (split "/" a) = a.
Proof.
  induction a as [|x a IH]; [reflexivity|].
  cbn [split]. pose proof (split_nonempty "/" a) as Hne.
  destruct (eqc x "/") eqn:E.
  - apply eqc_eq in E. subst x.
    destruct (split "/" a) as [|h t]; [congruence|].
    rewrite concat_cons2, IH. reflexivity.
  - destruct (split "/" a) as [|h t]; [congruence|].
    destruct t as [|h' t].
    + cbn [String.concat] in *. now subst a.
    + rewrite concat_cons2 in *. rewrite <- IH. reflexivity.
Qed.

Lemma split1_none c (s : string) : contains c s = false -> split1 c s = None.
Proof.
  induction s as [|x s IH]; simpl; [reflexivity|].
  intros H. apply orb_false_iff in H as [Hx Hs]. now rewrite Hx, (IH Hs).
Qed.

Lemma rstrip_all p (t : string) : forallb p t = true -> rstrip p t = EmptyString.
Proof.
  induction t as [|x t IH]; simpl; [reflexivity|].
  intros H. apply andb_true_iff in H as [Hx Ht]. now rewrite (IH Ht), Hx.
Qed.

(** [urlsplit] written with [split_query_fragment]. *)
Lemma urlsplit_unfold chk (u : string) :
  urlsplit chk u =
  let cleaned := remove is_unsafe_url_byte (lstrip is_c0_control_or_space u) in
  bind (split_netloc chk (snd (split_scheme cleaned))) (fun nu =>
    let '(p, q, f) := split_query_fragment (snd nu) in
    Return (mkSplit (fst (split_scheme cleaned)) (fst nu) p q f)).
Proof.
  unfold urlsplit, split_query_fragment. cbv zeta.
  destruct (split_scheme _) as [sch url]. cbn [fst snd].
  destruct (split_netloc chk url) as [[nl url']|e]; [|reflexivity].
  cbn [bind fst snd].
  destruct (split1 "#" url') as [[a b]|];
    [destruct (split1 "?" a) as [[a' b']|]
    |destruct (split1 "?" url') as [[a' b']|]]; reflexivity.
Qed.

(** The text of a URL [scheme://host/...] survives the cleaning, up to the
    characters removed after the host. *)
Lemma cleaned_url (sch host t : string) :
  is_scheme sch = true -> is_host host = true ->
  remove is_unsafe_url_byte
    (lstrip is_c0_control_or_space (sch +:+ "://" +:+ host +:+ t)) =
  sch +:+ String ":" (String "/" (String "/"
    (host +:+ remove is_unsafe_url_byte t))).
Proof.
  intros Hs Hh.
  destruct (is_scheme_inv _ Hs) as (c & s' & E & Hc & Hall).
  destruct (is_host_inv _ Hh) as (_ & Hsafe).
  assert (Hstrip : lstrip is_c0_control_or_space
            (sch +:+ "://" +:+ host +:+ t) = sch +:+ "://" +:+ host +:+ t).
  { subst sch. simpl. now rewrite (alpha_not_c0 _ Hc). }
  rewrite Hstrip, !remove_app.
  rewrite (remove_id _ sch), (remove_id _ host); [reflexivity|assumption|].
  eapply forallb_impl; [|exact Hall]. apply scheme_char_safe.
Qed.

Section WithCheck.
Variable chk : string -> option exn.

(** [urlsplit] on [scheme://host/...]: the scheme in lower case, the host,
    and the rest cut into path, query and fragment. *)
Lemma urlsplit_host (sch host t : string) :
  is_scheme sch = true -> is_host host = true ->
  host_accepted chk host = true ->
  urlsplit chk (sch +:+ "://" +:+ host +:+ "/" +:+ t) =
  let '(p, q, f) :=
    split_query_fragment (String "/" (remove is_unsafe_url_byte t)) in
  Return (mkSplit (lower sch) host p q f).
Proof.
  intros Hs Hh Hacc. rewrite urlsplit_unfold. cbv zeta.
  rewrite (cleaned_url sch host ("/" +:+ t) Hs Hh).
  change (remove is_unsafe_url_byte ("/" +:+ t))
    with (String "/" (remove is_unsafe_url_byte t)).
  rewrite (split_scheme_ok _ _ Hs). cbn [fst snd].
  rewrite (split_netloc_ok chk _ _ Hh Hacc). cbn [bind fst snd].
  reflexivity.
Qed.

(** A bracket without its partner in the host makes [urlsplit] raise. *)
Lemma urlsplit_bracket_error (sch host t : string) :
  is_scheme sch = true -> is_host host = true ->
  contains "[" host = negb (contains "]" host) ->
  urlsplit chk (sch +:+ "://" +:+ host +:+ "/" +:+ t) =
  Raise (ValueError "Invalid IPv6 URL").
Proof.
  intros Hs Hh Hb. rewrite urlsplit_unfold. cbv zeta.
  rewrite (cleaned_url sch host ("/" +:+ t) Hs Hh).
  change (remove is_unsafe_url_byte ("/" +:+ t))
    with (String "/" (remove is_unsafe_url_byte t)).
  rewrite (split_scheme_ok _ _ Hs). cbn [fst snd].
  destruct (is_host_inv _ Hh) as (Hd & _).
  unfold split_netloc. rewrite break_app; [|assumption|reflexivity].
  rewrite Hb. now destruct (contains "]" host).
Qed.

(** The path is the text before the query when that text has no [?], no [#]
    and nothing that [urlsplit] removes. *)
Lemma split_query_fragment_path (a t : string) :
  contains "#" a = false -> contains "?" a = false ->
  is_url_tail t = true ->
  exists q f, split_query_fragment (a +:+ t) = (a, q, f).
Proof.
  intros Hfrag Hq Ht. unfold split_query_fragment.
  destruct t as [|c t]; cbn [is_url_tail] in Ht.
  - rewrite app_nil_r, (split1_none _ _ Hfrag), (split1_none _ _ Hq). eauto.
  - apply orb_true_iff in Ht as [Hc|Hc]; apply eqc_eq in Hc; subst c.
    + rewrite (split1_app_l "#" a (String "?" t) Hfrag).
      cbn [split1]. change (eqc "?" "#") with false. cbv iota.
      destruct (split1 "#" t) as [[u v]|].
      * rewrite (split1_app "?" a u Hq). eauto.
      * rewrite (split1_app "?" a t Hq). eauto.
    + rewrite (split1_app "#" a t Hfrag), (split1_none _ _ Hq). eauto.
Qed.

Lemma is_url_tail_remove (t : string) :
  is_url_tail t = true -> is_url_tail (remove is_unsafe_url_byte t) = true.
Proof.
  destruct t as [|c t]; [reflexivity|]. cbn [is_url_tail]. intros H.
  apply orb_true_iff in H as [Hc|Hc]; apply eqc_eq in Hc; subst c; reflexivity.
Qed.

(** [urlparse] on [scheme://host/<path><tail>] for a path without
    parameters. *)
Lemma urlparse_path (sch host a t : string) :
  is_scheme sch = true -> is_host host = true ->
  host_accepted chk host = true ->
  forallb (fun c => negb (is_unsafe_url_byte c)) a = true ->
  contains "#" a = false -> contains "?" a = false ->
  contains ";" a = false -> is_url_tail t = true ->
  exists q f,
    urlparse chk (sch +:+ "://" +:+ host +:+ "/" +:+ a +:+ t) =
    Return (mkParse (lower sch) host ("/" +:+ a) EmptyString q f).
Proof.
  intros Hs Hh Hacc Ha Hfrag Hq Hp Ht.
  unfold urlparse. rewrite (urlsplit_host sch host (a +:+ t) Hs Hh Hacc).
  rewrite remove_app, (remove_id _ a Ha).
  destruct (split_query_fragment_path (String "/" a)
              (remove is_unsafe_url_byte t)) as (q & f & E);
    [exact Hfrag | exact Hq | now apply is_url_tail_remove |].
  change (String "/" (a +:+ remove is_unsafe_url_byte t))
    with (String "/" a +:+ remove is_unsafe_url_byte t).
  rewrite E. cbn [bind sr_scheme sr_netloc sr_url sr_query sr_fragment].
  assert (Hsemi : contains ";" (String "/" a) = false) by (simpl; exact Hp).
  rewrite Hsemi, andb_false_r. now exists q, f.
Qed.

End WithCheck.

(** The text ["/".join(segs)] of segments: its characters, and its segments
    again. *)
Lemma concat_segments (segs : list string) :
  segs <> [] -> List.forallb is_segment segs = true ->
  let a := String.concat "/" segs in
  forallb (fun c => negb (is_unsafe_url_byte c)) a = true /\
  contains "#" a = false /\ contains "?" a = false /\
  (exists c a', a = String c a' /\ is_slash c = false) /\
  rstrip is_slash a = a /\
  split "/" a = segs.
Proof.
  induction segs as [|x segs IH]; [congruence|]. intros _ H.
  cbn [List.forallb] in H. apply andb_true_iff in H as [Hx Hrest].
  destruct (is_segment_inv _ Hx) as (Hne & Hns & Hsafe & Hsl & Hfr & Hq).
  assert (Hhead : exists c x', x = String c x' /\ is_slash c = false).
  { destruct x as [|c x']; [congruence|]. exists c, x'. split; [reflexivity|].
    simpl in Hns. apply andb_true_iff in Hns as [Hc _].
    now apply negb_true_iff in Hc. }
  destruct segs as [|y segs].
  - cbn [String.concat]. repeat split; try assumption.
    + now apply rstrip_id.
    + now apply split_nosep.
  - destruct (IH ltac:(discriminate) Hrest)
      as (IHsafe & IHfr & IHq & (d & a' & Ea & Hd) & IHr & IHs).
    cbn zeta in *.
    change (String.concat "/" (x :: y :: segs))
      with (x +:+ String "/" (String.concat "/" (y :: segs))).
    set (a := String.concat "/" (y :: segs)) in *.
    destruct Hhead as (c & x' & Ex & Hc).
    repeat split.
    + rewrite forallb_app, Hsafe. simpl. exact IHsafe.
    + rewrite contains_app, Hfr. simpl. exact IHfr.
    + rewrite contains_app, Hq. simpl. exact IHq.
    + subst x. simpl. eauto.
    + rewrite rstrip_app.
      assert (Hr : rstrip is_slash (String "/" a) = String "/" a).
      { cbn [rstrip]. rewrite IHr, Ea. reflexivity. }
      rewrite Hr. reflexivity.
    + rewrite split_app by assumption. now rewrite IHs.
Qed.

Lemma mem_app x (l1 l2 : list string) :
  mem x (l1 ++ l2) = mem x l1 || mem x l2.
Proof. unfold mem. apply List.existsb_app. Qed.

Lemma index_skip x (pre l : list string) :
  mem x pre = false ->
  index x (pre ++ x :: l) = Some (length pre).
Proof.
  induction pre as [|y pre IH]; cbn [index app mem existsb length].
  - intros _. now rewrite String.eqb_refl.
  - intros H. apply orb_false_iff in H as [Hy Hpre].
    rewrite String.eqb_sym, Hy. fold (mem x pre) in Hpre.
    now rewrite (IH Hpre).
Qed.

(** The segment after the first [deployments] is the deployment. *)
Lemma deployment_of_after (pre : list string) (name : string) (tl : list string) :
  mem "deployments" pre = false ->
  deployment_of (pre ++ "deployments" :: name :: tl) = Some name.
Proof.
  intros H. unfold deployment_of.
  rewrite mem_app. cbn [mem existsb]. rewrite String.eqb_refl, orb_true_r.
  cbn [orb]. rewrite (index_skip _ _ _ H).
  replace (length pre + 1 <? length (pre ++ "deployments" :: name :: tl))%nat
    with true.
  - rewrite nth_error_app2 by lia.
    now replace (length pre + 1 - length pre)%nat with 1%nat by lia.
  - symmetry. apply Nat.ltb_lt. rewrite length_app. simpl. lia.
Qed.

(** A [deployments] segment at the very end names no deployment. *)
Lemma deployment_of_last (pre : list string) :
  mem "deployments" pre = false ->
  deployment_of (pre ++ ["deployments"]) = None.
Proof.
  intros H. unfold deployment_of.
  rewrite mem_app. cbn [mem existsb]. rewrite String.eqb_refl, orb_true_r.
  cbn [orb]. rewrite (index_skip _ _ _ H).
  replace (length pre + 1 <? length (pre ++ ["deployments"]))%nat with false;
    [reflexivity|].
  symmetry. apply Nat.ltb_ge. rewrite length_app. simpl. lia.
Qed.

Lemma forallb_segment_app (l1 l2 : list string) :
  List.forallb is_segment (l1 ++ l2) =
  List.forallb is_segment l1 && List.forallb is_segment l2.
Proof. apply List.forallb_app. Qed.

End MoreUrlFacts.

(** ** More on the resolver [parse_azure_url] *)

Module ResolverMore.
Import Str StrFacts CharFacts UrlFacts MoreUrlFacts.

Lemma path_url_nonempty sch host segs tail :
  is_scheme sch = true -> path_url sch host segs tail <> EmptyString.
Proof.
  intros H. destruct (is_scheme_inv _ H) as (c & s' & -> & _). discriminate.
Qed.

Lemma lstrip_slash_path (a s : string) :
  (exists c a', a = String c a' /\ is_slash c = false) ->
  lstrip is_slash (String "/" (a +:+ s)) = a +:+ s.
Proof. intros (c & a' & -> & Hc). simpl. now rewrite Hc. Qed.

(** The segments of the path [/<seg1>/.../<segn>/...]. *)
Lemma parts_of_path (segs : list string) (t : string) :
  segs <> [] -> List.forallb is_segment segs = true ->
  exists tl,
    split "/" (strip is_slash
                 (String "/" (String.concat "/" segs +:+ String "/" t))) =
    segs ++ tl.
Proof.
  intros Hne Hsegs.
  destruct (concat_segments segs Hne Hsegs)
    as (_ & _ & _ & Hhead & Hr & Hsplit).
  cbn zeta in *. unfold strip. rewrite (lstrip_slash_path _ _ Hhead).
  rewrite rstrip_app.
  destruct (rstrip_head is_slash "/" t) as [E | [r E]]; rewrite E.
  - exists []. now rewrite Hr, Hsplit, List.app_nil_r.
  - exists (split "/" r). now rewrite split_app_sep, Hsplit.
Qed.

(** The segments of the path [/<seg1>/.../<segn>] followed by slashes. *)
Lemma parts_of_path_slashes (segs : list string) (sl : string) :
  segs <> [] -> List.forallb is_segment segs = true ->
  all_slashes sl = true ->
  split "/" (strip is_slash (String "/" (String.concat "/" segs +:+ sl))) =
  segs.
Proof.
  intros Hne Hsegs Hsl.
  destruct (concat_segments segs Hne Hsegs)
    as (_ & _ & _ & Hhead & Hr & Hsplit).
  cbn zeta in *. unfold strip. rewrite (lstrip_slash_path _ _ Hhead).
  rewrite rstrip_app, (rstrip_all _ _ Hsl). now rewrite Hr.
Qed.

Lemma plain_is_segment (segs : list string) :
  List.forallb is_plain_segment segs = true ->
  List.forallb is_segment segs = true.
Proof.
  intros H. rewrite List.forallb_forall in *. intros x Hx.
  specialize (H x Hx). unfold is_plain_segment in H.
  now apply andb_true_iff in H as [? _].
Qed.

Lemma slashes_clean (sl : string) :
  all_slashes sl = true ->
  forallb (fun c => negb (is_unsafe_url_byte c)) sl = true /\
  contains "#" sl = false /\ contains "?" sl = false /\
  contains ";" sl = false.
Proof.
  induction sl as [|c sl IH]; [now repeat split|].
  unfold all_slashes. cbn [forallb]. intros H.
  apply andb_true_iff in H as [Hc Hsl]. apply eqc_eq in Hc. subst c.
  destruct (IH Hsl) as (H1 & H2 & H3 & H4).
  cbn [forallb contains]. now rewrite H1, H2, H3, H4.
Qed.

(** A path of plain segments, then any slashes, then nothing or a query or
    a fragment: the segments are what the resolver searches. *)
Lemma parse_azure_url_segments chk sch host segs sl tail :
  is_scheme sch = true -> is_host host = true ->
  host_accepted chk host = true ->
  segs <> [] -> List.forallb is_plain_segment segs = true ->
  all_slashes sl = true -> is_url_tail tail = true ->
  parse_azure_url chk (Some (path_url sch host segs (sl +:+ tail))) =
  Return (Some (lower sch +:+ "://" +:+ host +:+ "/openai/"),
          deployment_of segs).
Proof.
  intros Hs Hh Hacc Hne Hsegs Hsl Ht.
  destruct (concat_plain segs Hne Hsegs)
    as (Hsafe & Hfr & Hq & Hp & _ & _ & _).
  destruct (slashes_clean sl Hsl) as (S1 & S2 & S3 & S4).
  cbn zeta in *.
  rewrite parse_azure_url_nonempty by now apply path_url_nonempty.
  unfold path_url.
  destruct (urlparse_path chk sch host (String.concat "/" segs +:+ sl) tail)
    as (q & f & E); try assumption.
  - now rewrite forallb_app, Hsafe.
  - now rewrite contains_app, Hfr.
  - now rewrite contains_app, Hq.
  - now rewrite contains_app, Hp.
  - rewrite <- (app_assoc (String.concat "/" segs) sl tail).
    rewrite E. cbn [bind scheme netloc]. unfold path_parts_of. cbn [path].
    change ("/" +:+ (String.concat "/" segs +:+ sl))
      with (String "/" (String.concat "/" segs +:+ sl)).
    rewrite parts_of_path_slashes; auto using plain_is_segment.
Qed.

(** X1: the resolver finds the deployment after the first [deployments] segment
    wherever that segment stands in the path, and the base URL never keeps
    anything of the path: whatever precedes [deployments] is replaced by
    [/openai/]. *)
Theorem parse_azure_url_any_prefix chk sch host pre name rest :
  is_scheme sch = true -> is_host host = true ->
  host_accepted chk host = true ->
  List.forallb is_segment pre = true -> mem "deployments" pre = false ->
  is_segment name = true ->
  parse_azure_url chk
    (Some (path_url sch host (pre ++ ["deployments"; name]) ("/" +:+ rest))) =
  Return (Some (lower sch +:+ "://" +:+ host +:+ "/openai/"), Some name).
Proof.
  intros Hs Hh Hacc Hpre Hmem Hname.
  set (segs := pre ++ ["deployments"; name]).
  assert (Hne : segs <> []) by (subst segs; now destruct pre).
  assert (Hsegs : List.forallb is_segment segs = true).
  { subst segs. rewrite forallb_segment_app, Hpre. cbn [List.forallb].
    now rewrite Hname. }
  destruct (concat_segments segs Hne Hsegs) as (Hsafe & Hfr & Hq & _).
  cbn zeta in *.
  rewrite parse_azure_url_nonempty by now apply path_url_nonempty.
  unfold path_url.
  destruct (urlparse_shape chk sch host (String.concat "/" segs) rest
              Hs Hh Hacc Hsafe Hfr Hq) as (t' & prm & q & f & E).
  rewrite E. cbn [bind scheme netloc]. unfold path_parts_of. cbn [path].
  destruct (parts_of_path segs t' Hne Hsegs) as (tl & Hparts).
  change ("/" +:+ String.concat "/" segs +:+ "/" +:+ t')
    with (String "/" (String.concat "/" segs +:+ String "/" t')).
  rewrite Hparts. subst segs. rewrite <- List.app_assoc.
  cbn [app]. now rewrite deployment_of_after.
Qed.

Lemma parse_azure_url_any_prefix_witness :
  parse_azure_url no_bracket_error
    (Some "https://gw.example.com/tenant/v1/deployments/gpt-4o/deployments/x")
  = Return (Some "https://gw.example.com/openai/", Some "gpt-4o").
Proof.
  exact (parse_azure_url_any_prefix no_bracket_error "https" "gw.example.com"
           ["tenant"; "v1"] "gpt-4o" "deployments/x"
           eq_refl eq_refl eq_refl eq_refl eq_refl eq_refl).
Defined.

(** X2: a URL that ends at the deployment name, with or without trailing
    slashes, a query or a fragment, resolves to that name. *)
Theorem parse_azure_url_ends_at_name chk sch host pre name sl tail :
  is_scheme sch = true -> is_host host = true ->
  host_accepted chk host = true ->
  List.forallb is_plain_segment pre = true ->
  mem "deployments" pre = false -> is_plain_segment name = true ->
  all_slashes sl = true -> is_url_tail tail = true ->
  parse_azure_url chk
    (Some (path_url sch host (pre ++ ["deployments"; name]) (sl +:+ tail))) =
  Return (Some (lower sch +:+ "://" +:+ host +:+ "/openai/"), Some name).
Proof.
  intros Hs Hh Hacc Hpre Hmem Hname Hsl Ht.
  rewrite parse_azure_url_segments; try assumption.
  - now rewrite deployment_of_after.
  - now destruct pre.
  - rewrite List.forallb_app, Hpre. cbn [List.forallb]. now rewrite Hname.
Qed.

Lemma parse_azure_url_ends_at_name_witness :
  parse_azure_url no_bracket_error
    (Some "https://acme.openai.azure.com/openai/deployments/gpt-4o//#top")
  = Return (Some "https://acme.openai.azure.com/openai/", Some "gpt-4o").
Proof.
  exact (parse_azure_url_ends_at_name no_bracket_error "https"
           "acme.openai.azure.com" ["openai"] "gpt-4o" "//" "#top"
           eq_refl eq_refl eq_refl eq_refl eq_refl eq_refl eq_refl eq_refl).
Defined.

(** X3: the bounds check of the resolver: when [deployments] is the last segment
    of the path nothing follows it, and the deployment is [None], not an
    [IndexError]; the base URL is still returned. *)
Theorem parse_azure_url_trailing_deployments chk sch host pre sl tail :
  is_scheme sch = true -> is_host host = true ->
  host_accepted chk host = true ->
  List.forallb is_plain_segment pre = true ->
  mem "deployments" pre = false ->
  all_slashes sl = true -> is_url_tail tail = true ->
  parse_azure_url chk
    (Some (path_url sch host (pre ++ ["deployments"]) (sl +:+ tail))) =
  Return (Some (lower sch +:+ "://" +:+ host +:+ "/openai/"), None).
Proof.
  intros Hs Hh Hacc Hpre Hmem Hsl Ht.
  rewrite parse_azure_url_segments; try assumption.
  - now rewrite deployment_of_last.
  - now destruct pre.
  - now rewrite List.forallb_app, Hpre.
Qed.

Lemma parse_azure_url_trailing_deployments_witness :
  parse_azure_url no_bracket_error
    (Some "https://acme.openai.azure.com/openai/deployments/?api-version=1")
  = Return (Some "https://acme.openai.azure.com/openai/", None).
Proof.
  exact (parse_azure_url_trailing_deployments no_bracket_error "https"
           "acme.openai.azure.com" ["openai"] "/" "?api-version=1"
           eq_refl eq_refl eq_refl eq_refl eq_refl eq_refl eq_refl).
Defined.

(** X4: only the path is searched: a [deployments] that stands in the query or
    in the fragment names no deployment. *)
Theorem parse_azure_url_ignores_query chk sch host segs sl tail :
  is_scheme sch = true -> is_host host = true ->
  host_accepted chk host = true ->
  segs <> [] -> List.forallb is_plain_segment segs = true ->
  mem "deployments" segs = false ->
  all_slashes sl = true -> is_url_tail tail = true ->
  parse_azure_url chk (Some (path_url sch host segs (sl +:+ tail))) =
  Return (Some (lower sch +:+ "://" +:+ host +:+ "/openai/"), None).
Proof.
  intros Hs Hh Hacc Hne Hsegs Hmem Hsl Ht.
  rewrite parse_azure_url_segments; try assumption.
  unfold deployment_of. now rewrite Hmem.
Qed.

Lemma parse_azure_url_ignores_query_witness :
  parse_azure_url no_bracket_error
    (Some "https://acme.openai.azure.com/openai/models?next=/deployments/gpt-4o")
  = Return (Some "https://acme.openai.azure.com/openai/", None).
Proof.
  exact (parse_azure_url_ignores_query no_bracket_error "https"
           "acme.openai.azure.com" ["openai"; "models"] ""
           "?next=/deployments/gpt-4o"
           eq_refl eq_refl eq_refl ltac:(discriminate) eq_refl eq_refl
           eq_refl eq_refl).
Defined.

(** X5: the resolver catches nothing: a host with one square bracket and not
    the other makes it raise the [ValueError] of [urlsplit], whatever the
    path is. *)
Theorem parse_azure_url_unbalanced_bracket chk sch host rest :
  is_scheme sch = true -> is_host host = true ->
  contains "[" host = negb (contains "]" host) ->
  parse_azure_url chk (Some (sch +:+ "://" +:+ host +:+ "/" +:+ rest)) =
  Raise (ValueError "Invalid IPv6 URL").
Proof.
  intros Hs Hh Hb.
  rewrite parse_azure_url_nonempty.
  - unfold urlparse.
    now rewrite (urlsplit_bracket_error chk sch host rest Hs Hh Hb).
  - destruct (is_scheme_inv _ Hs) as (c & s' & -> & _). discriminate.
Qed.

Lemma parse_azure_url_unbalanced_bracket_witness :
  parse_azure_url no_bracket_error
    (Some "https://[::1/openai/deployments/gpt-4o/chat/completions") =
  Raise (ValueError "Invalid IPv6 URL").
Proof.
  exact (parse_azure_url_unbalanced_bracket no_bracket_error "https" "[::1"
           "openai/deployments/gpt-4o/chat/completions"
           eq_refl eq_refl eq_refl).
Defined.

Lemma contains_remove_false p c (s : string) :
  contains c s = false -> contains c (remove p s) = false.
Proof.
  induction s as [|x s IH]; simpl; [reflexivity|].
  intros H. apply orb_false_iff in H as [Hx Hs].
  destruct (p x); [now apply IH|]. simpl. now rewrite Hx, IH.
Qed.

Lemma c0_covers_unsafe c :
  is_c0_control_or_space c = false -> is_unsafe_url_byte c = false.
Proof. by_cases c. Qed.

(** X6: a text without a colon has no scheme, and when it does not start with a
    slash it has no host either: the resolver does not reject it, it returns
    the base URL [:///openai/]. *)
Theorem parse_azure_url_without_scheme chk c u :
  is_c0_control_or_space c = false -> is_slash c = false ->
  contains ":" (String c u) = false ->
  exists d, parse_azure_url chk (Some (String c u)) =
            Return (Some ":///openai/", d).
Proof.
  intros Hc0 Hsl Hcolon.
  cbn [parse_azure_url]. unfold urlparse. rewrite urlsplit_unfold. cbv zeta.
  cbn [lstrip]. rewrite Hc0. cbn [remove]. rewrite (c0_covers_unsafe _ Hc0).
  set (r := remove is_unsafe_url_byte u).
  assert (Hr : contains ":" (String c r) = false).
  { cbn [contains] in *. apply orb_false_iff in Hcolon as [H1 H2].
    rewrite H1. subst r. now apply contains_remove_false. }
  unfold split_scheme. rewrite (split1_none _ _ Hr). cbn [fst snd].
  assert (Hn : split_netloc chk (String c r) = Return (EmptyString, String c r)).
  { unfold split_netloc. unfold is_slash in Hsl.
    destruct c as [[] [] [] [] [] [] [] []]; try reflexivity; discriminate. }
  rewrite Hn. cbn [bind fst snd].
  destruct (split_query_fragment (String c r)) as [[p q] f].
  cbn [bind sr_scheme sr_netloc sr_url sr_query sr_fragment].
  destruct (mem "" uses_params && contains ";" p);
    [destruct (_splitparams p)|]; cbn [bind scheme netloc]; eauto.
Qed.

Lemma parse_azure_url_without_scheme_witness :
  exists d,
    parse_azure_url no_bracket_error
      (Some "acme.openai.azure.com/openai/deployments/gpt-4o") =
    Return (Some ":///openai/", d).
Proof.
  exact (parse_azure_url_without_scheme no_bracket_error "a"
           "cme.openai.azure.com/openai/deployments/gpt-4o"
           eq_refl eq_refl eq_refl).
Defined.

End ResolverMore.

(** ** The configuration readers *)

Module ConfigFacts.
Import Str StrFacts CharFacts UrlFacts MoreUrlFacts.

Lemma lstrip_all p (s : string) :
  forallb p s = true -> lstrip p s = EmptyString.
Proof.
  induction s as [|x s IH]; simpl; [reflexivity|].
  intros H. apply andb_true_iff in H as [Hx Hs]. now rewrite Hx, IH.
Qed.

(** [int] rejects the empty string and a string of white space. *)
Lemma int_of_str_blank (s : string) :
  forallb is_int_space s = true -> int_of_str s = Raise invalid_literal.
Proof. intros H. unfold int_of_str. now rewrite (lstrip_all _ _ H). Qed.

Lemma parse_azure_url_falsy chk (v : option string) :
  truthy v = false -> parse_azure_url chk v = Return (None, None).
Proof. destruct v as [[|c s]|]; [reflexivity | discriminate | reflexivity]. Qed.

Lemma getenv_default_unset (environ : gmap string string) key dflt :
  environ !! key = None -> getenv_default environ key dflt = dflt.
Proof. unfold getenv_default. now intros ->. Qed.

Lemma getenv_default_set (environ : gmap string string) key dflt v :
  environ !! key = Some v -> getenv_default environ key dflt = v.
Proof. unfold getenv_default. now intros ->. Qed.

(** X7: [parse_azure_openai_config] resolves the two URLs independently of each
    other: with an Azure deployment URL in [LLM_BINDING_HOST] and another in
    [EMBEDDING_BINDING_HOST] (in the environment or in the [.env] file) it
    returns both base URLs and both deployment names, the two keys as they
    are and the dimension that [int] reads. *)
Theorem parse_azure_openai_config_resolves chk dotenv environ
    sch host name op qry sch' host' name' op' qry' n :
  let env := load_dotenv dotenv environ in
  env !! "LLM_BINDING_HOST" = Some (azure_url sch host name op qry) ->
  env !! "EMBEDDING_BINDING_HOST" = Some (azure_url sch' host' name' op' qry') ->
  is_scheme sch = true -> is_host host = true ->
  host_accepted chk host = true -> is_segment name = true ->
  is_scheme sch' = true -> is_host host' = true ->
  host_accepted chk host' = true -> is_segment name' = true ->
  int_of_str (getenv_default env "EMBEDDING_DIM" "1536") = Return n ->
  parse_azure_openai_config chk dotenv environ =
  Return {| llm_base_url := Some (lower sch +:+ "://" +:+ host +:+ "/openai/");
            llm_deployment := Some name;
            llm_api_key := env !! "LLM_BINDING_API_KEY";
            llm_model := getenv_default env "LLM_MODEL" "gpt-4o-mini";
            embed_base_url :=
              Some (lower sch' +:+ "://" +:+ host' +:+ "/openai/");
            embed_deployment := Some name';
            embed_api_key := env !! "EMBEDDING_BINDING_API_KEY";
            embed_model :=
              getenv_default env "EMBEDDING_MODEL" "text-embedding-3-small";
            embed_dim := n |}.
Proof.
  intros env H1 H2 Hs Hh Hacc Hn Hs' Hh' Hacc' Hn' Hdim.
  unfold parse_azure_openai_config. fold env. rewrite H1, H2.
  rewrite (Resolver.resolve_azure_url chk sch host name op qry Hs Hh Hacc Hn).
  cbn [bind].
  rewrite (Resolver.resolve_azure_url chk sch' host' name' op' qry'
             Hs' Hh' Hacc' Hn').
  cbn [bind]. rewrite Hdim. reflexivity.
Qed.

Lemma parse_azure_openai_config_resolves_witness :
  parse_azure_openai_config no_bracket_error
    {[ "EMBEDDING_BINDING_HOST" :=
         "https://e.openai.azure.com/openai/deployments/emb/embeddings?api-version=1";
       "EMBEDDING_DIM" := "3072" ]}
    {[ "LLM_BINDING_HOST" :=
         "HTTPS://l.openai.azure.com/openai/deployments/gpt/chat/completions?v=2";
       "LLM_BINDING_API_KEY" := "k" ]} =
  Return {| llm_base_url := Some "https://l.openai.azure.com/openai/";
            llm_deployment := Some "gpt";
            llm_api_key := Some "k";
            llm_model := "gpt-4o-mini";
            embed_base_url := Some "https://e.openai.azure.com/openai/";
            embed_deployment := Some "emb";
            embed_api_key := None;
            embed_model := "text-embedding-3-small";
            embed_dim := 3072 |}.
Proof.
  exact (parse_azure_openai_config_resolves no_bracket_error
           {[ "EMBEDDING_BINDING_HOST" :=
                "https://e.openai.azure.com/openai/deployments/emb/embeddings?api-version=1";
              "EMBEDDING_DIM" := "3072" ]}
           {[ "LLM_BINDING_HOST" :=
                "HTTPS://l.openai.azure.com/openai/deployments/gpt/chat/completions?v=2";
              "LLM_BINDING_API_KEY" := "k" ]}
           "HTTPS" "l.openai.azure.com" "gpt" "chat/completions" "v=2"
           "https" "e.openai.azure.com" "emb" "embeddings" "api-version=1"
           3072%Z eq_refl eq_refl eq_refl eq_refl eq_refl eq_refl eq_refl
           eq_refl eq_refl eq_refl eq_refl).
Defined.

(** X8: [parse_azure_openai_config] validates nothing: when the two host
    variables are unset or empty, it still returns a configuration, with no
    base URL and no deployment; an unset [EMBEDDING_DIM] reads as 1536. *)
Theorem parse_azure_openai_config_no_validation chk dotenv environ :
  let env := load_dotenv dotenv environ in
  truthy (env !! "LLM_BINDING_HOST") = false ->
  truthy (env !! "EMBEDDING_BINDING_HOST") = false ->
  env !! "EMBEDDING_DIM" = None ->
  parse_azure_openai_config chk dotenv environ =
  Return {| llm_base_url := None;
            llm_deployment := None;
            llm_api_key := env !! "LLM_BINDING_API_KEY";
            llm_model := getenv_default env "LLM_MODEL" "gpt-4o-mini";
            embed_base_url := None;
            embed_deployment := None;
            embed_api_key := env !! "EMBEDDING_BINDING_API_KEY";
            embed_model :=
              getenv_default env "EMBEDDING_MODEL" "text-embedding-3-small";
            embed_dim := 1536 |}.
Proof.
  intros env H1 H2 Hdim.
  unfold parse_azure_openai_config. fold env.
  rewrite (parse_azure_url_falsy chk _ H1), (parse_azure_url_falsy chk _ H2).
  cbn [bind]. now rewrite (getenv_default_unset _ _ _ Hdim).
Qed.

Lemma parse_azure_openai_config_no_validation_witness :
  parse_azure_openai_config no_bracket_error ∅ {[ "LLM_BINDING_HOST" := "" ]} =
  Return {| llm_base_url := None;
            llm_deployment := None;
            llm_api_key := None;
            llm_model := "gpt-4o-mini";
            embed_base_url := None;
            embed_deployment := None;
            embed_api_key := None;
            embed_model := "text-embedding-3-small";
            embed_dim := 1536 |}.
Proof.
  exact (parse_azure_openai_config_no_validation no_bracket_error ∅
           {[ "LLM_BINDING_HOST" := "" ]} eq_refl eq_refl eq_refl).
Defined.

(** X9: an [EMBEDDING_DIM] that is set but blank is not replaced by the default:
    once the two URLs are resolved, [int] raises its [ValueError] and
    [parse_azure_openai_config] lets it through. *)
Theorem parse_azure_openai_config_blank_dim chk dotenv environ s r1 r2 :
  let env := load_dotenv dotenv environ in
  parse_azure_url chk (env !! "LLM_BINDING_HOST") = Return r1 ->
  parse_azure_url chk (env !! "EMBEDDING_BINDING_HOST") = Return r2 ->
  env !! "EMBEDDING_DIM" = Some s ->
  forallb is_int_space s = true ->
  parse_azure_openai_config chk dotenv environ = Raise invalid_literal.
Proof.
  intros env H1 H2 Hdim Hs.
  unfold parse_azure_openai_config. fold env. rewrite H1, H2.
  destruct r1 as [b1 d1], r2 as [b2 d2]. cbn [bind].
  now rewrite (getenv_default_set _ _ _ _ Hdim), (int_of_str_blank _ Hs).
Qed.

Lemma parse_azure_openai_config_blank_dim_witness :
  parse_azure_openai_config no_bracket_error {[ "EMBEDDING_DIM" := "" ]} ∅ =
  Raise (ValueError "invalid literal for int() with base 10").
Proof.
  exact (parse_azure_openai_config_blank_dim no_bracket_error
           {[ "EMBEDDING_DIM" := "" ]} ∅ "" (None, None) (None, None)
           eq_refl eq_refl eq_refl eq_refl).
Defined.

(** X10: [get_azure_openai_config] succeeds exactly when its six string values
    are non-empty.  The dimension plays no part, whatever it is: a dimension
    of 0 is accepted, and the test ['dim' not in key] excludes no other
    key. *)
Theorem get_azure_openai_config_succeeds_iff
    (py_int : string -> py_result Z) (environ : gmap string string) (n : Z) :
  py_int (getenv_default environ "EMBEDDING_DIM" "1536") = Return n ->
  (exists config, get_azure_openai_config py_int environ = Return config) <->
  all_truthy
    [environ !! "LLM_BINDING_API_KEY";
     environ !! "LLM_BINDING_HOST";
     Some (getenv_default environ "LLM_MODEL" "gpt-4o-mini");
     environ !! "EMBEDDING_BINDING_API_KEY";
     environ !! "EMBEDDING_BINDING_HOST";
     Some (getenv_default environ "EMBEDDING_MODEL" "text-embedding-3-small")]
  = true.
Proof.
  intros Hn. unfold get_azure_openai_config, all_truthy. rewrite Hn.
  cbn [bind List.filter fst snd falsy List.forallb].
  change (is_infix "dim" "llm_api_key") with false.
  change (is_infix "dim" "llm_base_url") with false.
  change (is_infix "dim" "llm_model") with false.
  change (is_infix "dim" "embed_api_key") with false.
  change (is_infix "dim" "embed_base_url") with false.
  change (is_infix "dim" "embed_model") with false.
  change (is_infix "dim" "embed_dim") with true.
  cbn [negb]. rewrite andb_false_r.
  destruct (truthy (environ !! "LLM_BINDING_API_KEY"));
  destruct (truthy (environ !! "LLM_BINDING_HOST"));
  destruct (truthy (Some (getenv_default environ "LLM_MODEL" "gpt-4o-mini")));
  destruct (truthy (environ !! "EMBEDDING_BINDING_API_KEY"));
  destruct (truthy (environ !! "EMBEDDING_BINDING_HOST"));
  destruct (truthy (Some (getenv_default environ "EMBEDDING_MODEL"
                            "text-embedding-3-small")));
  cbn [negb andb map fst];
  (split; [intros [config H]; (reflexivity || discriminate H)
          | intros H; (discriminate H || (eexists; reflexivity))]).
Qed.

Lemma get_azure_openai_config_succeeds_iff_witness :
  exists config,
    get_azure_openai_config (fun _ => Return 0%Z)
      {[ "LLM_BINDING_API_KEY" := "k"; "LLM_BINDING_HOST" := "h";
         "EMBEDDING_BINDING_API_KEY" := "k"; "EMBEDDING_BINDING_HOST" := "h" ]}
    = Return config.
Proof.
  exact (proj2 (get_azure_openai_config_succeeds_iff (fun _ => Return 0%Z)
                  {[ "LLM_BINDING_API_KEY" := "k"; "LLM_BINDING_HOST" := "h";
                     "EMBEDDING_BINDING_API_KEY" := "k";
                     "EMBEDDING_BINDING_HOST" := "h" ]} 0%Z eq_refl) eq_refl).
Defined.

End ConfigFacts.

(** ** The URLs of the debug scripts *)

Module DebugUrlFacts.
Import Str StrFacts CharFacts UrlFacts MoreUrlFacts.

Lemma scheme_char_not_slash c :
  is_scheme_char c = true -> negb (eqc c "/") = true.
Proof. by_cases c. Qed.

Lemma netloc_delim_slash c :
  negb (is_netloc_delim c) = true -> negb (eqc c "/") = true.
Proof. by_cases c. Qed.

(** The first three pieces of [scheme://host/...] are the scheme with its
    colon, the empty text between the two slashes, and the host. *)
Lemma endpoint_of_url (sch host rest : string) :
  is_scheme sch = true -> is_host host = true ->
  endpoint_of (sch +:+ "://" +:+ host +:+ "/" +:+ rest) =
  sch +:+ "://" +:+ host.
Proof.
  intros Hs Hh. unfold endpoint_of.
  destruct (is_scheme_inv _ Hs) as (c & s' & E & _ & Hall).
  destruct (is_host_inv _ Hh) as (Hd & _).
  assert (H1 : contains "/" (sch +:+ ":") = false).
  { rewrite contains_app. change (contains "/" ":") with false.
    rewrite orb_false_r.
    apply (contains_false (fun c => negb (eqc c "/"))); [reflexivity|].
    eapply forallb_impl; [|exact Hall]. apply scheme_char_not_slash. }
  assert (H2 : contains "/" host = false).
  { apply (contains_false (fun c => negb (eqc c "/"))); [reflexivity|].
    eapply forallb_impl; [|exact Hd]. apply netloc_delim_slash. }
  assert (E1 : sch +:+ "://" +:+ host +:+ "/" +:+ rest =
               (sch +:+ ":") +:+ String "/" (String "/" (host +:+ String "/" rest))).
  { now rewrite app_assoc. }
  rewrite E1, (split_app "/" _ _ H1).
  change (String "/" (host +:+ String "/" rest))
    with (EmptyString +:+ String "/" (host +:+ String "/" rest)).
  rewrite (split_app "/" EmptyString _ eq_refl).
  rewrite (split_app "/" host rest H2).
  cbn [firstn String.concat]. now rewrite app_assoc.
Qed.

Lemma is_segment_truthy (name : string) :
  is_segment name = true -> truthy (Some name) = true.
Proof. now destruct name. Qed.

(** X11: the URLs that debug_azure_urls.py builds from an endpoint, a deployment
    and an API version are URLs that the resolver of azure_config_parser.py
    takes apart again: the deployment comes back, the base URL is the
    endpoint (scheme in lower case) followed by [/openai/], and the endpoint
    that debug_azure_openai.py cuts out of the full URL is the one the URL
    was built from. *)
Theorem debug_urls_round_trip chk sch host name ver :
  is_scheme sch = true -> is_host host = true ->
  host_accepted chk host = true -> is_segment name = true ->
  let endpoint := sch +:+ "://" +:+ host in
  let resolved :=
    Return (Some (lower sch +:+ "://" +:+ host +:+ "/openai/"), Some name) in
  exists llm_base llm_full embed_base embed_full,
    debug_llm_urls (Some endpoint) (Some name) ver = Some (llm_base, llm_full) /\
    debug_embed_urls (Some endpoint) (Some name) ver =
      Some (embed_base, embed_full) /\
    parse_azure_url chk (Some llm_full) = resolved /\
    parse_azure_url chk (Some embed_full) = resolved /\
    endpoint_of llm_full = endpoint /\
    endpoint_of embed_full = endpoint.
Proof.
  intros Hs Hh Hacc Hn endpoint resolved.
  assert (He : truthy (Some endpoint) = true).
  { subst endpoint. destruct (is_scheme_inv _ Hs) as (c & s' & -> & _).
    reflexivity. }
  unfold debug_llm_urls, debug_embed_urls.
  rewrite He, (is_segment_truthy _ Hn). cbn [andb str_of].
  do 4 eexists. split; [reflexivity|]. split; [reflexivity|].
  assert (E1 : (endpoint +:+ "/openai/deployments/" +:+ name) +:+
               "/chat/completions?api-version=" +:+ ver =
               azure_url sch host name "chat/completions"
                 ("api-version=" +:+ ver)).
  { unfold azure_url. subst endpoint. now rewrite !app_assoc. }
  assert (E2 : (endpoint +:+ "/openai/deployments/" +:+ name) +:+
               "/embeddings?api-version=" +:+ ver =
               azure_url sch host name "embeddings" ("api-version=" +:+ ver)).
  { unfold azure_url. subst endpoint. now rewrite !app_assoc. }
  rewrite E1, E2. subst resolved.
  rewrite !(Resolver.resolve_azure_url chk) by assumption.
  unfold azure_url.
  change (sch +:+ "://" +:+ host +:+ "/openai/deployments/" +:+ name +:+ "/"
              +:+ "chat/completions" +:+ "?" +:+ "api-version=" +:+ ver)
    with (sch +:+ "://" +:+ host +:+ "/" +:+
            ("openai/deployments/" +:+ name +:+ "/" +:+ "chat/completions"
               +:+ "?" +:+ "api-version=" +:+ ver)).
  change (sch +:+ "://" +:+ host +:+ "/openai/deployments/" +:+ name +:+ "/"
              +:+ "embeddings" +:+ "?" +:+ "api-version=" +:+ ver)
    with (sch +:+ "://" +:+ host +:+ "/" +:+
            ("openai/deployments/" +:+ name +:+ "/" +:+ "embeddings"
               +:+ "?" +:+ "api-version=" +:+ ver)).
  rewrite !endpoint_of_url by assumption. now repeat split.
Qed.

Lemma debug_urls_round_trip_witness :
  exists llm_base llm_full embed_base embed_full,
    debug_llm_urls (Some "https://acme.openai.azure.com") (Some "gpt-4o")
      "2024-02-01" = Some (llm_base, llm_full) /\
    debug_embed_urls (Some "https://acme.openai.azure.com") (Some "gpt-4o")
      "2024-02-01" = Some (embed_base, embed_full) /\
    parse_azure_url no_bracket_error (Some llm_full) =
      Return (Some "https://acme.openai.azure.com/openai/", Some "gpt-4o") /\
    parse_azure_url no_bracket_error (Some embed_full) =
      Return (Some "https://acme.openai.azure.com/openai/", Some "gpt-4o") /\
    endpoint_of llm_full = "https://acme.openai.azure.com" /\
    endpoint_of embed_full = "https://acme.openai.azure.com".
Proof.
  exact (debug_urls_round_trip no_bracket_error "https"
           "acme.openai.azure.com" "gpt-4o" "2024-02-01"
           eq_refl eq_refl eq_refl eq_refl).
Defined.

(** [endpoint_of] keeps at most the first three pieces, so what it returns
    is a prefix of the text it was given. *)
Lemma concat_firstn_prefix (n : nat) (l : list string) :
  exists rest, String.concat "/" l = String.concat "/" (firstn n l) +:+ rest.
Proof.
  revert n. induction l as [|x l IH]; intros n.
  - exists EmptyString. now destruct n.
  - destruct n as [|n]; [now exists (String.concat "/" (x :: l))|].
    destruct l as [|y l].
    + exists EmptyString. destruct n; cbn; now rewrite app_nil_r.
    + destruct (IH n) as [rest E]. rewrite concat_cons2, E.
      destruct n as [|n].
      * cbn [firstn String.concat]. exists ("/" +:+ rest). reflexivity.
      * cbn [firstn]. rewrite concat_cons2. exists rest.
        cbn [firstn]. now rewrite !app_assoc.
Qed.

(** X12: whatever the text of [EMBEDDING_BINDING_HOST] is, the endpoint that
    debug_azure_openai.py derives from it is a prefix of that text: cutting
    the endpoint never raises and never invents characters. *)
Theorem endpoint_of_prefix (binding_host : string) :
  exists rest, binding_host = endpoint_of binding_host +:+ rest.
Proof.
  unfold endpoint_of.
  destruct (concat_firstn_prefix 3 (split "/" binding_host)) as [rest E].
  exists rest. now rewrite <- E, concat_split.
Qed.

End DebugUrlFacts.

(** ** More on the entry points of azure_lightrag_fix.py *)

Module LightragMore.

Section Facts.
Context {V : Type}.
Implicit Types (kwargs : gmap string V) (environ : gmap string string).

(** A key that is none of the six LightRAG keys stays in the mapping. *)
Lemma filtered_kwargs_keeps kwargs k :
  k ∉ lightrag_params -> filtered_kwargs kwargs !! k = kwargs !! k.
Proof.
  intros Hk. apply option_eq. intros v. unfold filtered_kwargs.
  rewrite map_lookup_filter_Some. simpl. intuition.
Qed.

Lemma model_not_lightrag : "model" ∉ lightrag_params.
Proof.
  unfold lightrag_params.
  rewrite !not_elem_of_union, !not_elem_of_singleton. intuition congruence.
Qed.

Lemma messages_not_lightrag : "messages" ∉ lightrag_params.
Proof.
  unfold lightrag_params.
  rewrite !not_elem_of_union, !not_elem_of_singleton. intuition congruence.
Qed.

Lemma input_not_lightrag : "input" ∉ lightrag_params.
Proof.
  unfold lightrag_params.
  rewrite !not_elem_of_union, !not_elem_of_singleton. intuition congruence.
Qed.

(** The keyword test of a call, on the caller's mapping. *)
Lemma clash_complete kwargs :
  existsb (fun k => bool_decide (is_Some (filtered_kwargs kwargs !! k)))
    ["model"; "messages"] =
  bool_decide (is_Some (kwargs !! "model")) ||
  bool_decide (is_Some (kwargs !! "messages")).
Proof.
  cbn [existsb].
  rewrite (filtered_kwargs_keeps _ _ model_not_lightrag).
  rewrite (filtered_kwargs_keeps _ _ messages_not_lightrag).
  now rewrite orb_false_r.
Qed.

Lemma clash_embed kwargs :
  existsb (fun k => bool_decide (is_Some (filtered_kwargs kwargs !! k)))
    ["model"; "input"] =
  bool_decide (is_Some (kwargs !! "model")) ||
  bool_decide (is_Some (kwargs !! "input")).
Proof.
  cbn [existsb].
  rewrite (filtered_kwargs_keeps _ _ model_not_lightrag).
  rewrite (filtered_kwargs_keeps _ _ input_not_lightrag).
  now rewrite orb_false_r.
Qed.

Lemma bool_decide_some {A} (o : option A) (v : A) :
  o = Some v -> bool_decide (is_Some o) = true.
Proof. intros ->. apply bool_decide_eq_true. eauto. Qed.

Lemma bool_decide_none {A} (o : option A) :
  o = None -> bool_decide (is_Some o) = false.
Proof. intros ->. apply bool_decide_eq_false. intros [? ?]. discriminate. Qed.

Variable chat : string -> list message -> gmap string V ->
                py_result (list (option string)).
Variable emb : string -> list string -> gmap string V ->
               py_result (list embedding_field).
Variable dotenv : gmap string string.

(** X13: the filter does not protect the two keywords that the completion
    function passes itself: a caller's [model] or [messages] is kept, and
    the call of the SDK then fails with a [TypeError] before any request is
    sent; the client has been built by then and is not closed. *)
Theorem complete_keyword_clash environ prompt sys hist kwargs k v :
  all_truthy [environ !! "AZURE_OPENAI_API_KEY";
              environ !! "AZURE_OPENAI_ENDPOINT";
              environ !! "AZURE_OPENAI_LLM_DEPLOYMENT"] = true ->
  k = "model" \/ k = "messages" ->
  kwargs !! k = Some v ->
  exists key endpoint version msg,
    azure_openai_complete_if_cache chat environ prompt sys hist kwargs =
    ([ClientOpen key endpoint version], Raise (TypeError msg)).
Proof.
  intros H Hk Hv. unfold azure_openai_complete_if_cache. rewrite H.
  cbn [negb]. unfold call_kw. rewrite clash_complete.
  assert (Hc : bool_decide (is_Some (kwargs !! "model")) ||
               bool_decide (is_Some (kwargs !! "messages")) = true).
  { destruct Hk as [-> | ->]; rewrite (bool_decide_some _ _ Hv);
      [reflexivity | apply orb_true_r]. }
  rewrite Hc. do 4 eexists. reflexivity.
Qed.

(** X14: the same in the embedding function for [model] and [input]; there the
    client is closed on the way out. *)
Theorem embed_keyword_clash environ texts kwargs k v :
  all_truthy [load_dotenv dotenv environ !! "AZURE_OPENAI_API_KEY";
              load_dotenv dotenv environ !! "AZURE_OPENAI_ENDPOINT";
              load_dotenv dotenv environ !! "AZURE_OPENAI_EMBEDDING_DEPLOYMENT"]
  = true ->
  k = "model" \/ k = "input" ->
  kwargs !! k = Some v ->
  exists key endpoint version msg,
    azure_openai_embed emb dotenv environ texts kwargs =
    ([ClientOpen key endpoint version; ClientClose], Raise (TypeError msg)).
Proof.
  intros H Hk Hv. unfold azure_openai_embed. rewrite H.
  cbn [negb]. unfold call_kw. rewrite clash_embed.
  assert (Hc : bool_decide (is_Some (kwargs !! "model")) ||
               bool_decide (is_Some (kwargs !! "input")) = true).
  { destruct Hk as [-> | ->]; rewrite (bool_decide_some _ _ Hv);
      [reflexivity | apply orb_true_r]. }
  rewrite Hc. do 4 eexists. reflexivity.
Qed.

(** X15: the completion function sends one request and answers with the content
    of the first choice of its response.  It catches nothing: an error of
    the SDK reaches the caller as it is, and a response without choices is
    an [IndexError]. *)
Theorem complete_answer environ prompt sys hist kwargs :
  all_truthy [environ !! "AZURE_OPENAI_API_KEY";
              environ !! "AZURE_OPENAI_ENDPOINT";
              environ !! "AZURE_OPENAI_LLM_DEPLOYMENT"] = true ->
  kwargs !! "model" = None -> kwargs !! "messages" = None ->
  exists key endpoint version model msgs,
    (azure_openai_complete_if_cache chat environ prompt sys hist kwargs).1 =
      [ClientOpen key endpoint version;
       ChatCreate model msgs (filtered_kwargs kwargs)] /\
    (azure_openai_complete_if_cache chat environ prompt sys hist kwargs).2 =
      match chat model msgs (filtered_kwargs kwargs) with
      | Return (c :: _) => Return c
      | Return [] => Raise (IndexError "list index out of range")
      | Raise e => Raise e
      end.
Proof.
  intros H Hm Hs. unfold azure_openai_complete_if_cache. rewrite H.
  cbn [negb]. unfold call_kw. rewrite clash_complete.
  rewrite (bool_decide_none _ Hm), (bool_decide_none _ Hs). cbn [orb].
  unfold mbind, emit, lift, ret, raise.
  exists (str_of (environ !! "AZURE_OPENAI_API_KEY")),
         (str_of (environ !! "AZURE_OPENAI_ENDPOINT")),
         (getenv_default environ "AZURE_LLM_API_VERSION" "2024-08-01-preview"),
         (str_of (environ !! "AZURE_OPENAI_LLM_DEPLOYMENT")),
         ((if truthy sys then [mkMessage "system" (str_of sys)] else []) ++
          hist ++
          (if truthy prompt then [mkMessage "user" (str_of prompt)] else [])).
  destruct (chat _ _ _) as [[|c cs]|e]; split; reflexivity.
Qed.

Lemma decode_all_length (data : list embedding_field) rows :
  decode_all data = Return rows -> length rows = length data.
Proof.
  revert rows. induction data as [|dp data IH]; intros rows; simpl.
  - now intros [= <-].
  - destruct (decode_embedding dp) as [row|e]; [|discriminate]. simpl.
    destruct (decode_all data) as [rows'|e]; [|discriminate]. simpl.
    intros [= <-]. simpl. now rewrite (IH rows').
Qed.

Lemma np_array_rows_rectangular rows rows' :
  np_array_rows rows = Return rows' ->
  rows' = rows /\
  forall r1 r2, In r1 rows -> In r2 rows -> length r1 = length r2.
Proof.
  unfold np_array_rows. destruct rows as [|r rest].
  - intros [= <-]. split; [reflexivity|]. intros r1 r2 [].
  - destruct (forallb _ rest) eqn:E; [|discriminate].
    intros [= <-]. split; [reflexivity|].
    rewrite forallb_forall in E.
    assert (Hl : forall x, In x (r :: rest) -> length x = length r).
    { intros x [<-|Hx]; [reflexivity|]. now apply Nat.eqb_eq, E. }
    intros r1 r2 H1 H2. now rewrite (Hl r1 H1), (Hl r2 H2).
Qed.

(** X16: what the embedding function returns is a matrix: one row for each item
    of the response to the one request it sent, all rows of one length.  The
    number of texts plays no part: the function does not compare it with the
    number of rows. *)
Theorem embed_returns_matrix environ texts kwargs rows :
  (azure_openai_embed emb dotenv environ texts kwargs).2 = Return rows ->
  exists key endpoint version model input data,
    (azure_openai_embed emb dotenv environ texts kwargs).1 =
      [ClientOpen key endpoint version;
       EmbeddingsCreate model input (filtered_kwargs kwargs); ClientClose] /\
    emb model input (filtered_kwargs kwargs) = Return data /\
    length rows = length data /\
    forall r1 r2, In r1 rows -> In r2 rows -> length r1 = length r2.
Proof.
  unfold azure_openai_embed.
  destruct (all_truthy _); cbn [negb]; [|discriminate].
  unfold call_kw. destruct (existsb _ _); [discriminate|].
  unfold mbind, emit, lift, ret, raise, try_finally, client_close.
  destruct (emb _ _ _) as [data|e] eqn:E; [|discriminate]. simpl.
  destruct (decode_all data) as [decoded|e] eqn:D; [|discriminate]. simpl.
  intros Hrows. destruct (np_array_rows_rectangular _ _ Hrows) as [-> Hrect].
  do 6 eexists. split; [reflexivity|]. split; [exact E|].
  split; [now apply decode_all_length | exact Hrect].
Qed.

(** X17: only the embedding function reads the [.env] file.  With the variables
    in that file and not in the environment, the completion function stops
    with its configuration error, while the embedding function builds its
    client from the values of the file. *)
Theorem dotenv_read_by_embed_only environ prompt sys hist texts kwargs :
  environ !! "AZURE_OPENAI_API_KEY" = None ->
  environ !! "AZURE_OPENAI_ENDPOINT" = None ->
  environ !! "AZURE_OPENAI_EMBEDDING_DEPLOYMENT" = None ->
  all_truthy [dotenv !! "AZURE_OPENAI_API_KEY";
              dotenv !! "AZURE_OPENAI_ENDPOINT";
              dotenv !! "AZURE_OPENAI_EMBEDDING_DEPLOYMENT"] = true ->
  azure_openai_complete_if_cache chat environ prompt sys hist kwargs =
    ([], Raise (ValueError "Missing required Azure OpenAI configuration")) /\
  exists version t,
    (azure_openai_embed emb dotenv environ texts kwargs).1 =
    ClientOpen (str_of (dotenv !! "AZURE_OPENAI_API_KEY"))
               (str_of (dotenv !! "AZURE_OPENAI_ENDPOINT")) version :: t.
Proof.
  intros Hk He Hd Hfile. split.
  - apply LightragFacts.complete_config_error.
    unfold all_truthy. cbn [forallb]. now rewrite Hk.
  - assert (Hl : forall key, environ !! key = None ->
                   load_dotenv dotenv environ !! key = dotenv !! key).
    { intros key Hnone. unfold load_dotenv.
      rewrite lookup_union, Hnone. now destruct (dotenv !! key). }
    unfold azure_openai_embed.
    rewrite (Hl _ Hk), (Hl _ He), (Hl _ Hd), Hfile. cbn [negb].
    unfold mbind at 1. unfold emit at 1. cbv beta iota.
    destruct (try_finally _ _) as [t r]. do 2 eexists. reflexivity.
Qed.

(** X18: [load_dotenv] does not replace a variable that is set, even when it is
    set to the empty string: the embedding function then stops with its
    configuration error, whatever the [.env] file holds. *)
Theorem embed_empty_variable_wins environ texts kwargs key :
  key = "AZURE_OPENAI_API_KEY" \/ key = "AZURE_OPENAI_ENDPOINT" \/
  key = "AZURE_OPENAI_EMBEDDING_DEPLOYMENT" ->
  environ !! key = Some EmptyString ->
  azure_openai_embed emb dotenv environ texts kwargs =
  ([], Raise (ValueError "Missing required Azure OpenAI embedding configuration")).
Proof.
  intros Hkey Hempty. apply LightragFacts.embed_config_error.
  assert (Hl : load_dotenv dotenv environ !! key = Some EmptyString).
  { unfold load_dotenv. rewrite lookup_union, Hempty.
    now destruct (dotenv !! key). }
  unfold all_truthy. cbn [forallb].
  destruct Hkey as [-> | [-> | ->]]; rewrite Hl; cbn [truthy];
    rewrite ?andb_false_r; reflexivity.
Qed.

End Facts.

Lemma complete_keyword_clash_witness :
  exists key endpoint version msg,
    azure_openai_complete_if_cache chat_ok env_llm (Some "hi") None []
      {[ "messages" := "[]" ]} =
    ([ClientOpen key endpoint version], Raise (TypeError msg)).
Proof.
  exact (complete_keyword_clash chat_ok env_llm (Some "hi") None []
           {[ "messages" := "[]" ]} "messages" "[]" eq_refl
           (or_intror eq_refl) eq_refl).
Defined.

Lemma embed_keyword_clash_witness :
  exists key endpoint version msg,
    azure_openai_embed embed_ok ∅ env_embed (inl "hi")
      {[ "model" := "other" ]} =
    ([ClientOpen key endpoint version; ClientClose], Raise (TypeError msg)).
Proof.
  exact (embed_keyword_clash embed_ok ∅ env_embed (inl "hi")
           {[ "model" := "other" ]} "model" "other" eq_refl
           (or_introl eq_refl) eq_refl).
Defined.

Lemma complete_answer_witness :
  exists key endpoint version model msgs,
    (azure_openai_complete_if_cache chat_ok env_llm (Some "hi") None []
       kwargs_lightrag).1 =
      [ClientOpen key endpoint version;
       ChatCreate model msgs
         (filtered_kwargs kwargs_lightrag)] /\
    (azure_openai_complete_if_cache chat_ok env_llm (Some "hi") None []
       kwargs_lightrag).2 =
      match chat_ok model msgs
              (filtered_kwargs kwargs_lightrag)
      with
      | Return (c :: _) => Return c
      | Return [] => Raise (IndexError "list index out of range")
      | Raise e => Raise e
      end.
Proof.
  exact (complete_answer chat_ok env_llm (Some "hi") None []
           kwargs_lightrag
           eq_refl eq_refl eq_refl).
Defined.

Lemma embed_returns_matrix_witness :
  exists key endpoint version model input data,
    (azure_openai_embed embed_ok ∅ env_embed (inr ["a"; "b"; "c"]) ∅).1 =
      [ClientOpen key endpoint version;
       EmbeddingsCreate model input (filtered_kwargs ∅); ClientClose] /\
    embed_ok model input (filtered_kwargs ∅) = Return data /\
    length [[S754_zero false; S754_zero false];
            [S754_zero false; S754_zero false];
            [S754_zero false; S754_zero false]] = length data /\
    forall r1 r2,
      In r1 [[S754_zero false; S754_zero false];
             [S754_zero false; S754_zero false];
             [S754_zero false; S754_zero false]] ->
      In r2 [[S754_zero false; S754_zero false];
             [S754_zero false; S754_zero false];
             [S754_zero false; S754_zero false]] ->
      length r1 = length r2.
Proof.
  exact (embed_returns_matrix embed_ok ∅ env_embed (inr ["a"; "b"; "c"]) ∅
           [[S754_zero false; S754_zero false];
            [S754_zero false; S754_zero false];
            [S754_zero false; S754_zero false]] eq_refl).
Defined.

Lemma dotenv_read_by_embed_only_witness :
  azure_openai_complete_if_cache chat_ok ∅ (Some "hi") None [] ∅ =
    ([], Raise (ValueError "Missing required Azure OpenAI configuration")) /\
  exists version t,
    (azure_openai_embed embed_ok env_embed ∅ (inl "hi") ∅).1 =
    ClientOpen (str_of (env_embed !! "AZURE_OPENAI_API_KEY"))
               (str_of (env_embed !! "AZURE_OPENAI_ENDPOINT")) version :: t.
Proof.
  exact (dotenv_read_by_embed_only chat_ok embed_ok env_embed ∅ (Some "hi")
           None [] (inl "hi") ∅ eq_refl eq_refl eq_refl eq_refl).
Defined.

Lemma embed_empty_variable_wins_witness :
  azure_openai_embed embed_ok env_embed {[ "AZURE_OPENAI_API_KEY" := "" ]}
    (inl "hi") ∅ =
  ([], Raise (ValueError "Missing required Azure OpenAI embedding configuration")).
Proof.
  exact (embed_empty_variable_wins embed_ok env_embed
           {[ "AZURE_OPENAI_API_KEY" := "" ]} (inl "hi") ∅
           "AZURE_OPENAI_API_KEY" (or_introl eq_refl) eq_refl).
Defined.

End LightragMore.

(** ** More on the decoding of embeddings *)

Module DecodeFacts.
Import Base64.

Lemma frombuffer_four (b0 b1 b2 b3 : Z) (rest : list Z) :
  Np.frombuffer_float32 (b0 :: b1 :: b2 :: b3 :: rest) =
  bind (Np.frombuffer_float32 rest) (fun l =>
    Return (Np.float32_of_bits
              (b0 + 2 ^ 8 * b1 + 2 ^ 16 * b2 + 2 ^ 24 * b3)%Z :: l)).
Proof. reflexivity. Qed.

(** X19: [np.frombuffer(..., dtype=np.float32)] takes the bytes four by four: a
    buffer of [4 n] bytes gives [n] numbers, and a buffer whose length is no
    multiple of four is rejected. *)
Theorem frombuffer_float32_length (b : list Z) :
  match Np.frombuffer_float32 b with
  | Return l => length b = (4 * length l)%nat
  | Raise _ => (length b mod 4)%nat <> 0%nat
  end.
Proof.
  assert (Hle : (length b <= length b)%nat) by lia.
  revert Hle. generalize (length b) at 2. intros n. revert b.
  induction n as [n IH] using lt_wf_ind. intros b Hle.
  destruct b as [|b0 [|b1 [|b2 [|b3 rest]]]]; try (simpl; discriminate).
  - reflexivity.
  - rewrite frombuffer_four.
    specialize (IH (length rest) ltac:(simpl in Hle; lia) rest (le_n _)).
    destruct (Np.frombuffer_float32 rest) as [l|e]; cbn [bind].
    + cbn [length]. lia.
    + cbn [length].
      replace (S (S (S (S (length rest))))) with (length rest + 1 * 4)%nat
        by lia.
      now rewrite Nat.Div0.mod_add.
Qed.

(** The decoder steps over a character that is neither in the alphabet nor
    the padding sign. *)
Lemma a2b_loop_skip (s1 s2 : string) (c : ascii) :
  value c = None -> Ascii.eqb c "=" = false ->
  forall quad_pos leftchar pads,
    a2b_loop (s1 +:+ String c s2) quad_pos leftchar pads =
    a2b_loop (s1 +:+ s2) quad_pos leftchar pads.
Proof.
  intros Hv Hp. induction s1 as [|x s1 IH]; intros quad_pos leftchar pads.
  - cbn [String.append a2b_loop]. now rewrite Hp, Hv.
  - cbn [String.append a2b_loop].
    destruct (Ascii.eqb x "=").
    + destruct (2 <=? quad_pos)%nat; [|apply IH].
      destruct (4 <=? quad_pos + (pads + 1))%nat; [reflexivity | apply IH].
    + destruct (value x) as [v|]; [|apply IH].
      destruct quad_pos as [|[|[|q]]]; now rewrite IH.
Qed.

(** X20: the base64 text of an embedding may be broken by characters outside the
    alphabet, such as line breaks or blanks: the decoded vector is the
    same. *)
Theorem decode_embedding_skips (s1 s2 : string) (c : ascii) :
  isascii c = true -> value c = None -> Ascii.eqb c "=" = false ->
  decode_embedding (EmbStr (s1 +:+ String c s2)) =
  decode_embedding (EmbStr (s1 +:+ s2)).
Proof.
  intros Ha Hv Hp. cbn [decode_embedding]. unfold b64decode, a2b_base64.
  rewrite !StrFacts.forallb_app. cbn [Str.forallb]. rewrite Ha. cbn [andb].
  now rewrite (a2b_loop_skip s1 s2 c Hv Hp).
Qed.

Lemma decode_embedding_skips_witness :
  decode_embedding (EmbStr ("AACAPw" +:+ String " " "AAQMA=")) =
  decode_embedding (EmbStr ("AACAPw" +:+ "AAQMA=")).
Proof.
  exact (decode_embedding_skips "AACAPw" "AAQMA=" " " eq_refl eq_refl eq_refl).
Defined.

End DecodeFacts.

(** ** More on the query batches *)

Module BatchFacts.

Section Batch.
Context {R : Type}.
Variable aquery : R -> string -> R * py_result string.

Lemma query_batch_azure_log (rag : R) (queries : list string) :
  forallb handled (query_outcomes aquery rag queries) = true ->
  (query_batch_azure aquery rag queries).2 = Return tt /\
  (query_batch_azure aquery rag queries).1.2 =
  concat (zip_with entry_azure queries (query_outcomes aquery rag queries)).
Proof.
  revert rag. induction queries as [|q qs IH]; intros rag; simpl;
    [now split|].
  destruct (aquery rag q) as [rag1 r]. simpl. intros H.
  apply andb_true_iff in H as [Hr Hrest].
  destruct (IH rag1 Hrest) as [IHres IHout].
  destruct (query_batch_azure aquery rag1 qs) as [[rag2 out] res].
  simpl in IHres, IHout. subst res out.
  destruct r as [result|e]; simpl in Hr |- *; [now split|].
  rewrite Hr. now split.
Qed.

(** X21: the query batch of azure_openai_example.py behaves like the two others:
    every query is run, a query that fails with an [Exception] leaves its
    error in the log, without a traceback, and the batch ends normally. *)
Theorem query_batch_azure_continues (rag : R) (queries : list string) :
  forallb handled (query_outcomes aquery rag queries) = true ->
  let outcomes := query_outcomes aquery rag queries in
  length outcomes = length queries /\
  (query_batch_azure aquery rag queries).2 = Return tt /\
  (query_batch_azure aquery rag queries).1.2 =
    concat (zip_with entry_azure queries outcomes) /\
  (query_batch_azure aquery rag queries).1.1 = rag_after aquery rag queries.
Proof.
  intros H outcomes. subst outcomes.
  split; [apply ExampleFacts.query_outcomes_length|].
  destruct (query_batch_azure_log rag queries H) as [Hres Hout].
  split; [exact Hres|]. split; [exact Hout|].
  clear Hres Hout. revert rag H.
  induction queries as [|q qs IH]; intros rag H; [reflexivity|].
  cbn [query_outcomes query_batch_azure rag_after] in *.
  destruct (aquery rag q) as [rag1 r]. cbn [forallb fst] in *.
  apply andb_true_iff in H as [Hr Hrest].
  specialize (IH rag1 Hrest).
  destruct (query_batch_azure aquery rag1 qs) as [[rag2 out] res].
  destruct r as [result|e]; [exact IH|].
  cbn [handled] in Hr. rewrite Hr. exact IH.
Qed.

(** X22: a query that ends with something other than an [Exception] (a
    cancellation, an exit) stops each of the three batches: the error leaves
    the loop, the queries after it are not run, and the log ends with the
    line that announced the query. *)
Theorem query_batch_stops (rag : R) (before : list string) (query : string)
    (after : list string) (e : exn) :
  forallb handled (query_outcomes aquery rag before) = true ->
  (aquery (rag_after aquery rag before) query).2 = Raise e ->
  is_Exception e = false ->
  let outcomes := query_outcomes aquery rag before in
  let rag' := (aquery (rag_after aquery rag before) query).1 in
  query_batch_custom aquery rag (before ++ query :: after) =
    (rag', concat (zip_with entry_custom before outcomes)
           ++ [LogInfo ("Query: " +:+ query)], Raise e) /\
  query_batch_fixed aquery rag (before ++ query :: after) =
    (rag', concat (zip_with entry_fixed before outcomes)
           ++ [LogInfo ("Query: " +:+ query)], Raise e) /\
  query_batch_azure aquery rag (before ++ query :: after) =
    (rag', concat (zip_with entry_azure before outcomes)
           ++ [LogInfo ("Query: " +:+ query)], Raise e).
Proof.
  revert rag. induction before as [|q qs IH]; intros rag H Hq He; cbv zeta.
  - cbn [app query_outcomes rag_after zip_with concat] in *.
    cbn [query_batch_custom query_batch_fixed query_batch_azure].
    destruct (aquery rag query) as [rag1 r]. cbn [fst snd] in *. subst r.
    rewrite He. now repeat split.
  - cbn [query_outcomes rag_after] in *.
    rewrite <- app_comm_cons.
    cbn [query_batch_custom query_batch_fixed query_batch_azure].
    destruct (aquery rag q) as [rag1 r]. cbn [forallb fst] in *.
    apply andb_true_iff in H as [Hr Hrest].
    destruct (IH rag1 Hrest Hq He) as (E1 & E2 & E3).
    rewrite E1, E2, E3. cbn [zip_with concat].
    destruct r as [result|e']; cbn [handled] in Hr;
      [|rewrite Hr]; now repeat split.
Qed.

End Batch.

Lemma query_batch_azure_continues_witness :
  (query_batch_azure flaky_aquery 0%nat ["q1"; "q2"]).1.2 =
  [LogInfo "Query: q1"; LogError "Query failed: timeout";
   LogInfo "Query: q2"; LogInfo "Answer: answer to q2"].
Proof.
  exact (proj1 (proj2 (proj2
           (query_batch_azure_continues flaky_aquery 0%nat ["q1"; "q2"]
              eq_refl)))).
Defined.

Lemma query_batch_stops_witness :
  query_batch_fixed cancelled_aquery 0%nat ["q1"; "q2"; "q3"] =
  (2%nat, [LogInfo "Query: q1"; LogInfo "Answer: answer to q1";
           LogInfo "Query: q2"], Raise CancelledError).
Proof.
  exact (proj1 (proj2
           (query_batch_stops cancelled_aquery 0%nat ["q1"] "q2" ["q3"]
              CancelledError eq_refl eq_refl eq_refl))).
Defined.

End BatchFacts.

(** ** The processing coroutines *)

Module ScriptFacts.

Lemma filter_finalize_out (out : list output) :
  List.filter is_finalize (map Out out) = [].
Proof. induction out as [|o out IH]; [reflexivity | exact IH]. Qed.

Section Scripts.
Context {R : Type}.
Variable RAGAnythingConfig : string -> py_result unit.
Variable EmbeddingFunc : Z -> py_result unit.
Variable RAGAnything : string -> py_result R.
Variable process_document_complete :
  R -> string -> option string -> R * py_result unit.
Variable aquery : R -> string -> R * py_result string.
Variable finalize_storages : R -> py_result unit.

(** The [finally] block lets only a non-[Exception] through. *)
Lemma custom_finally_result (rag : option R) :
  unhandled (custom_finally finalize_storages rag).2 = true \/
  (custom_finally finalize_storages rag).2 = Return tt.
Proof.
  unfold custom_finally. destruct rag as [rag|]; [|now right].
  destruct (finalize_storages rag) as [[]|e]; [now right|].
  destruct (is_Exception e) eqn:E; [now right|].
  left. cbn. now rewrite E.
Qed.

(** X23: [process_with_custom_azure_openai] never fails with an [Exception]:
    whatever goes wrong in the configuration, in the processing, in a query
    or in the clean-up is logged and swallowed, and the coroutine returns.
    Only a cancellation or an exit leaves it. *)
Theorem custom_never_raises_exception (file_path : string) (e : exn) :
  (process_with_custom_azure_openai RAGAnythingConfig RAGAnything
     process_document_complete aquery finalize_storages file_path).2 = Raise e ->
  is_Exception e = false.
Proof.
  unfold process_with_custom_azure_openai.
  destruct (custom_try _ _ _ _ file_path) as [[t rag] r].
  destruct (custom_finally_result rag) as [Hc|Hc];
    destruct (custom_finally finalize_storages rag) as [t2 c];
    cbn [snd] in Hc.
  - destruct c as [[]|e2]; [discriminate|].
    destruct r as [[]|e1]; [|destruct (is_Exception e1)];
      cbn; intros [= <-]; cbn in Hc; now apply negb_true_iff in Hc.
  - subst c. destruct r as [[]|e1]; [discriminate|].
    destruct (is_Exception e1) eqn:E; cbn; [discriminate|].
    now intros [= <-].
Qed.

(** The trace of the [try] block holds no clean-up, and an engine is bound
    to [rag] exactly when both constructors returned. *)
Lemma custom_try_facts (file_path : string) :
  let c := custom_try RAGAnythingConfig RAGAnything process_document_complete
             aquery file_path in
  List.filter is_finalize c.1.1 = [] /\
  (match RAGAnythingConfig "./rag_storage_custom",
         RAGAnything "./rag_storage_custom" with
   | Return _, Return _ => c.1.2 <> None
   | _, _ => c.1.2 = None
   end).
Proof.
  unfold custom_try.
  destruct (RAGAnythingConfig _) as [[]|e0]; [|now split].
  destruct (RAGAnything _) as [rag|e1]; [|now split].
  destruct (process_document_complete rag file_path None) as [rag1 [[]|e2]];
    [|now split].
  destruct (query_batch_custom aquery rag1 queries) as [[rag2 out] [[]|e3]];
    cbn [fst snd]; (split; [|discriminate]);
    rewrite ?List.filter_app, filter_finalize_out; reflexivity.
Qed.

(** X24: [process_with_custom_azure_openai] calls [finalize_storages] exactly
    once when the engine was constructed, on every path through the
    processing and the queries, and never when it was not. *)
Theorem custom_finalizes_once (file_path : string) :
  length (List.filter is_finalize
            (process_with_custom_azure_openai RAGAnythingConfig RAGAnything
     process_document_complete aquery finalize_storages file_path).1) =
  match RAGAnythingConfig "./rag_storage_custom",
        RAGAnything "./rag_storage_custom" with
  | Return _, Return _ => 1%nat
  | _, _ => 0%nat
  end.
Proof.
  pose proof (custom_try_facts file_path) as [Hf Hrag]. cbv zeta in *.
  unfold process_with_custom_azure_openai.
  destruct (custom_try _ _ _ _ file_path) as [[t rag] r]. cbn [fst snd] in *.
  assert (Ht1 : forall t1 r1,
            (match r with
             | Raise e =>
                 if is_Exception e then
                   (t ++ [Out (LogError ("Error during processing: "
                                         +:+ exn_str e));
                          Out (PrintExc e)], @Return unit tt)
                 else (t, Raise e)
             | Return _ => (t, Return tt)
             end) = (t1, r1) -> List.filter is_finalize t1 = []).
  { intros t1 r1. destruct r as [[]|e]; [|destruct (is_Exception e)];
      intros [= <- <-]; rewrite ?List.filter_app, Hf; reflexivity. }
  destruct (match r with Raise _ => _ | Return _ => _ end) as [t1 r1] eqn:E.
  specialize (Ht1 t1 r1 eq_refl).
  unfold custom_finally.
  destruct (RAGAnythingConfig _) as [[]|e0];
    [destruct (RAGAnything _) as [rag0|e1]|].
  - destruct rag as [rag|]; [|congruence].
    destruct (finalize_storages rag) as [[]|e]; [|destruct (is_Exception e)];
      cbn [fst]; rewrite List.filter_app, Ht1; reflexivity.
  - subst rag. cbn [fst]. rewrite List.filter_app, Ht1. reflexivity.
  - subst rag. cbn [fst]. rewrite List.filter_app, Ht1. reflexivity.
Qed.

(** X25: when the engine cannot be constructed, [rag] is unbound in the
    [finally] block.  The [UnboundLocalError] of the clean-up is caught
    there as well: the log ends with the construction error, its traceback
    and a warning about [rag], and the coroutine returns normally. *)
Theorem custom_unbound_rag (file_path : string) (e : exn) :
  RAGAnythingConfig "./rag_storage_custom" = Return tt ->
  RAGAnything "./rag_storage_custom" = Raise e ->
  is_Exception e = true ->
  exists t,
    process_with_custom_azure_openai RAGAnythingConfig RAGAnything
      process_document_complete aquery finalize_storages file_path =
    (t ++ [Construct;
           Out (LogError ("Error during processing: " +:+ exn_str e));
           Out (PrintExc e);
           LogWarning ("Warning: Failed to finalize RAGAnything: "
                       +:+ unbound_rag)],
     Return tt).
Proof.
  intros Hc Hr He. unfold process_with_custom_azure_openai, custom_try.
  rewrite Hc, Hr, He. cbn [custom_finally].
  match goal with
  | |- context [(?header ++ [Construct]) ++ _] => exists header
  end.
  rewrite <- !List.app_assoc. reflexivity.
Qed.

(** The part shared by the two other scripts returns normally only after
    [finalize_storages] has returned. *)
Lemma process_and_query_outcome
    (batch : R -> list string -> R * list output * py_result unit)
    (working_dir file_path output_dir : string) :
  let c := process_and_query RAGAnything process_document_complete
             finalize_storages batch working_dir file_path output_dir in
  match c.2 with
  | Return _ =>
      exists t, c.1 = t ++ [FinalizeStorages;
                            Out (LogInfo "All operations completed successfully!")]
  | Raise _ => True
  end.
Proof.
  unfold process_and_query.
  destruct (RAGAnything working_dir) as [rag|e]; [|exact I].
  destruct (process_document_complete rag file_path (Some output_dir))
    as [rag1 [[]|e]]; [|exact I].
  destruct (batch rag1 queries) as [[rag2 out] [[]|e]]; [|exact I].
  destruct (finalize_storages rag2) as [[]|e]; [|exact I].
  cbn [fst snd]. eexists. reflexivity.
Qed.

(** X26: [process_with_fixed_azure_openai] and [process_with_azure_openai] end in
    one of two ways.  They return, and then the last things they did were
    the clean-up of the engine and the success message; or they raise, and
    then an [Exception] is the last entry of the log (followed by its
    traceback in the first script) and it is the error that the caller
    gets: nothing is swallowed. *)
Theorem reraising_scripts_outcome
    (chk : string -> option exn) (py_int : string -> py_result Z)
    (dotenv environ : gmap string string) (file_path output_dir : string) :
  let fixed :=
    process_with_fixed_azure_openai RAGAnythingConfig EmbeddingFunc RAGAnything
      process_document_complete aquery finalize_storages chk dotenv environ
      file_path output_dir in
  let azure :=
    process_with_azure_openai RAGAnythingConfig EmbeddingFunc RAGAnything
      process_document_complete aquery finalize_storages py_int environ
      file_path output_dir in
  match fixed.2 with
  | Return _ =>
      exists t, fixed.1 =
        t ++ [FinalizeStorages;
              Out (LogInfo "All operations completed successfully!")]
  | Raise e =>
      is_Exception e = true ->
      exists t, fixed.1 =
        t ++ [Out (LogError ("Error: " +:+ exn_str e)); Out (PrintExc e)]
  end /\
  match azure.2 with
  | Return _ =>
      exists t, azure.1 =
        t ++ [FinalizeStorages;
              Out (LogInfo "All operations completed successfully!")]
  | Raise e =>
      is_Exception e = true ->
      exists t, azure.1 = t ++ [Out (LogError ("Error: " +:+ exn_str e))]
  end.
Proof.
  cbv zeta. split.
  - unfold process_with_fixed_azure_openai, fixed_try.
    destruct (parse_azure_openai_config chk dotenv environ) as [cfg|e0].
    2:{ destruct (is_Exception e0) eqn:E; cbn [fst snd];
          [intros _; now exists [] | congruence]. }
    destruct (RAGAnythingConfig _) as [[]|e1].
    2:{ destruct (is_Exception e1) eqn:E; cbn [fst snd];
          [intros _; eexists; reflexivity | congruence]. }
    destruct (EmbeddingFunc _) as [[]|e2].
    2:{ destruct (is_Exception e2) eqn:E; cbn [fst snd];
          [intros _; eexists; reflexivity | congruence]. }
    pose proof (process_and_query_outcome (query_batch_fixed aquery)
                  "./rag_storage_new" file_path output_dir) as H.
    cbv zeta in H.
    destruct (process_and_query _ _ _ _ _ _ _) as [t [[]|e]]; cbn [fst snd] in *.
    + destruct H as [t' ->]. eexists. rewrite List.app_assoc. reflexivity.
    + destruct (is_Exception e) eqn:E; cbn [fst snd];
        [intros _; eexists; reflexivity | congruence].
  - unfold process_with_azure_openai, azure_try.
    destruct (get_azure_openai_config py_int environ) as [cfg|e0].
    2:{ destruct (is_Exception e0) eqn:E; cbn [fst snd];
          [intros _; now exists [] | congruence]. }
    destruct (RAGAnythingConfig _) as [[]|e1].
    2:{ destruct (is_Exception e1) eqn:E; cbn [fst snd];
          [intros _; eexists; reflexivity | congruence]. }
    destruct (EmbeddingFunc _) as [[]|e2].
    2:{ destruct (is_Exception e2) eqn:E; cbn [fst snd];
          [intros _; eexists; reflexivity | congruence]. }
    pose proof (process_and_query_outcome (query_batch_azure aquery)
                  "./rag_storage" file_path output_dir) as H.
    cbv zeta in H.
    destruct (process_and_query _ _ _ _ _ _ _) as [t [[]|e]]; cbn [fst snd] in *.
    + destruct H as [t' ->]. eexists. rewrite List.app_assoc. reflexivity.
    + destruct (is_Exception e) eqn:E; cbn [fst snd];
        [intros _; eexists; reflexivity | congruence].
Qed.


Variable path_exists : string -> bool.
Variable makedirs : string -> py_result unit.


End Scripts.

Lemma custom_never_raises_exception_witness :
  (process_with_custom_azure_openai (fun _ => Return tt)
     (fun _ => Return 0%nat) (fun n _ _ => (n, Return tt))
     cancelled_aquery (fun _ => Return tt) "paper.pdf").2 =
    Raise CancelledError /\
  is_Exception CancelledError = false.
Proof.
  split; [reflexivity|].
  exact (custom_never_raises_exception (fun _ => Return tt)
           (fun _ => Return 0%nat) (fun n _ _ => (n, Return tt))
           cancelled_aquery (fun _ => Return tt) "paper.pdf" CancelledError
           eq_refl).
Defined.

Lemma custom_unbound_rag_witness :
  exists t,
    process_with_custom_azure_openai (fun _ => Return tt)
      (fun _ => @Raise nat (RemoteError "no parser"))
      (fun n _ _ => (n, Return tt)) flaky_aquery (fun _ => Return tt)
      "paper.pdf" =
    (t ++ [Construct;
           Out (LogError "Error during processing: no parser");
           Out (PrintExc (RemoteError "no parser"));
           LogWarning
             "Warning: Failed to finalize RAGAnything: cannot access local variable 'rag' where it is not associated with a value"],
     Return tt).
Proof.
  exact (custom_unbound_rag (fun _ => Return tt)
           (fun _ => @Raise nat (RemoteError "no parser"))
           (fun n _ _ => (n, Return tt)) flaky_aquery (fun _ => Return tt)
           "paper.pdf" (RemoteError "no parser") eq_refl eq_refl eq_refl).
Defined.


End ScriptFacts.

(** ** The steps of debug_azure_integration.py *)

Module DebugFacts.

Section Steps.
Context {V : Type}.
Variable chat : string -> list message -> gmap string V ->
                py_result (list (option string)).
Variable emb : string -> list string -> gmap string V ->
               py_result (list embedding_field).
Variable dotenv : gmap string string.
Variable import_azure_lightrag_fix : py_result unit.
Variable shape_str : list (list spec_float) -> string.

(** X28: the first step reports success exactly when the import, the embedding
    call and the completion call all returned and the completion is a text:
    a completion without content ([None]) fails the step at the slice
    [llm_result[:50]].  The step never fails with an [Exception]; it turns
    every one of them into the verdict [False]. *)
Theorem test_azure_functions_basic_verdict (environ : gmap string string) :
  let step :=
    test_azure_functions_basic chat emb dotenv import_azure_lightrag_fix
      shape_str environ in
  let embed :=
    azure_openai_embed emb dotenv environ
      (inr ["Hello world"; "Test embedding"]) ∅ in
  let complete :=
    azure_openai_complete_if_cache chat (load_dotenv dotenv environ)
      (Some "What is 2+2?") (Some "You are a helpful assistant.") [] ∅ in
  (step.2 = Return true <->
   import_azure_lightrag_fix = Return tt /\
   (exists rows, embed.2 = Return rows) /\
   (exists text, complete.2 = Return (Some text))) /\
  (forall e, step.2 = Raise e -> is_Exception e = false).
Proof.
  cbv zeta. unfold test_azure_functions_basic, step1_try.
  destruct import_azure_lightrag_fix as [[]|e0].
  2:{ destruct (is_Exception e0) eqn:E; cbn [fst snd]; split;
        try (split; [discriminate | intros (H & _); discriminate]);
        intros e; [discriminate | now intros [= <-]]. }
  destruct (azure_openai_embed _ _ _ _ _) as [te [rows|e1]].
  2:{ destruct (is_Exception e1) eqn:E; cbn [fst snd]; split;
        try (split; [discriminate | intros (_ & [? H] & _); discriminate]);
        intros e; [discriminate | now intros [= <-]]. }
  destruct (azure_openai_complete_if_cache _ _ _ _ _ _) as [tc [[text|]|e2]].
  - cbn [fst snd]. split; [|discriminate].
    split; [intros _; eauto | reflexivity].
  - cbn [fst snd is_Exception]. split; [|discriminate].
    split; [discriminate | intros (_ & _ & [? H]); discriminate].
  - destruct (is_Exception e2) eqn:E; cbn [fst snd]; split;
      try (split; [discriminate | intros (_ & _ & [? H]); discriminate]);
      intros e; [discriminate | now intros [= <-]].
Qed.

Variable test_raganything_config : list (@step_event V) * py_result bool.
Variable test_simple_text_processing : list (@step_event V) * py_result bool.

(** X29: without the configuration of the embedding function the first step
    sends nothing to the SDK and reports failure, and [main] leaves with
    status 1 without running the two other steps. *)
Theorem debug_main_missing_config (environ : gmap string string) :
  import_azure_lightrag_fix = Return tt ->
  all_truthy [load_dotenv dotenv environ !! "AZURE_OPENAI_API_KEY";
              load_dotenv dotenv environ !! "AZURE_OPENAI_ENDPOINT";
              load_dotenv dotenv environ !! "AZURE_OPENAI_EMBEDDING_DEPLOYMENT"]
  = false ->
  let main :=
    debug_main chat emb dotenv import_azure_lightrag_fix shape_str
      test_raganything_config test_simple_text_processing environ in
  main =
    ([Log (LogInfo "Starting Azure RAGAnything Integration Debug");
      Log (LogInfo (rule 60));
      Log (LogInfo "Step 1: Testing Azure functions in isolation");
      Log (LogInfo "Azure functions imported successfully");
      Log (LogInfo "Testing embedding function...");
      Log (LogError
        "Azure functions test failed: Missing required Azure OpenAI embedding configuration");
      Log (LogError "Step 1 failed - Azure functions not working")],
     Raise (SystemExit 1)) /\
  existsb is_sdk main.1 = false /\
  exit_status main.2 = 1%Z.
Proof.
  intros Hi Hc. cbv zeta.
  unfold debug_main, run_step, test_azure_functions_basic, step1_try.
  rewrite Hi, (LightragFacts.embed_config_error emb dotenv environ _ _ Hc).
  cbn. now repeat split.
Qed.

(** X30: [main] returns exactly when the three steps all reported success.  A
    step that reports failure ends the script with status 1, and the steps
    after it leave nothing in the trace. *)
Theorem debug_main_verdict (environ : gmap string string) :
  let step1 :=
    test_azure_functions_basic chat emb dotenv import_azure_lightrag_fix
      shape_str environ in
  let main :=
    debug_main chat emb dotenv import_azure_lightrag_fix shape_str
      test_raganything_config test_simple_text_processing environ in
  (main.2 = Return tt <->
   step1.2 = Return true /\ test_raganything_config.2 = Return true /\
   test_simple_text_processing.2 = Return true) /\
  (step1.2 = Return false ->
   main = (Log (LogInfo "Starting Azure RAGAnything Integration Debug") ::
           Log (LogInfo (rule 60)) :: step1.1 ++
           [Log (LogError "Step 1 failed - Azure functions not working")],
           Raise (SystemExit 1))) /\
  (step1.2 = Return true -> test_raganything_config.2 = Return false ->
   main = (Log (LogInfo "Starting Azure RAGAnything Integration Debug") ::
           Log (LogInfo (rule 60)) :: step1.1 ++ test_raganything_config.1 ++
           [Log (LogError "Step 2 failed - RAGAnything config issues")],
           Raise (SystemExit 1))).
Proof.
  cbv zeta. unfold debug_main, run_step.
  destruct (test_azure_functions_basic _ _ _ _ _ _) as [t1 [[|]|e1]];
    cbn [fst snd].
  - destruct test_raganything_config as [t2 [[|]|e2]]; cbn [fst snd].
    + destruct test_simple_text_processing as [t3 [[|]|e3]]; cbn [fst snd];
        (split; [split; [try discriminate; now intros _
                        | try (intros (_ & _ & H); discriminate H);
                          reflexivity]
                | split; discriminate]).
    + split; [split; [discriminate | intros (_ & H & _); discriminate H]|].
      split; [discriminate | reflexivity].
    + split; [split; [discriminate | intros (_ & H & _); discriminate H]|].
      split; discriminate.
  - split; [split; [discriminate | intros (H & _); discriminate H]|].
    split; [reflexivity | discriminate].
  - split; [split; [discriminate | intros (H & _); discriminate H]|].
    split; discriminate.
Qed.

End Steps.

Lemma debug_main_missing_config_witness :
  exit_status
    (debug_main chat_ok embed_ok ∅ (Return tt) (fun _ => "(2, 2)")
       ([], Return true) ([], Return true) env_llm).2 = 1%Z.
Proof.
  exact (proj2 (proj2
           (debug_main_missing_config chat_ok embed_ok ∅ (Return tt)
              (fun _ => "(2, 2)") ([], Return true) ([], Return true) env_llm
              eq_refl eq_refl))).
Defined.

End DebugFacts.
